(** * Inventory game: a shallow embedding of [game.py]

    The development follows the Python source function by function.

    - Python [int]s are [Z].
    - Money ([price], [cost], [cash], revenue, profit, score) is a Python
      [float] that the program only adds, subtracts, multiplies and compares;
      it is modelled by exact rationals [Q] (no rounding), compared with [==].
    - The demand of a day, [int(base_demand * random.uniform(0.7, 1.3))], is
      computed on doubles: rationals rounded to 53 significant bits with
      ties to even ([round_double]); the product is rounded before [int]
      truncates it. The exponent of a double is left unbounded (no overflow,
      no subnormal numbers); the demands of the game are far from both.
    - The statistics side ([np.mean], [np.std], [math.sqrt],
      [scipy.stats.norm.ppf]) needs square roots, infinities and NaN; it is
      modelled by [pyfloat], the reals extended with the IEEE special values.
    - [st.session_state] is the record [SessionState], passed explicitly;
      every Python [dict] is a [gmap] keyed by the product id. A loop over a
      dictionary is a [map_fold]; the loops of the program treat each key on
      its own, so the order of the visit only shows in the order of the
      lists they build ([stockouts], [order_details]), of which the program
      only tests emptiness.
    - A [KeyError] (or [ValueError]) escaping a function is the result [None].
    - [random.uniform(0.7, 1.3)] is an explicit input of the simulation: a
      function giving, for each product id, the factor drawn for it that day.
    - A run of the script is a function of what the widgets return in that
      run (the record [Widgets]) and of the button pressed; the state kept
      between runs is the record [Wizard]. Of the display code of a page
      only what can raise on the data of the session is kept (lookups,
      divisions, square roots, the index into a row of columns); the
      rendering itself (Streamlit, pandas, plotly, string formatting) is
      left out. *)

From Stdlib Require Import ZArith QArith Qround Qpower Reals Ranalysis5 Zfloor
  Psatz Epsilon.
From stdpp Require Import gmap strings list fin_maps.

Local Open Scope Z_scope.

(** * Part I. Numbers

    ** The standard normal distribution

    [scipy.stats.norm.ppf] is the inverse of the cumulative distribution
    function of the standard normal law. The law is built here from the
    bell curve [exp(-t^2/2)]: its mass over the positive half line is the
    least upper bound [half_mass] of the areas over [0, x] (its closed form,
    [sqrt(pi/2)], is not needed), and the distribution function is the share
    of the mass to the left of a point. *)

Module Normal.
Local Open Scope R_scope.

(** The bell curve without its normalising constant. *)
Definition bell (t : R) : R := exp (- (t * t) / 2).

Lemma bell_continuous : continuity bell.
Proof. unfold bell. reg. Qed.

Lemma bell_pos t : 0 < bell t.
Proof. apply exp_pos. Qed.

Lemma bell_le_1 t : bell t <= 1.
Proof.
  unfold bell. rewrite <- exp_0.
  destruct (Req_dec t 0) as [->|Hne].
  - right. f_equal. lra.
  - left. apply exp_increasing. nra.
Qed.

Lemma bell_decreasing s t : 0 <= s <= t -> bell t <= bell s.
Proof.
  intros H. unfold bell.
  destruct (Req_dec (t * t) (s * s)) as [E|Hne].
  - right. by rewrite E.
  - left. apply exp_increasing. nra.
Qed.

Lemma bell_integrable a b : Riemann_integrable bell a b.
Proof.
  destruct (Rle_dec a b) as [Hab|Hba].
  - apply continuity_implies_RiemannInt; [exact Hab|].
    intros x _. apply bell_continuous.
  - apply RiemannInt_P1, continuity_implies_RiemannInt; [lra|].
    intros x _. apply bell_continuous.
Qed.

(** The area under the bell curve between [a] and [b]. *)
Definition area (a b : R) : R := RiemannInt (bell_integrable a b).

Lemma area_chasles a b c : area a b + area b c = area a c.
Proof. apply RiemannInt_P26. Qed.

Lemma area_same a : area a a = 0.
Proof. apply RiemannInt_P9. Qed.

Lemma area_bounds a b m M :
  a <= b ->
  (forall x, a < x < b -> m <= bell x <= M) ->
  m * (b - a) <= area a b <= M * (b - a).
Proof.
  intros Hab Hx. unfold area. split.
  - rewrite <- (RiemannInt_P15 (RiemannInt_P14 a b m)).
    apply RiemannInt_P19; [exact Hab|]. intros x H. apply Hx, H.
  - rewrite <- (RiemannInt_P15 (RiemannInt_P14 a b M)).
    apply RiemannInt_P19; [exact Hab|]. intros x H. apply Hx, H.
Qed.

Lemma area_lipschitz a b : Rabs (area a b) <= Rabs (b - a).
Proof.
  destruct (Rle_dec a b) as [Hab|Hba].
  - destruct (area_bounds a b 0 1 Hab) as [H0 H1].
    { intros x _. split; [left; apply bell_pos|apply bell_le_1]. }
    rewrite !Rabs_pos_eq; lra.
  - assert (b <= a) as Hab by lra.
    destruct (area_bounds b a 0 1 Hab) as [H0 H1].
    { intros x _. split; [left; apply bell_pos|apply bell_le_1]. }
    pose proof (area_chasles a b a) as Hc. rewrite area_same in Hc.
    rewrite <- Rabs_Ropp, <- (Rabs_Ropp (b - a)).
    rewrite !Rabs_pos_eq; lra.
Qed.

Lemma area_increasing a b : 0 <= a < b -> 0 < area a b.
Proof.
  intros [Ha Hab].
  destruct (area_bounds a b (bell b) 1) as [H _]; [lra| |].
  - intros x Hx. split; [apply bell_decreasing; lra|apply bell_le_1].
  - pose proof (bell_pos b). nra.
Qed.

(** Half of the mass: the area from 0 to [x]. *)
Definition half_area (x : R) : R := area 0 x.

Lemma half_area_0 : half_area 0 = 0.
Proof. apply area_same. Qed.

Lemma half_area_diff x y : half_area y - half_area x = area x y.
Proof. unfold half_area. pose proof (area_chasles 0 x y). lra. Qed.

Lemma half_area_strict x y : 0 <= x < y -> half_area x < half_area y.
Proof.
  intros H. pose proof (half_area_diff x y). pose proof (area_increasing x y H). lra.
Qed.

Lemma half_area_continuous : continuity half_area.
Proof.
  intros x. unfold continuity_pt, continue_in, limit1_in, limit_in.
  intros eps Heps. exists eps. split; [exact Heps|].
  intros y [_ Hy]. simpl in *. unfold R_dist in *.
  rewrite half_area_diff.
  eapply Rle_lt_trans; [apply area_lipschitz|exact Hy].
Qed.

(** *** The area is bounded *)

Lemma bell_bound x : bell x <= 2 / (2 + x * x).
Proof.
  unfold bell.
  replace (- (x * x) / 2) with (- (x * x / 2)) by lra.
  rewrite exp_Ropp.
  pose proof (exp_ineq1_le (x * x / 2)) as H.
  assert (0 < 1 + x * x / 2) as Hpos by nra.
  replace (2 / (2 + x * x)) with (/ (1 + x * x / 2)) by (field; nra).
  apply Rinv_le_contravar; assumption.
Qed.

Lemma half_area_nat n : half_area (INR (S n)) <= 5 - 4 / INR (S n).
Proof.
  induction n as [|n IH].
  - simpl. destruct (area_bounds 0 1 0 1) as [_ H]; [lra| |].
    + intros x _. split; [left; apply bell_pos|apply bell_le_1].
    + unfold half_area. lra.
  - set (k := INR (S n)) in *.
    assert (1 <= k) as Hk.
    { unfold k. rewrite S_INR. pose proof (pos_INR n). lra. }
    replace (INR (S (S n))) with (k + 1) by (unfold k; by rewrite (S_INR (S n))).
    pose proof (half_area_diff k (k + 1)) as Hd.
    destruct (area_bounds k (k + 1) 0 (bell k)) as [_ Hb]; [lra| |].
    { intros x Hx. split; [left; apply bell_pos|apply bell_decreasing; lra]. }
    pose proof (bell_bound k) as Hbell.
    assert (2 / (2 + k * k) <= 4 / k - 4 / (k + 1)) as Hfrac.
    { replace (4 / k - 4 / (k + 1)) with (4 / (k * (k + 1))) by (field; lra).
      unfold Rdiv.
      apply Rmult_le_reg_r with ((2 + k * k) * (k * (k + 1))); [nra|].
      replace (2 * / (2 + k * k) * ((2 + k * k) * (k * (k + 1))))
        with (2 * (k * (k + 1))) by (field; nra).
      replace (4 * / (k * (k + 1)) * ((2 + k * k) * (k * (k + 1))))
        with (4 * (2 + k * k)) by (field; nra).
      nra. }
    lra.
Qed.

Lemma half_area_mono x y : 0 <= x <= y -> half_area x <= half_area y.
Proof.
  intros [Hx [Hlt|<-]]; [|lra]. left. by apply half_area_strict.
Qed.

Lemma half_area_bounded x : 0 <= x -> half_area x <= 5.
Proof.
  intros Hx.
  destruct (archimed x) as [Hup _].
  assert (0 < up x)%Z as Hpos by (apply lt_IZR; lra).
  destruct (Z.to_nat (up x)) as [|n] eqn:E; [lia|].
  assert (INR (S n) = IZR (up x)) as Hn.
  { rewrite <- E, INR_IZR_INZ. f_equal. lia. }
  pose proof (half_area_nat n) as Hb.
  pose proof (half_area_mono x (INR (S n))) as Hm.
  assert (0 < 4 / INR (S n)).
  { apply Rdiv_lt_0_compat; [lra|]. rewrite Hn. lra. }
  rewrite Hn in *. lra.
Qed.

(** *** The total mass *)

Definition half_areas (c : R) : Prop := exists x, 0 <= x /\ half_area x = c.

Lemma half_areas_bound : bound half_areas.
Proof. exists 5. intros c (x & Hx & <-). by apply half_area_bounded. Qed.

Lemma half_areas_inhabited : exists c, half_areas c.
Proof. exists 0, 0. split; [lra|apply half_area_0]. Qed.

(** The area under the bell curve over the positive half line: the least
    upper bound of the areas over [0, x]. *)
Definition half_mass : R :=
  proj1_sig (completeness half_areas half_areas_bound half_areas_inhabited).

Lemma half_mass_lub : is_lub half_areas half_mass.
Proof. unfold half_mass. by destruct (completeness _ _ _). Qed.

Lemma half_area_lt_mass x : 0 <= x -> half_area x < half_mass.
Proof.
  intros Hx. destruct half_mass_lub as [Hub _].
  apply Rlt_le_trans with (half_area (x + 1)).
  - apply half_area_strict. lra.
  - apply Hub. exists (x + 1). split; [lra|done].
Qed.

Lemma half_mass_pos : 0 < half_mass.
Proof. rewrite <- half_area_0. apply half_area_lt_mass. lra. Qed.

Lemma half_area_reaches c :
  0 <= c < half_mass -> exists x, 0 <= x /\ half_area x = c.
Proof.
  intros [[Hc|<-] Hlt]; [|exists 0; split; [lra|apply half_area_0]].
  destruct half_mass_lub as [_ Hleast].
  assert (exists x, 0 <= x /\ c < half_area x) as (x1 & Hx1 & Hcx).
  { apply Classical_Prop.NNPP. intros Hno.
    assert (half_mass <= c); [|lra].
    apply Hleast. intros d (x & Hx & <-).
    apply Rnot_lt_le. intros Hlt'. apply Hno. by exists x. }
  assert (0 < x1) as Hx1'.
  { destruct Hx1 as [H|<-]; [done|]. rewrite half_area_0 in Hcx. lra. }
  destruct (IVT_interv (fun x => half_area x - c) 0 x1) as (z & Hz & Hfz).
  - intros a _. apply continuity_pt_minus; [apply half_area_continuous|].
    apply continuity_pt_const. by intros ? ?.
  - exact Hx1'.
  - rewrite half_area_0. lra.
  - lra.
  - exists z. split; [lra|lra].
Qed.

(** *** The standard normal distribution *)

(** The cumulative distribution function of the standard normal law: the
    share of the mass of the bell curve to the left of [x]. By symmetry it
    is one half plus or minus the share of the mass between 0 and [|x|]. *)
Definition normal_cdf (x : R) : R :=
  if Rle_dec 0 x then 1 / 2 + half_area x / (2 * half_mass)
  else 1 / 2 - half_area (- x) / (2 * half_mass).

(** The inverse of the cumulative distribution function: the point to the
    left of which lies the share [p] of the mass. *)
Definition normal_quantile (p : R) : R :=
  epsilon (inhabits 0) (fun x => normal_cdf x = p).

Lemma share_bounds h :
  0 <= h < half_mass -> 0 <= h / (2 * half_mass) < 1 / 2.
Proof.
  intros Hh. pose proof half_mass_pos as Hm.
  assert (h / (2 * half_mass) * (2 * half_mass) = h) as E by (field; lra).
  split.
  - apply Rmult_le_reg_r with (2 * half_mass); [lra|]. rewrite E. lra.
  - apply Rmult_lt_reg_r with (2 * half_mass); [lra|]. rewrite E. lra.
Qed.

Lemma share_strict h1 h2 :
  h1 < h2 -> h1 / (2 * half_mass) < h2 / (2 * half_mass).
Proof.
  intros H. pose proof half_mass_pos as Hm.
  apply Rmult_lt_compat_r; [|exact H].
  apply Rinv_0_lt_compat. lra.
Qed.

Lemma normal_cdf_0 : normal_cdf 0 = 1 / 2.
Proof.
  unfold normal_cdf. destruct (Rle_dec 0 0) as [_|H]; [|lra].
  rewrite half_area_0. unfold Rdiv at 2. lra.
Qed.

Lemma normal_cdf_upper x : 0 <= x -> 1 / 2 <= normal_cdf x < 1.
Proof.
  intros Hx. unfold normal_cdf. destruct (Rle_dec 0 x) as [_|H]; [|lra].
  pose proof (half_area_mono 0 x) as H0. rewrite half_area_0 in H0.
  pose proof (half_area_lt_mass x Hx).
  pose proof (share_bounds (half_area x)). lra.
Qed.

Lemma normal_cdf_lower x : x < 0 -> 0 < normal_cdf x < 1 / 2.
Proof.
  intros Hx. unfold normal_cdf. destruct (Rle_dec 0 x) as [H|_]; [lra|].
  pose proof (half_area_strict 0 (- x)) as H0. rewrite half_area_0 in H0.
  pose proof (half_area_lt_mass (- x)).
  pose proof (share_bounds (half_area (- x))).
  pose proof (share_strict 0 (half_area (- x))) as Hs.
  unfold Rdiv at 1 in Hs. rewrite Rmult_0_l in Hs. lra.
Qed.

Lemma normal_cdf_range x : 0 < normal_cdf x < 1.
Proof.
  destruct (Rle_dec 0 x) as [H|H].
  - pose proof (normal_cdf_upper x H). lra.
  - pose proof (normal_cdf_lower x). lra.
Qed.

Lemma normal_cdf_strict x y : x < y -> normal_cdf x < normal_cdf y.
Proof.
  intros Hxy.
  destruct (Rle_dec 0 x) as [Hx|Hx]; destruct (Rle_dec 0 y) as [Hy|Hy].
  - unfold normal_cdf.
    destruct (Rle_dec 0 x); [|lra]. destruct (Rle_dec 0 y); [|lra].
    pose proof (share_strict (half_area x) (half_area y)).
    pose proof (half_area_strict x y). lra.
  - lra.
  - pose proof (normal_cdf_lower x). pose proof (normal_cdf_upper y). lra.
  - unfold normal_cdf.
    destruct (Rle_dec 0 x); [lra|]. destruct (Rle_dec 0 y); [lra|].
    pose proof (share_strict (half_area (- y)) (half_area (- x))).
    pose proof (half_area_strict (- y) (- x)). lra.
Qed.

Lemma normal_cdf_injective x y : normal_cdf x = normal_cdf y -> x = y.
Proof.
  intros E. destruct (Rtotal_order x y) as [H|[H|H]]; [|exact H|].
  - pose proof (normal_cdf_strict x y H). lra.
  - pose proof (normal_cdf_strict y x H). lra.
Qed.

Lemma normal_cdf_onto p : 0 < p < 1 -> exists x, normal_cdf x = p.
Proof.
  intros Hp. pose proof half_mass_pos as Hm.
  destruct (Rle_dec (1 / 2) p) as [Hhalf|Hhalf].
  - destruct (half_area_reaches ((2 * p - 1) * half_mass)) as (x & Hx & E); [nra|].
    exists x. unfold normal_cdf. destruct (Rle_dec 0 x); [|lra].
    rewrite E. field. lra.
  - destruct (half_area_reaches ((1 - 2 * p) * half_mass)) as (x & Hx & E); [nra|].
    assert (0 < x) as Hx'.
    { destruct Hx as [H|<-]; [exact H|]. rewrite half_area_0 in E. nra. }
    exists (- x). unfold normal_cdf. destruct (Rle_dec 0 (- x)); [lra|].
    rewrite Ropp_involutive, E. field. lra.
Qed.

Lemma normal_cdf_quantile p : 0 < p < 1 -> normal_cdf (normal_quantile p) = p.
Proof.
  intros Hp. unfold normal_quantile.
  apply (epsilon_spec (inhabits 0) (fun x => normal_cdf x = p)).
  by apply normal_cdf_onto.
Qed.

Lemma normal_quantile_cdf x : normal_quantile (normal_cdf x) = x.
Proof.
  apply normal_cdf_injective, normal_cdf_quantile, normal_cdf_range.
Qed.

Lemma normal_quantile_strict p q :
  0 < p -> p < q -> q < 1 -> normal_quantile p < normal_quantile q.
Proof.
  intros Hp Hpq Hq.
  apply Rnot_le_lt. intros [Hlt|Heq].
  - apply normal_cdf_strict in Hlt.
    rewrite !normal_cdf_quantile in Hlt by lra. lra.
  - apply (f_equal normal_cdf) in Heq.
    rewrite !normal_cdf_quantile in Heq by lra. lra.
Qed.

Lemma normal_quantile_half : normal_quantile (1 / 2) = 0.
Proof. rewrite <- normal_cdf_0. apply normal_quantile_cdf. Qed.

Lemma normal_quantile_sign p :
  0 < p < 1 ->
  (p < 1 / 2 -> normal_quantile p < 0) /\
  (1 / 2 < p -> 0 < normal_quantile p).
Proof.
  intros Hp. rewrite <- normal_quantile_half.
  split; intros H; apply normal_quantile_strict; lra.
Qed.
End Normal.

(** ** Doubles *)

(** The integer nearest to a rational, ties to even. *)
Definition round_half_even (x : Q) : Z :=
  let f := Qfloor x in
  match (x - inject_Z f ?= 1 # 2)%Q with
  | Lt => f
  | Gt => f + 1
  | Eq => if Z.even f then f else f + 1
  end.

(** The exponent [e] of the last place of a positive rational in binary64:
    the one for which [x / 2^e] lies in [[2^52, 2^53)]. *)
Definition binade (x : Q) : Z :=
  let e := Z.log2 (Qnum x) - Z.log2 (Zpos (Qden x)) - 53 in
  if Qlt_le_dec (x / 2 ^ e) (2 ^ 53) then e else e + 1.

(** The double nearest to a rational: 53 significant bits, ties to even. *)
Definition round_double (x : Q) : Q :=
  match Qnum x with
  | Z0 => 0
  | Zpos _ => inject_Z (round_half_even (x / 2 ^ binade x)) * 2 ^ binade x
  | Zneg _ =>
      - (inject_Z (round_half_even (- x / 2 ^ binade (- x))) * 2 ^ binade (- x))
  end.

(** [float(n)], the conversion Python applies to an [int] operand of a
    float operation. *)
Definition float_of_int (n : Z) : Q := round_double (inject_Z n).

(** [a * b] on doubles. *)
Definition float_mul (a b : Q) : Q := round_double (a * b).

(** ** Floats of the statistics side *)

(** A float: a real number or one of the IEEE special values (signed zeros
    and rounding apart). *)
Inductive pyfloat :=
  | Fin (x : R)
  | PosInf
  | NegInf
  | NaN.

(** [a * b] *)
Definition fmul (a b : pyfloat) : pyfloat :=
  match a, b with
  | NaN, _ | _, NaN => NaN
  | Fin x, Fin y => Fin (x * y)
  | Fin x, PosInf | PosInf, Fin x =>
      if Rlt_dec 0 x then PosInf else if Rlt_dec x 0 then NegInf else NaN
  | Fin x, NegInf | NegInf, Fin x =>
      if Rlt_dec 0 x then NegInf else if Rlt_dec x 0 then PosInf else NaN
  | PosInf, PosInf | NegInf, NegInf => PosInf
  | PosInf, NegInf | NegInf, PosInf => NegInf
  end.

(** [a + b] *)
Definition fadd (a b : pyfloat) : pyfloat :=
  match a, b with
  | NaN, _ | _, NaN => NaN
  | Fin x, Fin y => Fin (x + y)
  | PosInf, NegInf | NegInf, PosInf => NaN
  | PosInf, _ | _, PosInf => PosInf
  | NegInf, _ | _, NegInf => NegInf
  end.

(** [a / b] on [numpy] floats (a zero divisor gives an infinity or NaN). *)
Definition fdiv (a b : pyfloat) : pyfloat :=
  match a, b with
  | NaN, _ | _, NaN => NaN
  | Fin x, Fin y =>
      if Req_dec_T y 0 then
        if Rlt_dec 0 x then PosInf else if Rlt_dec x 0 then NegInf else NaN
      else Fin (x / y)
  | Fin _, (PosInf | NegInf) => Fin 0
  | (PosInf | NegInf), (PosInf | NegInf) => NaN
  | PosInf, Fin y => if Rlt_dec y 0 then NegInf else PosInf
  | NegInf, Fin y => if Rlt_dec y 0 then PosInf else NegInf
  end.

(** [a > 0] *)
Definition fpositive (a : pyfloat) : bool :=
  match a with
  | Fin x => if Rlt_dec 0 x then true else false
  | PosInf => true
  | NegInf | NaN => false
  end.

(** [n <= x] for an [int] [n] and a float [x]; false against NaN. *)
Definition int_le_float (n : Z) (x : pyfloat) : bool :=
  match x with
  | Fin r => if Rle_dec (IZR n) r then true else false
  | PosInf => true
  | NegInf | NaN => false
  end.

(** [math.sqrt(n)] of an [int]: a [ValueError] below zero. *)
Definition math_sqrt (n : Z) : option pyfloat :=
  if decide (0 ≤ n) then Some (Fin (sqrt (IZR n))) else None.

(** [sum(history)] *)
Definition sum_int (l : list Z) : Z := foldr Z.add 0 l.

(** [np.mean(history)]: NaN for an empty list. *)
Definition np_mean (history : list Z) : pyfloat :=
  match history with
  | [] => NaN
  | _ :: _ => Fin (IZR (sum_int history) / INR (length history))
  end.

(** [np.std(history)]: the population standard deviation (divisor [n]). *)
Definition np_std (history : list Z) : pyfloat :=
  match history with
  | [] => NaN
  | _ :: _ =>
      let m := (IZR (sum_int history) / INR (length history))%R in
      Fin (sqrt (foldr (λ x s, ((IZR x - m) * (IZR x - m) + s)%R) 0%R history
                 / INR (length history)))
  end.

(** [scipy.stats.norm.ppf(q)]: the quantile inside (0,1), the infinities at
    the ends, NaN outside. *)
Definition norm_ppf (q : R) : pyfloat :=
  if Rlt_dec 0 q then
    if Rlt_dec q 1 then Fin (Normal.normal_quantile q)
    else if Req_dec_T q 1 then PosInf else NaN
  else if Req_dec_T q 0 then NegInf else NaN.

(** ** More float operations *)

(** [-a] *)
Definition fneg (a : pyfloat) : pyfloat :=
  match a with
  | Fin x => Fin (- x)
  | PosInf => NegInf
  | NegInf => PosInf
  | NaN => NaN
  end.

(** [a - b] *)
Definition fsub (a b : pyfloat) : pyfloat := fadd a (fneg b).

(** [abs(a)] *)
Definition fabs (a : pyfloat) : pyfloat :=
  match a with
  | Fin x => Fin (Rabs x)
  | PosInf | NegInf => PosInf
  | NaN => NaN
  end.

(** [x < n] for a float [x] and an [int] [n]; false against NaN. *)
Definition float_lt_int (x : pyfloat) (n : Z) : bool :=
  match x with
  | Fin r => if Rlt_dec r (IZR n) then true else false
  | NegInf => true
  | PosInf | NaN => false
  end.

(** [x <= y] for a Python float [x] and a [numpy] float [y]. *)
Definition real_le_float (x : R) (y : pyfloat) : bool :=
  match y with
  | Fin r => if Rle_dec x r then true else false
  | PosInf => true
  | NegInf | NaN => false
  end.

(** [max(0, x)]: [x] when [x > 0], otherwise the first argument 0 (also
    against NaN). *)
Definition max_0 (x : pyfloat) : pyfloat :=
  match x with
  | Fin r => if Rlt_dec 0 r then Fin r else Fin 0
  | PosInf => PosInf
  | NegInf | NaN => Fin 0
  end.

(** [int(x)]: truncation toward zero; an [OverflowError] on an infinity and
    a [ValueError] on NaN. *)
Definition int_of_pyfloat (x : pyfloat) : option Z :=
  match x with
  | Fin r => Some (if Rle_dec 0 r then Zfloor r else Zceil r)
  | PosInf | NegInf | NaN => None
  end.

(** * Part II. The program *)

(** ** Data classes *)

(** [SimpleProduct] (the dataclass); [pid] is the field [id]. *)
Record SimpleProduct := mkProduct {
  pid : string;
  name : string;
  icon : string;
  price : Q;
  cost : Q;
  current_stock : Z;
  daily_demand : Z;
  lead_time : Z;
  order_interval : Z
}.

(** [product.current_stock = s] *)
Definition set_current_stock (product : SimpleProduct) (s : Z) : SimpleProduct :=
  {| pid := pid product; name := name product; icon := icon product;
     price := price product; cost := cost product;
     current_stock := s;
     daily_demand := daily_demand product; lead_time := lead_time product;
     order_interval := order_interval product |}.

(** An entry of [st.session_state.pending_orders]:
    [{'quantity': .., 'days_remaining': .., 'cost': ..}]. *)
Record PendingOrder := mkOrder {
  quantity : Z;
  days_remaining : Z;
  order_cost : Q
}.

(** An entry of [stockouts]; the product is recorded by its display name. *)
Record Stockout := mkStockout {
  stockout_product : string;
  shortage : Z;
  lost_revenue : Q
}.

(** An entry of [daily_sales]. *)
Record SaleEntry := mkSale {
  sale_demand : Z;
  sale_sales : Z;
  sale_revenue : Q;
  sale_profit : Q;
  stock_after : Z
}.

(** The dictionary [report] built at the end of [process_daily_sales]. *)
Record Report := mkReport {
  report_day : Z;
  report_sales : gmap string SaleEntry;
  report_total_revenue : Q;
  report_total_cost : Q;
  report_profit : Q;
  report_stockouts : list Stockout;
  report_cash : Q;
  score_today : Q
}.

(** [st.session_state], restricted to the keys the engine reads or writes
    (wizard bookkeeping such as [current_step] is left out). *)
Record SessionState := mkState {
  day : Z;
  cash : Q;
  total_revenue : Q;
  total_profit : Q;
  products : gmap string SimpleProduct;
  sales_history : gmap string (list Z);
  pending_orders : gmap string PendingOrder;
  daily_reports : list Report;
  player_predictions : gmap string R;
  player_orders : gmap string Z;
  player_service_levels : gmap string R;
  score : Q;
  order_submitted : bool
}.

(** ** Initial session *)

Definition create_products : gmap string SimpleProduct :=
  <["WATER" := mkProduct "WATER" "矿泉水" "💧" 3 1 120 30 3 3]>
  (<["BREAD" := mkProduct "BREAD" "面包" "🍞" 8 4 60 20 5 5]>
  (<["MILK" := mkProduct "MILK" "牛奶" "🥛" 12 7 50 15 2 5]> ∅)).

Definition create_sales_history : gmap string (list Z) :=
  <["WATER" := [28; 32; 30; 35; 29; 31; 33]]>
  (<["BREAD" := [12; 28; 15; 35; 10; 30; 25]]>
  (<["MILK" := [14; 16; 15; 13; 17; 15; 16]]> ∅)).

(** The state [initialize_game] installs. *)
Definition initialize_game : SessionState :=
  {| day := 1; cash := 10000; total_revenue := 0; total_profit := 0;
     products := create_products;
     sales_history := create_sales_history;
     pending_orders := ∅;
     daily_reports := [];
     player_predictions := ∅;
     player_orders := ∅;
     player_service_levels := ∅;
     score := 0;
     order_submitted := false |}.

(** ** The daily simulation: [process_daily_sales] *)

(** Python's [int(x)] on a float: truncation toward zero. *)
Definition int_of_float (x : Q) : Z := Z.quot (Qnum x) (Zpos (Qden x)).

(** [max(1, int(base_demand * random.uniform(0.7, 1.3)))], the drawn factor
    being the argument [u]: the [int] [base_demand] is converted to a
    double, the product of the two doubles is rounded to a double, and
    [int] truncates that double. *)
Definition draw_demand (base_demand : Z) (u : Q) : Z :=
  Z.max 1 (int_of_float (float_mul (float_of_int base_demand) u)).

(** [history.append(actual_sales)] followed by [pop(0)] when the window
    exceeds seven entries. *)
Definition push_history (history : list Z) (actual_sales : Z) : list Z :=
  let h := history ++ [actual_sales] in
  if (7 <? Z.of_nat (length h)) then tail h else h.

(** The variables the first loop of [process_daily_sales] updates. *)
Record SalesAcc := mkSalesAcc {
  acc_products : gmap string SimpleProduct;
  acc_history : gmap string (list Z);
  acc_daily_sales : gmap string SaleEntry;
  acc_total_revenue : Q;
  acc_total_cost : Q;
  acc_stockouts : list Stockout
}.

(** One iteration of [for product_id, product in products.items()]. *)
Definition sell_product (draws : string → Q) (product_id : string)
    (product : SimpleProduct) (acc : option SalesAcc) : option SalesAcc :=
  a ← acc;
  let base_demand := daily_demand product in
  let actual_demand := draw_demand base_demand (draws product_id) in
  let actual_sales := Z.min actual_demand (current_stock product) in
  let product' := set_current_stock product (current_stock product - actual_sales) in
  let revenue := (inject_Z actual_sales * price product)%Q in
  let cost_ := (inject_Z actual_sales * cost product)%Q in
  let stockouts :=
    if decide (actual_sales < actual_demand)
    then acc_stockouts a ++
         [mkStockout (name product) (actual_demand - actual_sales)
            (inject_Z (actual_demand - actual_sales) * price product)%Q]
    else acc_stockouts a in
  history ← acc_history a !! product_id;
  Some {| acc_products := <[product_id := product']> (acc_products a);
          acc_history := <[product_id := push_history history actual_sales]> (acc_history a);
          acc_daily_sales :=
            <[product_id := mkSale actual_demand actual_sales revenue
                              (revenue - cost_)%Q (current_stock product')]>
              (acc_daily_sales a);
          acc_total_revenue := (acc_total_revenue a + revenue)%Q;
          acc_total_cost := (acc_total_cost a + cost_)%Q;
          acc_stockouts := stockouts |}.

(** One iteration of [for product_id in list(pending_orders.keys())]: the
    countdown, and the arrival when it reaches zero. *)
Definition receive_order (product_id : string) (order : PendingOrder)
    (acc : option (gmap string SimpleProduct * gmap string PendingOrder)) :
    option (gmap string SimpleProduct * gmap string PendingOrder) :=
  '(prods, pending) ← acc;
  let order' := mkOrder (quantity order) (days_remaining order - 1) (order_cost order) in
  if decide (days_remaining order' ≤ 0) then
    product ← prods !! product_id;
    Some (<[product_id := set_current_stock product (current_stock product + quantity order')]> prods,
          delete product_id pending)
  else Some (prods, <[product_id := order']> pending).

(** The score of the day. *)
Definition daily_score (profit : Q) (stockouts : list Stockout) : Q :=
  let s0 := 0%Q in
  let s1 := if Qlt_le_dec 0 profit then (s0 + profit * (1 # 10))%Q else s0 in
  match stockouts with
  | [] => (s1 + 50)%Q
  | _ :: _ => s1
  end.

(** The two loops, then the update of the session and the report. *)
Definition process_daily_sales (draws : string → Q) (st : SessionState) :
    option (Report * SessionState) :=
  a ← map_fold (sell_product draws)
         (Some (mkSalesAcc (products st) (sales_history st) ∅ 0 0 []))
         (products st);
  '(prods, pending) ← map_fold receive_order
         (Some (acc_products a, pending_orders st)) (pending_orders st);
  let profit := (acc_total_revenue a - acc_total_cost a)%Q in
  let cash' := (cash st + profit)%Q in
  let day' := day st + 1 in
  let score_today_ := daily_score profit (acc_stockouts a) in
  let report :=
    {| report_day := day' - 1;
       report_sales := acc_daily_sales a;
       report_total_revenue := acc_total_revenue a;
       report_total_cost := acc_total_cost a;
       report_profit := profit;
       report_stockouts := acc_stockouts a;
       report_cash := cash';
       score_today := score_today_ |} in
  Some (report,
        {| day := day';
           cash := cash';
           total_revenue := (total_revenue st + acc_total_revenue a)%Q;
           total_profit := (total_profit st + profit)%Q;
           products := prods;
           sales_history := acc_history a;
           pending_orders := pending;
           daily_reports := daily_reports st ++ [report];
           player_predictions := player_predictions st;
           player_orders := player_orders st;
           player_service_levels := player_service_levels st;
           score := (score st + score_today_)%Q;
           order_submitted := order_submitted st |}).

(** ** The wizard steps that change the session *)

(** The quiz of [render_step_1_products]: the radio choices. *)
Inductive QuizAnswer := AnswerWater | AnswerBread | AnswerMilk.

(** [if st.button(..): if bread in answer: score += 10]. [clicked] is the
    value [st.button] returns in this run of the script. *)
Definition render_step_1_products (clicked : bool) (answer : QuizAnswer)
    (st : SessionState) : SessionState :=
  if clicked then
    match answer with
    | AnswerBread =>
        {| day := day st; cash := cash st; total_revenue := total_revenue st;
           total_profit := total_profit st; products := products st;
           sales_history := sales_history st; pending_orders := pending_orders st;
           daily_reports := daily_reports st;
           player_predictions := player_predictions st;
           player_orders := player_orders st;
           player_service_levels := player_service_levels st;
           score := (score st + 10)%Q;
           order_submitted := order_submitted st |}
    | _ => st
    end
  else st.

(** What [render_step_6_order] shows for the batch in [player_orders]. *)
Inductive OrderOutcome :=
  | OrderSubmitted          (* the success message after the confirm button *)
  | AwaitingConfirmation    (* the confirm button is shown and was not pressed *)
  | InsufficientFunds       (* the error message: not enough cash *)
  | NothingToOrder.         (* no positive quantity in the batch *)

(** One iteration of the first loop over [player_orders.items()]: the row
    of [order_details] keeps the product id, the quantity and the subtotal. *)
Definition quote_order (prods : gmap string SimpleProduct) (product_id : string)
    (qty : Z) (acc : option (Q * list (string * Z * Q))) :
    option (Q * list (string * Z * Q)) :=
  '(total_cost, order_details) ← acc;
  product ← prods !! product_id;
  if decide (0 < qty) then
    let cost_ := (inject_Z qty * cost product)%Q in
    Some ((total_cost + cost_)%Q, order_details ++ [(product_id, qty, cost_)])
  else Some (total_cost, order_details).

(** One iteration of the loop under the confirm button. *)
Definition place_order (prods : gmap string SimpleProduct) (product_id : string)
    (qty : Z) (acc : option (gmap string PendingOrder)) :
    option (gmap string PendingOrder) :=
  pending ← acc;
  if decide (0 < qty) then
    product ← prods !! product_id;
    Some (<[product_id := mkOrder qty (lead_time product) (inject_Z qty * cost product)%Q]> pending)
  else Some pending.

(** Step 6: the batch is priced; with something to order and enough cash
    the confirm button is offered, and pressing it ([clicked]) files the
    orders and debits the cash; without enough cash the error is shown. The
    list of the products without an order is only displayed and is left
    out. *)
Definition render_step_6_order (clicked : bool) (st : SessionState) :
    option (OrderOutcome * SessionState) :=
  '(total_cost, order_details) ←
     map_fold (quote_order (products st)) (Some (0%Q, [])) (player_orders st);
  match order_details with
  | _ :: _ =>
      let remaining := (cash st - total_cost)%Q in
      if Qle_bool 0 remaining then
        if clicked then
          pending ← map_fold (place_order (products st))
                       (Some (pending_orders st)) (player_orders st);
          Some (OrderSubmitted,
                {| day := day st; cash := (cash st - total_cost)%Q;
                   total_revenue := total_revenue st;
                   total_profit := total_profit st; products := products st;
                   sales_history := sales_history st; pending_orders := pending;
                   daily_reports := daily_reports st;
                   player_predictions := player_predictions st;
                   player_orders := player_orders st;
                   player_service_levels := player_service_levels st;
                   score := score st;
                   order_submitted := true |})
        else Some (AwaitingConfirmation, st)
      else Some (InsufficientFunds, st)
  | [] =>
      Some (NothingToOrder,
            {| day := day st; cash := cash st; total_revenue := total_revenue st;
               total_profit := total_profit st; products := products st;
               sales_history := sales_history st; pending_orders := pending_orders st;
               daily_reports := daily_reports st;
               player_predictions := player_predictions st;
               player_orders := player_orders st;
               player_service_levels := player_service_levels st;
               score := score st;
               order_submitted := true |})
  end.

(** The player's entry of step 5, [player_orders[product_id] = qty]. *)
Definition enter_order (product_id : string) (qty : Z) (st : SessionState) :
    SessionState :=
  {| day := day st; cash := cash st; total_revenue := total_revenue st;
     total_profit := total_profit st; products := products st;
     sales_history := sales_history st; pending_orders := pending_orders st;
     daily_reports := daily_reports st;
     player_predictions := player_predictions st;
     player_orders := <[product_id := qty]> (player_orders st);
     player_service_levels := player_service_levels st;
     score := score st;
     order_submitted := order_submitted st |}.

(** ** The replenishment calculator *)

(** The dictionary [calculate_demand_stats] returns. *)
Record DemandStats := mkStats {
  stats_mean : pyfloat;
  stats_std : pyfloat;
  stats_cv : pyfloat
}.

(** [{'mean': np.mean(h), 'std': np.std(h), 'cv': std / mean if mean > 0
    else 0}] *)
Definition calculate_demand_stats (st : SessionState) (product_id : string) :
    option DemandStats :=
  history ← sales_history st !! product_id;
  Some {| stats_mean := np_mean history;
          stats_std := np_std history;
          stats_cv := if fpositive (np_mean history)
                      then fdiv (np_std history) (np_mean history)
                      else Fin 0 |}.

(** [z_score * sigma * math.sqrt(lead_time)], the expression of the safety
    stock wherever the program computes it. *)
Definition safety_stock_formula (z_score sigma : pyfloat) (lead_time_ : Z) :
    option pyfloat :=
  root ← math_sqrt lead_time_;
  Some (fmul (fmul z_score sigma) root).

(** [norm.ppf(service_level) * std * sqrt(lead_time)]; nothing is checked. *)
Definition calculate_safety_stock (st : SessionState) (product_id : string)
    (service_level : R) : option pyfloat :=
  product ← products st !! product_id;
  demand_stats ← calculate_demand_stats st product_id;
  let z_score := norm_ppf service_level in
  safety_stock_formula z_score (stats_std demand_stats) (lead_time product).

(** [demand_stats['mean'] * product.lead_time + safety_stock] *)
Definition calculate_reorder_point (st : SessionState) (product_id : string)
    (safety_stock : pyfloat) : option pyfloat :=
  product ← products st !! product_id;
  demand_stats ← calculate_demand_stats st product_id;
  Some (fadd (fmul (stats_mean demand_stats) (Fin (IZR (lead_time product))))
          safety_stock).

(** [forecast * (product.lead_time + order_interval) + safety_stock] *)
Definition calculate_target_stock (st : SessionState) (product_id : string)
    (forecast : pyfloat) (order_interval_ : Z) (safety_stock : pyfloat) :
    option pyfloat :=
  product ← products st !! product_id;
  Some (fadd (fmul forecast (Fin (IZR (lead_time product + order_interval_))))
          safety_stock).

(** [product.current_stock <= reorder_point] *)
Definition should_reorder (st : SessionState) (product_id : string)
    (reorder_point : pyfloat) : option bool :=
  product ← products st !! product_id;
  Some (int_le_float (current_stock product) reorder_point).

(** The figures [render_step_5_calculate] works out for one product: the
    forecast and the service level come from the player's entries, with the
    historical mean and 0.95 as defaults. *)
Record Step5Figures := mkStep5 {
  step5_forecast : pyfloat;
  step5_safety_stock : pyfloat;
  step5_reorder_point : pyfloat;
  step5_should_order : bool
}.

(** The body of the loop of step 5 for one product, up to the decision. *)
Definition render_step_5_calculate (st : SessionState) (product_id : string) :
    option Step5Figures :=
  product ← products st !! product_id;
  demand_stats ← calculate_demand_stats st product_id;
  let forecast :=
    match player_predictions st !! product_id with
    | Some f => Fin f
    | None => stats_mean demand_stats
    end in
  let service_level :=
    default (95 / 100)%R (player_service_levels st !! product_id) in
  let z_score := norm_ppf service_level in
  safety_stock ← safety_stock_formula z_score (stats_std demand_stats)
                    (lead_time product);
  let reorder_point :=
    fadd (fmul forecast (Fin (IZR (lead_time product)))) safety_stock in
  Some {| step5_forecast := forecast;
          step5_safety_stock := safety_stock;
          step5_reorder_point := reorder_point;
          step5_should_order := int_le_float (current_stock product) reorder_point |}.

(** ** The rest of the calculator, the margin and the pages *)

(** [SimpleProduct.get_margin]: a [ZeroDivisionError] at a price of zero. *)
Definition get_margin (product : SimpleProduct) : option Q :=
  if Qeq_bool (price product) 0 then None
  else Some ((price product - cost product) / price product * 100)%Q.

(** [int(max(0, target_stock - product.current_stock))] *)
Definition calculate_order_quantity (st : SessionState) (product_id : string)
    (target_stock : pyfloat) : option Z :=
  product ← products st !! product_id;
  let order_qty := max_0 (fsub target_stock (Fin (IZR (current_stock product)))) in
  int_of_pyfloat order_qty.

(** The dictionary [evaluate_prediction] returns. *)
Record PredictionEvaluation := mkEvaluation {
  eval_player_prediction : R;
  eval_system_prediction : pyfloat;
  eval_actual_demand : Z;
  eval_player_error : R;
  eval_system_error : pyfloat;
  eval_score : R;
  eval_better_than_system : bool
}.

(** [evaluate_prediction]: the player's forecast (a finite float, as
    [st.number_input] returns) against the base demand of the product; a
    [ZeroDivisionError] when that demand is zero. *)
Definition evaluate_prediction (st : SessionState) (product_id : string)
    (player_prediction : R) : option PredictionEvaluation :=
  demand_stats ← calculate_demand_stats st product_id;
  product ← products st !! product_id;
  let actual_demand := daily_demand product in
  let player_error := Rabs (player_prediction - IZR actual_demand) in
  let system_error :=
    fabs (fsub (stats_mean demand_stats) (Fin (IZR actual_demand))) in
  let max_error := (IZR actual_demand * (1 / 2))%R in
  if Req_dec_T max_error 0 then None
  else
    let s := (100 - player_error / max_error * 100)%R in
    Some {| eval_player_prediction := player_prediction;
            eval_system_prediction := stats_mean demand_stats;
            eval_actual_demand := actual_demand;
            eval_player_error := player_error;
            eval_system_error := system_error;
            eval_score := if Rlt_dec 0 s then s else 0%R;
            eval_better_than_system := real_le_float player_error system_error |}.

(** The status step 2 shows for a product. *)
Inductive StockStatus := Urgent | Warning | Sufficient.

(** The body of the loop of [render_step_2_inventory]: the days of stock and
    the status. *)
Definition render_step_2_inventory (st : SessionState) (product_id : string) :
    option (pyfloat * StockStatus) :=
  product ← products st !! product_id;
  demand_stats ← calculate_demand_stats st product_id;
  let days_of_stock :=
    fdiv (Fin (IZR (current_stock product))) (stats_mean demand_stats) in
  Some (days_of_stock,
        if float_lt_int days_of_stock (lead_time product) then Urgent
        else if float_lt_int days_of_stock (lead_time product + 2) then Warning
        else Sufficient).

(** Step 4, the forecast widget of a product: an entry is stored, an empty
    widget changes nothing. *)
Definition render_step_4_prediction (product_id : string) (value : option R)
    (st : SessionState) : SessionState :=
  match value with
  | Some f =>
      {| day := day st; cash := cash st; total_revenue := total_revenue st;
         total_profit := total_profit st; products := products st;
         sales_history := sales_history st; pending_orders := pending_orders st;
         daily_reports := daily_reports st;
         player_predictions := <[product_id := f]> (player_predictions st);
         player_orders := player_orders st;
         player_service_levels := player_service_levels st;
         score := score st;
         order_submitted := order_submitted st |}
  | None => st
  end.

(** Step 4, the service-level widget of a product: the percentage entered
    is stored divided by 100. *)
Definition render_step_4_service_level (product_id : string) (percent : option Z)
    (st : SessionState) : SessionState :=
  match percent with
  | Some pct =>
      {| day := day st; cash := cash st; total_revenue := total_revenue st;
         total_profit := total_profit st; products := products st;
         sales_history := sales_history st; pending_orders := pending_orders st;
         daily_reports := daily_reports st;
         player_predictions := player_predictions st;
         player_orders := player_orders st;
         player_service_levels :=
           <[product_id := (IZR pct / 100)%R]> (player_service_levels st);
         score := score st;
         order_submitted := order_submitted st |}
  | None => st
  end.

(** Step 8: the profit margin shown, in percent:
    [total_profit / total_revenue * 100 if total_revenue > 0 else 0]. *)
Definition render_step_8_margin (st : SessionState) : Q :=
  if Qlt_le_dec 0 (total_revenue st)
  then (total_profit st / total_revenue st * 100)%Q
  else 0%Q.

(** Step 8: the forecast error shown for a product,
    [abs(pred - actual) / actual * 100] with the demand of the report: a
    [KeyError] when the report has no line for the product, a
    [ZeroDivisionError] at a demand of zero. *)
Definition render_step_8_error (report : Report) (product_id : string)
    (pred : R) : option R :=
  e ← report_sales report !! product_id;
  let actual := sale_demand e in
  if decide (actual = 0) then None
  else Some (Rabs (pred - IZR actual) / IZR actual * 100)%R.

(** Step 9: the grades. *)
Inductive Grade := GradeS | GradeA | GradeB | GradeC.

(** The grade [render_step_9_complete] gives to a score. *)
Definition render_step_9_grade (score_ : Q) : Grade :=
  if Qle_bool 150 score_ then GradeS
  else if Qle_bool 100 score_ then GradeA
  else if Qle_bool 50 score_ then GradeB
  else GradeC.

(** The session with [order_submitted] reset, as the back button does on
    the way to step 5. *)
Definition unmark_submitted (st : SessionState) : SessionState :=
  {| day := day st; cash := cash st; total_revenue := total_revenue st;
     total_profit := total_profit st; products := products st;
     sales_history := sales_history st; pending_orders := pending_orders st;
     daily_reports := daily_reports st;
     player_predictions := player_predictions st;
     player_orders := player_orders st;
     player_service_levels := player_service_levels st;
     score := score st;
     order_submitted := false |}.

(** ** The wizard: [main] *)

(** A loop over a dictionary whose body only displays: the result is [None]
    when an iteration raises. *)
Definition display_each {A} (body : string → A → option unit)
    (m : gmap string A) : option unit :=
  map_fold (λ k x acc, _ ← acc; body k x) (Some tt) m.

(** [cols[i]] for the items of a dictionary laid out in three columns: an
    [IndexError] from the fourth item on. *)
Definition three_columns {A} (m : gmap string A) : option unit :=
  if decide (size m ≤ 3)%nat then Some tt else None.

(** What the display of step 1 computes: the margin of each product. *)
Definition display_step_1 (st : SessionState) : option unit :=
  _ ← three_columns (products st);
  display_each (λ _ product, _ ← get_margin product; Some tt) (products st).

(** What the display of step 2 computes: the table of the stock status. *)
Definition display_step_2 (st : SessionState) : option unit :=
  display_each (λ product_id _, _ ← render_step_2_inventory st product_id; Some tt)
    (products st).

(** What the display of step 3 computes for each history: its product
    and its statistics. *)
Definition display_step_3 (st : SessionState) : option unit :=
  _ ← display_each (λ product_id _,
         _ ← products st !! product_id;
         _ ← calculate_demand_stats st product_id; Some tt) (sales_history st);
  three_columns (sales_history st).

(** What the display of step 8 computes: for each product its
    statistics, the forecast error when a forecast was entered, and the
    square root of the lead time when a positive quantity was ordered. *)
Definition display_step_8 (st : SessionState) : option unit :=
  match last (daily_reports st) with
  | None => Some tt
  | Some report =>
      display_each (λ product_id product,
        _ ← calculate_demand_stats st product_id;
        _ ← match player_predictions st !! product_id with
            | Some pred => _ ← render_step_8_error report product_id pred; Some tt
            | None => Some tt
            end;
        match player_orders st !! product_id with
        | Some order =>
            if decide (0 < order) then _ ← math_sqrt (lead_time product); Some tt
            else Some tt
        | None => Some tt
        end) (products st)
  end.

(** The part of [st.session_state] beside the session of the game: the
    step shown, the flag of step 7 and the products step 5 marked as due
    ([player_order_intervals], the system suggestions and the step marks are
    written and never read, and are left out). *)
Record Wizard := mkWizard {
  session : SessionState;
  current_step : Z;
  simulation_run : bool;
  products_need_order : gmap string bool
}.

(** The state with the session of the game replaced. *)
Definition set_session (st : SessionState) (wz : Wizard) : Wizard :=
  mkWizard st (current_step wz) (simulation_run wz) (products_need_order wz).

(** What the widgets of the pages return in one run of the script. *)
Record Widgets := mkWidgets {
  quiz_clicked : bool;                    (* step 1, the submit button *)
  quiz_answer : QuizAnswer;               (* step 1, the radio *)
  forecast_input : string → option R;     (* step 4, per product *)
  service_input : string → option Z;      (* step 4, per product, in percent *)
  order_input : string → option Z;        (* step 5, per product *)
  confirm_clicked : bool;                 (* step 6, the confirm button *)
  run_clicked : bool;                     (* step 7, the run button *)
  uniform_draws : string → Q              (* step 7, [random.uniform] per product *)
}.

(** The button pressed in the navigation or the side bar, if any. *)
Inductive Navigation := NoButton | PreviousButton | NextButton | RestartButton.

(** Step 4, the body of the loop over the products: the statistics shown,
    then both widgets of the product. *)
Definition render_step_4_product (w : Widgets) (product_id : string)
    (product : SimpleProduct) (acc : option SessionState) : option SessionState :=
  st ← acc;
  _ ← calculate_demand_stats st product_id;
  Some (render_step_4_service_level product_id (service_input w product_id)
          (render_step_4_prediction product_id (forecast_input w product_id) st)).

(** Step 4: the loop over the products. *)
Definition render_step_4_predict (w : Widgets) (st : SessionState) :
    option SessionState :=
  map_fold (render_step_4_product w) (Some st) (products st).

(** Step 5, the body of the loop over the products: the figures, then the
    mark in [products_need_order] and the entry in [player_orders] (the
    quantity entered when an order is due, 0 when none is). *)
Definition render_step_5_product (w : Widgets) (product_id : string)
    (product : SimpleProduct) (acc : option Wizard) : option Wizard :=
  wz ← acc;
  figures ← render_step_5_calculate (session wz) product_id;
  if step5_should_order figures then
    Some (mkWizard
            match order_input w product_id with
            | Some qty => enter_order product_id qty (session wz)
            | None => session wz
            end
            (current_step wz) (simulation_run wz)
            (<[product_id := true]> (products_need_order wz)))
  else
    Some (mkWizard (enter_order product_id 0 (session wz))
            (current_step wz) (simulation_run wz)
            (<[product_id := false]> (products_need_order wz))).

(** Step 5: [products_need_order] is emptied, then the loop. *)
Definition render_step_5_page (w : Widgets) (wz : Wizard) : option Wizard :=
  map_fold (render_step_5_product w)
    (Some (mkWizard (session wz) (current_step wz) (simulation_run wz) ∅))
    (products (session wz)).

(** Step 7: the summary of the decisions; the run button then simulates
    a day, sets [simulation_run] and shows the lines of the report. *)
Definition render_step_7_run (w : Widgets) (wz : Wizard) : option Wizard :=
  let st := session wz in
  _ ← display_each (λ product_id _,
         _ ← calculate_demand_stats st product_id; Some tt) (products st);
  if run_clicked w then
    '(report, st') ← process_daily_sales (uniform_draws w) st;
    _ ← display_each (λ product_id _,
           _ ← products st' !! product_id;
           _ ← calculate_demand_stats st' product_id; Some tt)
         (report_sales report);
    Some (mkWizard st' (current_step wz) true (products_need_order wz))
  else Some wz.

(** [step_functions[current_step]()]: the page of the current step, with
    what it computes for display and what it does to the state (steps 0
    and 9 compute nothing that can raise). *)
Definition render_page (w : Widgets) (wz : Wizard) : option Wizard :=
  let st := session wz in
  let step := current_step wz in
  if decide (step = 1) then
    _ ← display_step_1 st;
    Some (set_session
            (render_step_1_products (quiz_clicked w) (quiz_answer w) st) wz)
  else if decide (step = 2) then _ ← display_step_2 st; Some wz
  else if decide (step = 3) then _ ← display_step_3 st; Some wz
  else if decide (step = 4) then
    st' ← render_step_4_predict w st; Some (set_session st' wz)
  else if decide (step = 5) then render_step_5_page w wz
  else if decide (step = 6) then
    '(outcome, st') ← render_step_6_order (confirm_clicked w) st;
    Some (set_session st' wz)
  else if decide (step = 7) then render_step_7_run w wz
  else if decide (step = 8) then _ ← display_step_8 st; Some wz
  else Some wz.

(** The three product ids the checks of [main] go through. *)
Definition checked_products : list string := ["WATER"; "BREAD"; "MILK"].

(** The check of step 5 for one product: whether its order was entered
    if it is marked as due; a missing order looks the product up for the
    hint (a [KeyError] when it is unknown). *)
Definition order_entered (wz : Wizard) (product_id : string) : option bool :=
  let st := session wz in
  if default false (products_need_order wz !! product_id) then
    if bool_decide (is_Some (player_orders st !! product_id)) then Some true
    else _ ← products st !! product_id; Some false
  else Some true.

(** [can_proceed]: whether the next button is enabled. *)
Definition can_proceed (wz : Wizard) : option bool :=
  let st := session wz in
  let step := current_step wz in
  if decide (step = 4) then
    Some (forallb (λ product_id,
                     bool_decide (is_Some (player_predictions st !! product_id)) &&
                     bool_decide (is_Some (player_service_levels st !! product_id)))
            checked_products)
  else if decide (step = 5) then
    foldr (λ product_id rest,
             entered ← order_entered wz product_id;
             others ← rest;
             Some (entered && others))
      (Some true) checked_products
  else if decide (step = 6) then Some (order_submitted st)
  else if decide (step = 7) then Some (simulation_run wz)
  else Some true.

(** The back button: one step back; arriving at step 5 resets
    [order_submitted], arriving at step 6 resets [simulation_run]. *)
Definition previous_step (wz : Wizard) : Wizard :=
  if decide (0 < current_step wz) then
    let step := current_step wz - 1 in
    if decide (step = 5) then
      mkWizard (unmark_submitted (session wz)) step (simulation_run wz)
        (products_need_order wz)
    else if decide (step = 6) then
      mkWizard (session wz) step false (products_need_order wz)
    else mkWizard (session wz) step (simulation_run wz) (products_need_order wz)
  else wz.

(** The next button: one step forward when there is one and [can_proceed]
    allows it. *)
Definition next_step (wz : Wizard) : option Wizard :=
  if decide (current_step wz < 9) then
    allowed ← can_proceed wz;
    if allowed : bool then
      Some (mkWizard (session wz) (current_step wz + 1) (simulation_run wz)
              (products_need_order wz))
    else Some wz
  else Some wz.

(** The state a fresh session starts from. *)
Definition wizard_init : Wizard := mkWizard initialize_game 0 false ∅.

(** [steps[current_step]], the title of the step: an [IndexError] outside
    the list of ten (which Python also indexes from the end). *)
Definition step_title (wz : Wizard) : option unit :=
  if decide (-10 ≤ current_step wz < 10) then Some tt else None.

(** One run of [main]: the title and the page of the current step, then
    the button pressed. The back button reruns the script at once; otherwise
    [can_proceed] is worked out, whether the next button is pressed or not.
    Restarting deletes the whole state, and the next run initializes it
    again. *)
Definition main (w : Widgets) (nav : Navigation) (wz : Wizard) : option Wizard :=
  _ ← step_title wz;
  wz' ← render_page w wz;
  match nav with
  | PreviousButton => Some (previous_step wz')
  | NextButton => next_step wz'
  | NoButton => _ ← next_step wz'; Some wz'
  | RestartButton => _ ← next_step wz'; Some wizard_init
  end.

(** * Part III. The vocabulary of the statements *)

(** ** Running the program *)

(** Several simulated days in a row, one draw function per day; the reports
    come back in order. *)
Fixpoint run_days (draws : list (string → Q)) (st : SessionState) :
    option (list Report * SessionState) :=
  match draws with
  | [] => Some ([], st)
  | d :: rest =>
      '(report, st1) ← process_daily_sales d st;
      '(reports, st2) ← run_days rest st1;
      Some (report :: reports, st2)
  end.

(** What can happen to the score: a quiz answer is submitted, or a day is
    simulated. *)
Inductive Event :=
  | QuizAnswered (clicked : bool) (answer : QuizAnswer)
  | DaySimulated (draws : string → Q).

(** The session after one event. *)
Definition step (e : Event) (st : SessionState) : option SessionState :=
  match e with
  | QuizAnswered clicked answer => Some (render_step_1_products clicked answer st)
  | DaySimulated draws => snd <$> process_daily_sales draws st
  end.

(** The session after a sequence of events. *)
Fixpoint play (events : list Event) (st : SessionState) : option SessionState :=
  match events with
  | [] => Some st
  | e :: rest => st1 ← step e st; play rest st1
  end.

(** ** Sums over a dictionary *)

(** [sum(f(k, v) for k, v in m.items())] *)
Definition map_sum {A} (f : string → A → Q) (m : gmap string A) : Q :=
  map_fold (λ k x s, (s + f k x)%Q) 0%Q m.

(** ** Closed forms of the loop bodies, used to state what the loops do *)

(** Units of a product sold on a day with the given draws. *)
Definition fulfilled (draws : string → Q) (product_id : string)
    (product : SimpleProduct) : Z :=
  Z.min (draw_demand (daily_demand product) (draws product_id)) (current_stock product).

(** The product once those units have left the stock. *)
Definition after_sale (draws : string → Q) (product_id : string)
    (product : SimpleProduct) : SimpleProduct :=
  set_current_stock product (current_stock product - fulfilled draws product_id product).

(** The entry of [daily_sales] for the product. *)
Definition sale_entry (draws : string → Q) (product_id : string)
    (product : SimpleProduct) : SaleEntry :=
  let sold := fulfilled draws product_id product in
  mkSale (draw_demand (daily_demand product) (draws product_id)) sold
    (inject_Z sold * price product)%Q
    (inject_Z sold * price product - inject_Z sold * cost product)%Q
    (current_stock product - sold).

(** The countdown of one pending order: [None] once it has arrived. *)
Definition countdown (order : PendingOrder) : option PendingOrder :=
  if decide (days_remaining order - 1 ≤ 0) then None
  else Some (mkOrder (quantity order) (days_remaining order - 1) (order_cost order)).

(** The stock of a product after the arrivals of the day. *)
Definition arrive (order : option PendingOrder) (product : SimpleProduct) :
    SimpleProduct :=
  match order with
  | Some o =>
      if decide (days_remaining o - 1 ≤ 0)
      then set_current_stock product (current_stock product + quantity o)
      else product
  | None => product
  end.

(** The keys the simulation looks up exist: every product has a history and
    every pending order is for a product. *)
Definition keys_ok (st : SessionState) : Prop :=
  (∀ k, is_Some (products st !! k) → is_Some (sales_history st !! k)) ∧
  (∀ k, is_Some (pending_orders st !! k) → is_Some (products st !! k)).

(** The state of the first loop once the products of [m] have been visited,
    starting from the dictionaries [prods0] and [hist0]. *)
Definition sales_acc_spec (draws : string → Q)
    (prods0 : gmap string SimpleProduct) (hist0 : gmap string (list Z))
    (m : gmap string SimpleProduct) (a : SalesAcc) : Prop :=
  (∀ k, acc_products a !! k =
        match m !! k with
        | Some p => Some (after_sale draws k p)
        | None => prods0 !! k
        end) ∧
  (∀ k, acc_history a !! k =
        match m !! k with
        | Some p => (λ h, push_history h (fulfilled draws k p)) <$> hist0 !! k
        | None => hist0 !! k
        end) ∧
  (∀ k, acc_daily_sales a !! k = sale_entry draws k <$> m !! k) ∧
  (acc_total_revenue a ==
     map_sum (λ k p, inject_Z (fulfilled draws k p) * price p) m)%Q ∧
  (acc_total_cost a ==
     map_sum (λ k p, inject_Z (fulfilled draws k p) * cost p) m)%Q ∧
  (acc_stockouts a = [] ↔
     ∀ k p, m !! k = Some p →
            draw_demand (daily_demand p) (draws k) ≤ current_stock p).

(** ** Sales read off the reports *)

(** Units of product [k] sold according to one report. *)
Definition report_units (k : string) (report : Report) : Z :=
  match report_sales report !! k with
  | Some e => sale_sales e
  | None => 0
  end.

(** Units of product [k] sold over a run of days. *)
Definition units_sold (k : string) (reports : list Report) : Z :=
  foldr (λ r s, report_units k r + s) 0 reports.

(** ** Orders *)

(** The total cost of an order batch as the data model describes it: the sum
    over the batch of quantity times unit cost. *)
Definition batch_cost (prods : gmap string SimpleProduct)
    (orders : gmap string Z) : Q :=
  map_sum (λ k qty,
    match prods !! k with
    | Some p => (inject_Z qty * cost p)%Q
    | None => 0%Q
    end) orders.

(** The order the confirm button files for a quantity of a product. *)
Definition new_order (qty : Z) (product : SimpleProduct) : PendingOrder :=
  mkOrder qty (lead_time product) (inject_Z qty * cost product)%Q.

(** Every product of the batch exists and no quantity is negative (the
    quantity widget has [min_value=0]). *)
Definition orders_ok (st : SessionState) : Prop :=
  ∀ k qty, player_orders st !! k = Some qty →
           0 ≤ qty ∧ is_Some (products st !! k).

(** The session in which the pending order for [k] never existed. *)
Definition forget_order (k : string) (st : SessionState) : SessionState :=
  {| day := day st; cash := cash st; total_revenue := total_revenue st;
     total_profit := total_profit st; products := products st;
     sales_history := sales_history st;
     pending_orders := delete k (pending_orders st);
     daily_reports := daily_reports st;
     player_predictions := player_predictions st;
     player_orders := player_orders st;
     player_service_levels := player_service_levels st;
     score := score st;
     order_submitted := order_submitted st |}.

(** ** What the specification says of the demand *)

(** Python's [round(x)] on a float: the nearest integer, ties to even. *)
Definition py_round (x : Q) : Z := round_half_even x.

(** The draw as the specification words it: [max(1, round(base * U))], on
    the same product of doubles. *)
Definition spec_draw_demand (base_demand : Z) (u : Q) : Z :=
  Z.max 1 (py_round (float_mul (float_of_int base_demand) u)).

(** The factors [random.uniform(0.7, 1.3)] returns: from the double nearest
    to 0.7 to the double nearest to 1.3, the two literals of the call. *)
Definition uniform_range (u : Q) : Prop :=
  (round_double (7 # 10) <= u)%Q ∧ (u <= round_double (13 # 10))%Q.

(** ** Conditions on a session *)

(** Unit price at least unit cost, for every product of the catalog. *)
Definition margins_ok (prods : gmap string SimpleProduct) : Prop :=
  ∀ k p, prods !! k = Some p → (cost p <= price p)%Q.

(** No product has a negative stock. *)
Definition stock_ok (prods : gmap string SimpleProduct) : Prop :=
  ∀ k p, prods !! k = Some p → 0 ≤ current_stock p.

(** What the results below, taken together, ask of a session. *)
Definition session_ok (st : SessionState) : Prop :=
  keys_ok st ∧
  orders_ok st ∧
  margins_ok (products st) ∧
  stock_ok (products st) ∧
  (∀ k o, pending_orders st !! k = Some o → 0 < quantity o) ∧
  (0 <= cash st)%Q.

(** The sessions of a game: the initial one, and those that the quiz, an
    order entry of step 5 (for a product of the catalog, within the bounds
    0 and 500 of the widget), step 6 and a simulated day lead to. *)
Inductive reachable : SessionState → Prop :=
  | reach_init : reachable initialize_game
  | reach_quiz st clicked answer :
      reachable st → reachable (render_step_1_products clicked answer st)
  | reach_enter st k qty :
      reachable st → is_Some (products st !! k) → 0 ≤ qty ≤ 500 →
      reachable (enter_order k qty st)
  | reach_order st clicked outcome st' :
      reachable st → render_step_6_order clicked st = Some (outcome, st') →
      reachable st'
  | reach_day st draws report st' :
      reachable st → process_daily_sales draws st = Some (report, st') →
      reachable st'.

(** ** Safety stock values *)

(** The safety stock as a real number, for a service level inside (0,1). *)
Definition safety_stock_value (service_level sigma : R) (lead_time_ : Z) : R :=
  (Normal.normal_quantile service_level * sigma * sqrt (IZR lead_time_))%R.

(** A float that is a number: neither an infinity nor NaN. *)
Definition is_finite (v : pyfloat) : Prop := ∃ x, v = Fin x.

(** ** Sessions used as examples *)

(** The product WATER of the catalog. *)
Definition water : SimpleProduct :=
  mkProduct "WATER" "矿泉水" "💧" 3 1 120 30 3 3.

(** A session with the given cash and one order entered. *)
Definition session_with (c : Q) (k : string) (qty : Z) : SessionState :=
  {| day := 1; cash := c; total_revenue := 0; total_profit := 0;
     products := create_products;
     sales_history := create_sales_history;
     pending_orders := ∅;
     daily_reports := [];
     player_predictions := ∅;
     player_orders := {[k := qty]};
     player_service_levels := ∅;
     score := 0;
     order_submitted := false |}.

(** A fresh game in which 70 units of WATER are already in transit (two
    days to go) and 50 more are ordered. *)
Definition session_with_order_in_transit : SessionState :=
  {| day := 1; cash := 10000; total_revenue := 0; total_profit := 0;
     products := create_products;
     sales_history := create_sales_history;
     pending_orders := {["WATER" := mkOrder 70 2 70]};
     daily_reports := [];
     player_predictions := ∅;
     player_orders := {["WATER" := 50]};
     player_service_levels := ∅;
     score := 0;
     order_submitted := false |}.

(** A fresh game in which WATER sold 30 units on each of the seven days of
    its history. *)
Definition session_with_flat_history : SessionState :=
  {| day := 1; cash := 10000; total_revenue := 0; total_profit := 0;
     products := create_products;
     sales_history := <["WATER" := [30; 30; 30; 30; 30; 30; 30]]> create_sales_history;
     pending_orders := ∅;
     daily_reports := [];
     player_predictions := ∅;
     player_orders := ∅;
     player_service_levels := ∅;
     score := 0;
     order_submitted := false |}.

(** A fresh game in which the player forecasts [f] units a day for WATER. *)
Definition session_with_forecast (f : R) : SessionState :=
  {| day := 1; cash := 10000; total_revenue := 0; total_profit := 0;
     products := create_products;
     sales_history := create_sales_history;
     pending_orders := ∅;
     daily_reports := [];
     player_predictions := {["WATER" := f]};
     player_orders := ∅;
     player_service_levels := ∅;
     score := 0;
     order_submitted := false |}.

(** ** More vocabulary: arrivals, histories, batches and example sessions *)

(** Base demand 30 against 20 units of WATER: a shortage of 10 units. *)
Definition session_short_of_water : SessionState :=
  {| day := 1; cash := 10000; total_revenue := 0; total_profit := 0;
     products := <["WATER" := set_current_stock water 20]> create_products;
     sales_history := create_sales_history;
     pending_orders := ∅;
     daily_reports := [];
     player_predictions := ∅;
     player_orders := ∅;
     player_service_levels := ∅;
     score := 0;
     order_submitted := false |}.

(** The quantity that reaches the stock at the end of the day. *)
Definition arriving (order : option PendingOrder) : Z :=
  match order with
  | Some o => if decide (days_remaining o ≤ 1) then quantity o else 0
  | None => 0
  end.

(** A fresh game in which 70 units of WATER reach the store at the end of
    the day. *)
Definition session_with_order_arriving : SessionState :=
  {| day := 1; cash := 10000; total_revenue := 0; total_profit := 0;
     products := create_products;
     sales_history := create_sales_history;
     pending_orders := {["WATER" := mkOrder 70 1 70]};
     daily_reports := [];
     player_predictions := ∅;
     player_orders := ∅;
     player_service_levels := ∅;
     score := 0;
     order_submitted := false |}.

(** Every sales history is a window of seven non-negative entries. *)
Definition history_ok (st : SessionState) : Prop :=
  ∀ k h, sales_history st !! k = Some h →
         length h = 7%nat ∧ Forall (λ x, 0 ≤ x) h.

(** A fresh game from which the history of MILK has been removed. *)
Definition session_without_milk_history : SessionState :=
  {| day := 1; cash := 10000; total_revenue := 0; total_profit := 0;
     products := create_products;
     sales_history := delete "MILK" create_sales_history;
     pending_orders := ∅;
     daily_reports := [];
     player_predictions := ∅;
     player_orders := ∅;
     player_service_levels := ∅;
     score := 0;
     order_submitted := false |}.

(** The cost of a batch as step 6 adds it up: positive quantities only. *)
Definition positive_cost (prods : gmap string SimpleProduct)
    (orders : gmap string Z) : Q :=
  map_sum (λ k qty,
    match prods !! k with
    | Some p => if decide (0 < qty) then (inject_Z qty * cost p)%Q else 0%Q
    | None => 0%Q
    end) orders.

(** The session with [order_submitted] set. *)
Definition mark_submitted (st : SessionState) : SessionState :=
  {| day := day st; cash := cash st; total_revenue := total_revenue st;
     total_profit := total_profit st; products := products st;
     sales_history := sales_history st; pending_orders := pending_orders st;
     daily_reports := daily_reports st;
     player_predictions := player_predictions st;
     player_orders := player_orders st;
     player_service_levels := player_service_levels st;
     score := score st;
     order_submitted := true |}.

(** The session after a confirmed batch: new pending orders and less cash. *)
Definition with_orders (pending : gmap string PendingOrder) (c : Q)
    (st : SessionState) : SessionState :=
  {| day := day st; cash := c; total_revenue := total_revenue st;
     total_profit := total_profit st; products := products st;
     sales_history := sales_history st; pending_orders := pending;
     daily_reports := daily_reports st;
     player_predictions := player_predictions st;
     player_orders := player_orders st;
     player_service_levels := player_service_levels st;
     score := score st;
     order_submitted := true |}.

(** A catalog whose only product is delivered without delay. *)
Definition session_with_no_lead_time : SessionState :=
  {| day := 1; cash := 100; total_revenue := 0; total_profit := 0;
     products := {["WATER" := mkProduct "WATER" "矿泉水" "💧" 3 1 120 30 0 3]};
     sales_history := create_sales_history;
     pending_orders := ∅;
     daily_reports := [];
     player_predictions := ∅;
     player_orders := {["WATER" := 50]};
     player_service_levels := ∅;
     score := 0;
     order_submitted := false |}.

Definition session_with_idle_product : SessionState :=
  {| day := 1; cash := 10000; total_revenue := 0; total_profit := 0;
     products := {["TEA" := mkProduct "TEA" "茶" "🍵" 5 2 10 0 1 1]};
     sales_history := {["TEA" := [0; 0; 0; 0; 0; 0; 0]]};
     pending_orders := ∅;
     daily_reports := [];
     player_predictions := ∅;
     player_orders := ∅;
     player_service_levels := ∅;
     score := 0;
     order_submitted := false |}.

Definition session_low_on_bread : SessionState :=
  {| day := 1; cash := 10000; total_revenue := 0; total_profit := 0;
     products := {["BREAD" := mkProduct "BREAD" "面包" "🍞" 8 4 60 20 5 5]};
     sales_history := {["BREAD" := [20; 20; 20; 20; 20; 20; 20]]};
     pending_orders := ∅;
     daily_reports := [];
     player_predictions := ∅;
     player_orders := ∅;
     player_service_levels := ∅;
     score := 0;
     order_submitted := false |}.

Definition session_sold_out : SessionState :=
  {| day := 8; cash := 10000; total_revenue := 0; total_profit := 0;
     products := {["BREAD" := mkProduct "BREAD" "面包" "🍞" 8 4 0 20 5 5]};
     sales_history := {["BREAD" := [0; 0; 0; 0; 0; 0; 0]]};
     pending_orders := ∅;
     daily_reports := [];
     player_predictions := ∅;
     player_orders := ∅;
     player_service_levels := ∅;
     score := 0;
     order_submitted := false |}.

(** ** The sessions of a game, with the entries of step 4 *)

(** The sessions a player can bring about: those of [reachable], and the
    ones the widgets of step 4 lead to (a forecast between 0 and 100, a
    service level between 80 and 99 percent, for a product of the
    catalog) and the back button. *)
Inductive playable : SessionState → Prop :=
  | play_init : playable initialize_game
  | play_quiz st clicked answer :
      playable st → playable (render_step_1_products clicked answer st)
  | play_forecast st k value :
      playable st → is_Some (products st !! k) →
      (∀ f, value = Some f → (0 <= f <= 100)%R) →
      playable (render_step_4_prediction k value st)
  | play_service st k percent :
      playable st → is_Some (products st !! k) →
      (∀ pct, percent = Some pct → 80 ≤ pct ≤ 99) →
      playable (render_step_4_service_level k percent st)
  | play_enter st k qty :
      playable st → is_Some (products st !! k) → 0 ≤ qty ≤ 500 →
      playable (enter_order k qty st)
  | play_order st clicked outcome st' :
      playable st → render_step_6_order clicked st = Some (outcome, st') →
      playable st'
  | play_day st draws report st' :
      playable st → process_daily_sales draws st = Some (report, st') →
      playable st'
  | play_back st :
      playable st → playable (unmark_submitted st).

(** BREAD as [create_products] makes it. *)
Definition bread : SimpleProduct :=
  mkProduct "BREAD" "面包" "🍞" 8 4 60 20 5 5.

(** MILK as [create_products] makes it. *)
Definition milk : SimpleProduct :=
  mkProduct "MILK" "牛奶" "🥛" 12 7 50 15 2 5.

(** The products are those of [create_products], up to their stock. *)
Definition catalog_ok (prods : gmap string SimpleProduct) : Prop :=
  ∀ k, (λ p, set_current_stock p 0) <$> prods !! k
       = (λ p, set_current_stock p 0) <$> create_products !! k.

(** The entries of step 4 are within the bounds of their widgets. *)
Definition entries_ok (st : SessionState) : Prop :=
  (∀ k f, player_predictions st !! k = Some f → (0 <= f <= 100)%R) ∧
  (∀ k s, player_service_levels st !! k = Some s → (80 / 100 <= s <= 99 / 100)%R).

(** The running totals: a profit that is not negative and at most the
    revenue, and a score that is not negative. *)
Definition totals_ok (st : SessionState) : Prop :=
  (0 <= total_profit st)%Q ∧ (total_profit st <= total_revenue st)%Q ∧
  (0 <= score st)%Q.

(** Every report of the log has a line for each product of the catalog,
    with a demand of at least one unit. *)
Definition reports_ok (st : SessionState) : Prop :=
  Forall (λ r, ∀ k, is_Some (create_products !! k) →
                    ∃ e, report_sales r !! k = Some e ∧ 1 ≤ sale_demand e)
    (daily_reports st).

(** What holds of every session of a game. *)
Definition game_ok (st : SessionState) : Prop :=
  session_ok st ∧ history_ok st ∧ catalog_ok (products st) ∧
  entries_ok st ∧ totals_ok st ∧ reports_ok st.

(** The grades in order, from C up to S. *)
Definition grade_rank (g : Grade) : Z :=
  match g with
  | GradeC => 0
  | GradeB => 1
  | GradeA => 2
  | GradeS => 3
  end.

(** ** The states of the wizard *)

(** The widgets keep their bounds: a forecast within 0 and 100, a service
    level within 80 and 99 percent, a quantity within 0 and 500. *)
Definition widgets_ok (w : Widgets) : Prop :=
  (∀ k f, forecast_input w k = Some f → (0 <= f <= 100)%R) ∧
  (∀ k pct, service_input w k = Some pct → 80 ≤ pct ≤ 99) ∧
  (∀ k qty, order_input w k = Some qty → 0 ≤ qty ≤ 500).

(** The states of the wizard: the ones runs of [main] lead to. *)
Inductive wizard_reachable : Wizard → Prop :=
  | wizard_start : wizard_reachable wizard_init
  | wizard_run w nav wz wz' :
      wizard_reachable wz → widgets_ok w → main w nav wz = Some wz' →
      wizard_reachable wz'.

(** What holds of every state of the wizard beside the game itself. *)
Definition wizard_ok (wz : Wizard) : Prop :=
  0 ≤ current_step wz ≤ 9 ∧
  (7 ≤ current_step wz → order_submitted (session wz) = true) ∧
  (8 ≤ current_step wz → simulation_run wz = true) ∧
  (simulation_run wz = true → daily_reports (session wz) ≠ []) ∧
  (5 ≤ current_step wz →
     ∀ k, k ∈ checked_products →
          is_Some (player_predictions (session wz) !! k) ∧
          is_Some (player_service_levels (session wz) !! k)) ∧
  (∀ k qty, player_orders (session wz) !! k = Some qty → 0 < qty →
            products_need_order wz !! k = Some true).

(** Widgets left alone: nothing entered, no button pressed. *)
Definition idle_widgets : Widgets :=
  mkWidgets false AnswerWater (λ _, None) (λ _, None) (λ _, None) false false
    (λ _, 1%Q).

(** Step 4 filled in: a forecast of 30 and a service level of 95 percent
    for every product. *)
Definition filled_widgets : Widgets :=
  mkWidgets false AnswerWater (λ _, Some 30%R) (λ _, Some 95) (λ _, None)
    false false (λ _, 1%Q).

(** The wizard at a step of a fresh game. *)
Definition wizard_at (step : Z) : Wizard := mkWizard initialize_game step false ∅.

(** The entry step 5 leaves in [player_orders] for a product, given the
    decision, the widget and the entry before. *)
Definition entry_after_step_5 (due : bool) (input before : option Z) : option Z :=
  if due then match input with Some qty => Some qty | None => before end
  else Some 0.

(** Step 5 with 100 units of BREAD entered. *)
Definition order_widgets : Widgets :=
  mkWidgets false AnswerWater (λ _, Some 30%R) (λ _, Some 95)
    (λ k, if decide (k = "BREAD") then Some 100 else None)
    false false (λ _, 1%Q).

(** Steps 5 to 7 played without an order: a quantity of 0 for every
    product and the run button of step 7 pressed. *)
Definition run_widgets : Widgets :=
  mkWidgets false AnswerWater (λ _, Some 30%R) (λ _, Some 95) (λ _, Some 0)
    false true (λ _, 1%Q).

(** * Part IV. Results *)

(** ** Facts on sums *)

Lemma map_sum_empty {A} (f : string → A → Q) : map_sum f ∅ = 0%Q.
Proof. unfold map_sum. by rewrite map_fold_empty. Qed.

Lemma map_sum_insert {A} (f : string → A → Q) (m : gmap string A) i x :
  m !! i = None → (map_sum f (<[i:=x]> m) == map_sum f m + f i x)%Q.
Proof.
  intros Hi. unfold map_sum.
  apply (map_fold_insert Qeq (λ k x s, (s + f k x)%Q)); [| |done].
  - intros j z a b Hab. by rewrite Hab.
  - intros j1 j2 z1 z2 y _ _ _. ring.
Qed.

Lemma map_sum_nonneg {A} (f : string → A → Q) (m : gmap string A) :
  (∀ k x, m !! k = Some x → (0 <= f k x)%Q) → (0 <= map_sum f m)%Q.
Proof.
  induction m as [|i x m Hi IH] using map_ind; intros Hf.
  - rewrite map_sum_empty. apply Qle_refl.
  - rewrite (map_sum_insert f m i x Hi).
    assert (0 <= f i x)%Q by (apply Hf; by rewrite lookup_insert_eq).
    assert (0 <= map_sum f m)%Q.
    { apply IH. intros k y Hk. apply Hf.
      rewrite lookup_insert_ne; [done|]. intros ->. congruence. }
    lra.
Qed.

Lemma map_sum_ext {A} (f g : string → A → Q) (m : gmap string A) :
  (∀ k x, m !! k = Some x → (f k x == g k x)%Q) → (map_sum f m == map_sum g m)%Q.
Proof.
  induction m as [|i x m Hi IH] using map_ind; intros Hfg.
  - by rewrite !map_sum_empty.
  - rewrite !map_sum_insert by done.
    rewrite IH, (Hfg i x); [reflexivity|by rewrite lookup_insert_eq|].
    intros k y Hk. apply Hfg. rewrite lookup_insert_ne; [done|]. intros ->. congruence.
Qed.

(** ** What the loops of [process_daily_sales] compute *)

Lemma sales_loop draws prods0 hist0 (m : gmap string SimpleProduct) :
  (∀ k, is_Some (m !! k) → is_Some (hist0 !! k)) →
  ∃ a, map_fold (sell_product draws)
         (Some (mkSalesAcc prods0 hist0 ∅ 0 0 [])) m = Some a ∧
       sales_acc_spec draws prods0 hist0 m a.
Proof.
  apply (map_fold_weak_ind (λ r m,
    (∀ k, is_Some (m !! k) → is_Some (hist0 !! k)) →
    ∃ a, r = Some a ∧ sales_acc_spec draws prods0 hist0 m a)); clear m.
  - intros _. eexists; split; [done|].
    repeat split; simpl; intros; try by rewrite ?lookup_empty, ?map_sum_empty.
  - intros i x m r Hi IH Hkeys.
    destruct IH as (a & -> & Hp & Hh & Hs & Hrev & Hcost & Hout).
    { intros k Hk. apply Hkeys. destruct (decide (i = k)) as [->|Hne].
      - rewrite Hi in Hk. by destruct Hk.
      - by rewrite lookup_insert_ne. }
    destruct (Hkeys i) as [h Hhi]; [by rewrite lookup_insert_eq|].
    assert (acc_history a !! i = Some h) as Hai by (by rewrite Hh, Hi).
    unfold sell_product. simpl. rewrite Hai. simpl.
    eexists; split; [done|].
    repeat split; simpl.
    + intros k. destruct (decide (i = k)) as [->|Hne].
      * by rewrite !lookup_insert_eq.
      * rewrite !lookup_insert_ne by done. apply Hp.
    + intros k. destruct (decide (i = k)) as [->|Hne].
      * rewrite !lookup_insert_eq, Hhi. done.
      * rewrite !lookup_insert_ne by done. apply Hh.
    + intros k. destruct (decide (i = k)) as [->|Hne].
      * by rewrite !lookup_insert_eq.
      * rewrite !lookup_insert_ne by done. apply Hs.
    + rewrite map_sum_insert by done. rewrite Hrev. reflexivity.
    + rewrite map_sum_insert by done. rewrite Hcost. reflexivity.
    + intros Hnil k p Hk. fold (fulfilled draws i x) in Hnil.
      destruct (decide (fulfilled draws i x < draw_demand (daily_demand x) (draws i)))
        as [Hlt|Hge].
      { by destruct (acc_stockouts a). }
      destruct (decide (i = k)) as [->|Hne].
      * rewrite lookup_insert_eq in Hk. injection Hk as <-.
        unfold fulfilled in Hge. lia.
      * rewrite lookup_insert_ne in Hk by done. apply Hout; done.
    + intros Hall. fold (fulfilled draws i x).
      destruct (decide (fulfilled draws i x < draw_demand (daily_demand x) (draws i)))
        as [Hlt|Hge].
      { specialize (Hall i x (lookup_insert_eq _ _ _)). unfold fulfilled in Hlt. lia. }
      apply Hout. intros k p Hk. apply Hall.
      rewrite lookup_insert_ne; [done|]. intros ->. congruence.
Qed.

(** The state of the second loop once the orders of [m] have been visited. *)
Lemma receive_loop (prods : gmap string SimpleProduct)
    (pend0 m : gmap string PendingOrder) :
  (∀ k, is_Some (m !! k) → is_Some (prods !! k)) →
  ∃ prods' pend',
    map_fold receive_order (Some (prods, pend0)) m = Some (prods', pend') ∧
    (∀ k, prods' !! k = arrive (m !! k) <$> prods !! k) ∧
    (∀ k, pend' !! k =
          match m !! k with Some o => countdown o | None => pend0 !! k end).
Proof.
  apply (map_fold_weak_ind (λ r m,
    (∀ k, is_Some (m !! k) → is_Some (prods !! k)) →
    ∃ prods' pend', r = Some (prods', pend') ∧
      (∀ k, prods' !! k = arrive (m !! k) <$> prods !! k) ∧
      (∀ k, pend' !! k =
            match m !! k with Some o => countdown o | None => pend0 !! k end)));
    clear m.
  - intros _. exists prods, pend0. split; [done|]. split; intros k.
    + rewrite lookup_empty. simpl. by destruct (prods !! k).
    + by rewrite lookup_empty.
  - intros i o m r Hi IH Hkeys.
    destruct IH as (prods' & pend' & -> & Hp & Hq).
    { intros k Hk. apply Hkeys. rewrite lookup_insert_ne; [done|].
      intros ->. rewrite Hi in Hk. by destruct Hk. }
    destruct (Hkeys i) as [p Hpi]; [by rewrite lookup_insert_eq|].
    assert (prods' !! i = Some p) as Hp'i.
    { rewrite Hp, Hi, Hpi. done. }
    unfold receive_order. simpl.
    destruct (decide (days_remaining o - 1 ≤ 0)) as [Harr|Hwait].
    + rewrite Hp'i. simpl. eexists _, _. split; [done|]. split; intros k.
      * destruct (decide (i = k)) as [->|Hne].
        -- rewrite !lookup_insert_eq, Hpi. simpl.
           by rewrite decide_True by done.
        -- rewrite !lookup_insert_ne by done. apply Hp.
      * destruct (decide (i = k)) as [->|Hne].
        -- rewrite lookup_delete_eq, lookup_insert_eq. unfold countdown.
           by rewrite decide_True by done.
        -- rewrite lookup_delete_ne, lookup_insert_ne by done. apply Hq.
    + eexists _, _. split; [done|]. split; intros k.
      * destruct (decide (i = k)) as [->|Hne].
        -- rewrite lookup_insert_eq, Hp'i, Hpi. simpl.
           by rewrite decide_False by done.
        -- rewrite lookup_insert_ne by done. apply Hp.
      * destruct (decide (i = k)) as [->|Hne].
        -- rewrite !lookup_insert_eq. unfold countdown.
           by rewrite decide_False by done.
        -- rewrite !lookup_insert_ne by done. apply Hq.
Qed.

(** The day as a whole: on a state whose keys are in order the function
    returns, and every component of the result has a closed form. *)
Lemma process_daily_sales_spec draws st :
  keys_ok st →
  ∃ report st',
    process_daily_sales draws st = Some (report, st') ∧
    (∀ k, products st' !! k =
          (λ p, arrive (pending_orders st !! k) (after_sale draws k p))
            <$> products st !! k) ∧
    (∀ k, pending_orders st' !! k = pending_orders st !! k ≫= countdown) ∧
    (∀ k, sales_history st' !! k =
          match products st !! k with
          | Some p => (λ h, push_history h (fulfilled draws k p))
                        <$> sales_history st !! k
          | None => sales_history st !! k
          end) ∧
    (∀ k, report_sales report !! k = sale_entry draws k <$> products st !! k) ∧
    (report_profit report ==
       map_sum (λ k p, inject_Z (fulfilled draws k p) * (price p - cost p))
         (products st))%Q ∧
    (report_stockouts report = [] ↔
       ∀ k p, products st !! k = Some p →
              draw_demand (daily_demand p) (draws k) ≤ current_stock p) ∧
    score_today report = daily_score (report_profit report) (report_stockouts report) ∧
    cash st' = (cash st + report_profit report)%Q ∧
    score st' = (score st + score_today report)%Q ∧
    player_orders st' = player_orders st ∧
    daily_reports st' = daily_reports st ++ [report].
Proof.
  intros [Hhist Hpend].
  destruct (sales_loop draws (products st) (sales_history st) (products st) Hhist)
    as (a & Hfold1 & Hp & Hh & Hs & Hrev & Hcost & Hout).
  destruct (receive_loop (acc_products a) (pending_orders st) (pending_orders st))
    as (prods' & pend' & Hfold2 & Hp' & Hq').
  { intros k Hk. rewrite Hp. destruct (Hpend k Hk) as [p ->]. done. }
  unfold process_daily_sales. rewrite Hfold1. simpl. rewrite Hfold2. simpl.
  eexists _, _. split; [done|]. simpl.
  repeat split; try done.
  - intros k. rewrite Hp', Hp. by destruct (products st !! k).
  - intros k. rewrite Hq'. by destruct (pending_orders st !! k).
  - rewrite Hrev, Hcost. clear.
    induction (products st) as [|i x m Hi IH] using map_ind.
    + rewrite !map_sum_empty. reflexivity.
    + rewrite !map_sum_insert by done. rewrite <- IH. ring.
  - apply Hout.
  - apply Hout.
Qed.

Lemma process_daily_sales_keys_ok draws st report st' :
  keys_ok st → process_daily_sales draws st = Some (report, st') → keys_ok st'.
Proof.
  intros Hok Hrun.
  destruct (process_daily_sales_spec draws st Hok)
    as (r & s & Hrun' & Hp & Hq & Hh & _).
  rewrite Hrun in Hrun'. injection Hrun' as -> ->.
  destruct Hok as [Hhist Hpend]. split; intros k.
  - rewrite Hp, Hh. intros [p' Hp']. specialize (Hhist k).
    destruct (products st !! k); [|done].
    destruct Hhist as [h ->]; done.
  - rewrite Hq, Hp. intros [o Ho].
    destruct (pending_orders st !! k) as [o0|] eqn:E; [|done].
    destruct (Hpend k) as [p ->]; done.
Qed.

(** ** The life of a pending order *)

(** Without a pending order the stock of a product only goes down by what is
    sold. *)
Lemma run_days_no_order draws : ∀ st k p,
  keys_ok st →
  products st !! k = Some p →
  pending_orders st !! k = None →
  ∃ reports st' p',
    run_days draws st = Some (reports, st') ∧
    products st' !! k = Some p' ∧
    current_stock p' = current_stock p - units_sold k reports ∧
    pending_orders st' !! k = None.
Proof.
  induction draws as [|d draws IH]; intros st k p Hok Hp Hq.
  - exists [], st, p. simpl. repeat split; try done. lia.
  - destruct (process_daily_sales_spec d st Hok)
      as (r & st1 & Hrun & Hp1 & Hq1 & _ & Hs1 & _).
    pose proof (process_daily_sales_keys_ok _ _ _ _ Hok Hrun) as Hok1.
    specialize (Hp1 k). rewrite Hp, Hq in Hp1. simpl in Hp1.
    specialize (Hq1 k). rewrite Hq in Hq1. simpl in Hq1.
    destruct (IH st1 k _ Hok1 Hp1 Hq1) as (rs & st2 & p2 & Hrun2 & Hp2 & Hst & Hq2).
    exists (r :: rs), st2, p2. simpl. rewrite Hrun. simpl. rewrite Hrun2. simpl.
    repeat split; try done.
    rewrite Hst. unfold report_units. rewrite Hs1, Hp. simpl. lia.
Qed.

(** With a pending order of [days_remaining >= 1], the quantity is added to
    the stock on the day the countdown reaches zero, and on no other day. *)
Lemma run_days_order draws : ∀ st k p o,
  keys_ok st →
  products st !! k = Some p →
  pending_orders st !! k = Some o →
  1 ≤ days_remaining o →
  ∃ reports st' p',
    run_days draws st = Some (reports, st') ∧
    products st' !! k = Some p' ∧
    current_stock p' =
      current_stock p - units_sold k reports
      + (if decide (days_remaining o ≤ Z.of_nat (length draws))
         then quantity o else 0) ∧
    pending_orders st' !! k =
      (if decide (days_remaining o ≤ Z.of_nat (length draws)) then None
       else Some (mkOrder (quantity o)
                    (days_remaining o - Z.of_nat (length draws)) (order_cost o))).
Proof.
  induction draws as [|d draws IH]; intros st k p o Hok Hp Hq Hdays.
  - exists [], st, p. simpl. rewrite !decide_False by lia.
    repeat split; try done; [lia|].
    rewrite Hq. destruct o; simpl. do 2 f_equal. lia.
  - destruct (process_daily_sales_spec d st Hok)
      as (r & st1 & Hrun & Hp1 & Hq1 & _ & Hs1 & _).
    pose proof (process_daily_sales_keys_ok _ _ _ _ Hok Hrun) as Hok1.
    specialize (Hp1 k). rewrite Hp, Hq in Hp1. simpl in Hp1.
    specialize (Hq1 k). rewrite Hq in Hq1. simpl in Hq1. unfold countdown in Hq1.
    assert (report_units k r = fulfilled d k p) as Hunits.
    { unfold report_units. by rewrite Hs1, Hp. }
    destruct (decide (days_remaining o - 1 ≤ 0)) as [Harr|Hwait].
    + destruct (run_days_no_order draws st1 k _ Hok1 Hp1 Hq1)
        as (rs & st2 & p2 & Hrun2 & Hp2 & Hst & Hq2).
      exists (r :: rs), st2, p2. simpl. rewrite Hrun. simpl. rewrite Hrun2. simpl.
      rewrite !decide_True by lia.
      repeat split; try done. rewrite Hst, Hunits. simpl. lia.
    + destruct (IH st1 k _ _ Hok1 Hp1 Hq1) as (rs & st2 & p2 & Hrun2 & Hp2 & Hst & Hq2);
        [simpl; lia|].
      exists (r :: rs), st2, p2. simpl. rewrite Hrun. simpl. rewrite Hrun2. simpl.
      simpl in Hst, Hq2.
      repeat split; try done.
      * rewrite Hst, Hunits. simpl.
        destruct (decide (days_remaining o - 1 ≤ Z.of_nat (length draws)));
          [rewrite decide_True by lia|rewrite decide_False by lia]; lia.
      * rewrite Hq2.
        destruct (decide (days_remaining o - 1 ≤ Z.of_nat (length draws)));
          [rewrite decide_True by lia|rewrite decide_False by lia]; [done|].
        do 2 f_equal. lia.
Qed.

(** ** What the loops of [render_step_6_order] compute *)

Lemma quote_loop (prods : gmap string SimpleProduct) (orders : gmap string Z) :
  (∀ k qty, orders !! k = Some qty → 0 ≤ qty ∧ is_Some (prods !! k)) →
  ∃ total details,
    map_fold (quote_order prods) (Some (0%Q, [])) orders = Some (total, details) ∧
    (total == batch_cost prods orders)%Q ∧
    (details = [] → total = 0%Q) ∧
    (details = [] ↔ ∀ k qty, orders !! k = Some qty → qty = 0).
Proof.
  unfold batch_cost.
  apply (map_fold_weak_ind (λ r m,
    (∀ k qty, m !! k = Some qty → 0 ≤ qty ∧ is_Some (prods !! k)) →
    ∃ total details, r = Some (total, details) ∧
      (total == map_sum (λ k qty,
                  match prods !! k with
                  | Some p => inject_Z qty * cost p
                  | None => 0
                  end) m)%Q ∧
      (details = [] → total = 0%Q) ∧
      (details = [] ↔ ∀ k qty, m !! k = Some qty → qty = 0))); clear orders.
  - intros _. exists 0%Q, []. split; [done|]. split; [|split; [done|]].
    + by rewrite map_sum_empty.
    + split; [|done]. intros _ k qty. by rewrite lookup_empty.
  - intros i qty m r Hi IH Hok.
    destruct IH as (total & details & -> & Htot & Hzero' & Hdet).
    { intros k q Hk. apply Hok. rewrite lookup_insert_ne; [done|].
      intros ->. congruence. }
    destruct (Hok i qty) as [Hqty [p Hp]]; [by rewrite lookup_insert_eq|].
    unfold quote_order. simpl. rewrite Hp. simpl.
    destruct (decide (0 < qty)) as [Hpos|Hzero].
    + eexists _, _. split; [done|]. split; [|split].
      * rewrite map_sum_insert by done. rewrite Hp, Htot. reflexivity.
      * intros Hnil. by destruct details.
      * split.
        -- intros Hnil. by destruct details.
        -- intros Hall. specialize (Hall i qty (lookup_insert_eq _ _ _)). lia.
    + assert (qty = 0) as -> by lia.
      eexists _, _. split; [done|]. split; [|split; [done|]].
      * rewrite map_sum_insert by done. rewrite Hp, Htot.
        unfold inject_Z. ring.
      * rewrite Hdet. split; intros Hall k q Hk.
        -- destruct (decide (i = k)) as [->|Hne].
           ++ rewrite lookup_insert_eq in Hk. congruence.
           ++ rewrite lookup_insert_ne in Hk by done. by apply (Hall k).
        -- apply (Hall k). rewrite lookup_insert_ne; [done|]. intros ->. congruence.
Qed.

Lemma place_loop (prods : gmap string SimpleProduct)
    (pend0 : gmap string PendingOrder) (orders : gmap string Z) :
  (∀ k qty, orders !! k = Some qty → 0 ≤ qty ∧ is_Some (prods !! k)) →
  ∃ pend',
    map_fold (place_order prods) (Some pend0) orders = Some pend' ∧
    ∀ k, pend' !! k =
         match orders !! k with
         | Some qty =>
             if decide (0 < qty) then new_order qty <$> prods !! k
             else pend0 !! k
         | None => pend0 !! k
         end.
Proof.
  apply (map_fold_weak_ind (λ r m,
    (∀ k qty, m !! k = Some qty → 0 ≤ qty ∧ is_Some (prods !! k)) →
    ∃ pend', r = Some pend' ∧
      ∀ k, pend' !! k =
           match m !! k with
           | Some qty =>
               if decide (0 < qty) then new_order qty <$> prods !! k
               else pend0 !! k
           | None => pend0 !! k
           end)); clear orders.
  - intros _. exists pend0. split; [done|]. intros k. by rewrite lookup_empty.
  - intros i qty m r Hi IH Hok.
    destruct IH as (pend' & -> & Hpend).
    { intros k q Hk. apply Hok. rewrite lookup_insert_ne; [done|].
      intros ->. congruence. }
    destruct (Hok i qty) as [Hqty [p Hp]]; [by rewrite lookup_insert_eq|].
    unfold place_order. simpl.
    destruct (decide (0 < qty)) as [Hpos|Hzero].
    + rewrite Hp. simpl. eexists. split; [done|]. intros k.
      destruct (decide (i = k)) as [->|Hne].
      * rewrite !lookup_insert_eq, Hp. by rewrite decide_True by done.
      * rewrite !lookup_insert_ne by done. apply Hpend.
    + eexists. split; [done|]. intros k.
      destruct (decide (i = k)) as [->|Hne].
      * rewrite lookup_insert_eq. rewrite decide_False by done.
        by rewrite Hpend, Hi.
      * rewrite lookup_insert_ne by done. apply Hpend.
Qed.

(** ** The example sessions are in order *)

Lemma initialize_game_keys_ok : keys_ok initialize_game.
Proof.
  split; intros k [x Hx]; simpl in *.
  - unfold create_products in Hx. unfold create_sales_history.
    repeat (apply lookup_insert_Some in Hx as [[<- _]|[? Hx]];
            [by eexists|]).
    by rewrite lookup_empty in Hx.
  - by rewrite lookup_empty in Hx.
Qed.

Lemma session_with_keys_ok c k qty : keys_ok (session_with c k qty).
Proof. exact initialize_game_keys_ok. Qed.

Lemma session_with_orders_ok c qty : 0 ≤ qty → orders_ok (session_with c "WATER" qty).
Proof.
  intros Hqty k q Hk. simpl in Hk.
  apply lookup_singleton_Some in Hk as [<- <-].
  split; [done|]. by eexists.
Qed.

Lemma session_with_order_in_transit_keys_ok : keys_ok session_with_order_in_transit.
Proof.
  split; [apply initialize_game_keys_ok|].
  intros j [o Ho]. simpl in *.
  apply lookup_singleton_Some in Ho as [<- _]. by eexists.
Qed.

Lemma create_products_margins_ok : margins_ok create_products.
Proof.
  intros k p Hp. unfold create_products in Hp.
  repeat (apply lookup_insert_Some in Hp as [[_ <-]|[_ Hp]];
          [simpl; lra|]).
  by rewrite lookup_empty in Hp.
Qed.

Lemma create_products_stock_ok : stock_ok create_products.
Proof.
  intros k p Hp. unfold create_products in Hp.
  repeat (apply lookup_insert_Some in Hp as [[_ <-]|[_ Hp]];
          [simpl; lia|]).
  by rewrite lookup_empty in Hp.
Qed.

(** ** Order submission *)

(** C1. The order batch is atomic. When the total cost of the batch (the sum
    over its products of quantity times unit cost) exceeds the cash, step 6
    answers with the insufficient-funds message and returns the session
    unchanged, whether or not a button is pressed. When the total is within
    the cash, confirming files an order for every positive quantity of the
    batch and debits the cash by exactly the total. *)
Theorem order_batch_is_atomic (st : SessionState) :
  orders_ok st →
  (0 <= cash st)%Q →
  let total := batch_cost (products st) (player_orders st) in
  ((cash st < total)%Q →
     ∀ clicked, render_step_6_order clicked st = Some (InsufficientFunds, st)) ∧
  ((total <= cash st)%Q →
     ∃ outcome st',
       render_step_6_order true st = Some (outcome, st') ∧
       outcome ≠ InsufficientFunds ∧
       (cash st' == cash st - total)%Q ∧
       products st' = products st ∧
       ∀ k qty p,
         player_orders st !! k = Some qty → 0 < qty →
         products st !! k = Some p →
         pending_orders st' !! k = Some (new_order qty p)).
Proof.
  intros Hok Hcash total.
  destruct (quote_loop (products st) (player_orders st) Hok)
    as (tc & details & Hquote & Htc & Hnil & Hdet).
  fold total in Htc.
  destruct (place_loop (products st) (pending_orders st) (player_orders st) Hok)
    as (pend' & Hplace & Hpend).
  unfold render_step_6_order. rewrite Hquote. simpl. split.
  - intros Hlt clicked. destruct details as [|row rows].
    + rewrite (Hnil eq_refl) in Htc. lra.
    + destruct (Qle_bool 0 (cash st - tc)) eqn:E; [|done].
      apply Qle_bool_iff in E. lra.
  - intros Hle. destruct details as [|row rows].
    + eexists _, _. split; [done|]. simpl. split; [done|].
      split; [rewrite <- Htc, (Hnil eq_refl); ring|]. split; [done|].
      intros k qty p Hk Hpos _. destruct Hdet as [Hdet _].
      specialize (Hdet eq_refl k qty Hk). lia.
    + assert (Qle_bool 0 (cash st - tc) = true) as ->.
      { apply Qle_bool_iff. lra. }
      rewrite Hplace. simpl. eexists _, _. split; [done|]. simpl.
      split; [done|]. split; [by rewrite Htc|]. split; [done|].
      intros k qty p Hk Hpos Hp. rewrite Hpend, Hk, Hp.
      by rewrite decide_True by done.
Qed.

(** The scenario of the specification: 50 units at 1.0 with 40 in cash is
    refused; with 10000 in cash it is filed and 50 is debited. *)
Lemma order_batch_is_atomic_witness :
  render_step_6_order true (session_with 40 "WATER" 50)
    = Some (InsufficientFunds, session_with 40 "WATER" 50) ∧
  ∃ outcome st',
    render_step_6_order true (session_with 10000 "WATER" 50) = Some (outcome, st') ∧
    outcome ≠ InsufficientFunds ∧
    (cash st' == 9950)%Q.
Proof.
  split.
  - apply (order_batch_is_atomic (session_with 40 "WATER" 50)).
    + apply session_with_orders_ok. lia.
    + simpl. lra.
    + vm_compute. reflexivity.
  - destruct (order_batch_is_atomic (session_with 10000 "WATER" 50)) as [_ H].
    + apply session_with_orders_ok. lia.
    + simpl. lra.
    + destruct H as (outcome & st' & H1 & H2 & H3 & _).
      * vm_compute. discriminate.
      * exists outcome, st'. split; [done|]. split; [done|].
        rewrite H3. vm_compute. reflexivity.
Defined.

(** ** Daily demand *)

(** [int] drops the fractional part: it is the floor of a non-negative
    number and the ceiling of a non-positive one. *)
Lemma int_of_float_trunc (x : Q) :
  ((0 <= x)%Q → int_of_float x = Qfloor x) ∧
  ((x <= 0)%Q → int_of_float x = Qceiling x).
Proof.
  destruct x as [n d]. unfold int_of_float, Qceiling, Qfloor, Qle. simpl.
  split; intros H.
  - apply Z.quot_div_nonneg; lia.
  - rewrite <- (Z.opp_involutive n) at 1.
    rewrite Z.quot_opp_l by lia. f_equal.
    apply Z.quot_div_nonneg; lia.
Qed.

(** *** Rounding to a double *)

(** The nearest integer is within one half. *)
Lemma round_half_even_bounds (x : Q) :
  (inject_Z (round_half_even x) - (1 # 2) <= x)%Q ∧
  (x <= inject_Z (round_half_even x) + (1 # 2))%Q.
Proof.
  unfold round_half_even.
  pose proof (Qfloor_le x) as Hlo. pose proof (Qlt_floor x) as Hhi.
  rewrite inject_Z_plus in Hhi.
  change (inject_Z 1) with 1%Q in Hhi.
  destruct (x - inject_Z (Qfloor x) ?= 1 # 2)%Q eqn:E.
  - apply Qeq_alt in E.
    destruct (Z.even (Qfloor x)); [|rewrite inject_Z_plus; change (inject_Z 1) with 1%Q];
      split; lra.
  - apply Qlt_alt in E. split; lra.
  - apply Qgt_alt in E. rewrite inject_Z_plus. change (inject_Z 1) with 1%Q.
    split; lra.
Qed.

Lemma Qpower2_pos (e : Z) : (0 < 2 ^ e)%Q.
Proof. apply Qpower_0_lt. reflexivity. Qed.

Lemma Qpower2_succ (e : Z) : (2 ^ (e + 1) == 2 ^ e * 2)%Q.
Proof. rewrite Qpower_plus by discriminate. reflexivity. Qed.

Lemma inject_Z_le (a b : Z) : a ≤ b → (inject_Z a <= inject_Z b)%Q.
Proof. intros H. by rewrite <- Zle_Qle. Qed.

Lemma inject_Z_lt (a b : Z) : a < b → (inject_Z a < inject_Z b)%Q.
Proof. intros H. by rewrite <- Zlt_Qlt. Qed.

Lemma Qpower2_inject (z : Z) : 0 ≤ z → (2 ^ z == inject_Z (2 ^ z))%Q.
Proof.
  intros Hz. rewrite Zpower_Qpower by exact Hz. reflexivity.
Qed.

(** Scaled by its binade, a positive rational has 53 bits before the point. *)
Lemma binade_spec (x : Q) :
  (0 < x)%Q →
  (2 ^ 52 <= x / 2 ^ binade x)%Q ∧ (x / 2 ^ binade x < 2 ^ 53)%Q.
Proof.
  intros Hx.
  set (n := Qnum x). set (d := Zpos (Qden x)).
  assert (0 < n) as Hn.
  { unfold n. destruct x as [xn xd]. unfold Qlt in Hx. simpl in *. lia. }
  assert (0 < d) as Hd by (unfold d; lia).
  destruct (Z.log2_spec n Hn) as [Hn1 Hn2].
  destruct (Z.log2_spec d Hd) as [Hd1 Hd2].
  pose proof (Z.log2_nonneg n) as Hln. pose proof (Z.log2_nonneg d) as Hld.
  set (a := (2 ^ Z.log2 n)%Q). set (b := (2 ^ Z.log2 d)%Q).
  assert (0 < a)%Q as Ha by apply Qpower2_pos.
  assert (0 < b)%Q as Hb by apply Qpower2_pos.
  assert (x * inject_Z d == inject_Z n)%Q as Hxd.
  { unfold n, d. destruct x as [xn xd]. unfold Qeq, Qmult, inject_Z. simpl.
    lia. }
  assert (a <= inject_Z n)%Q as Hna.
  { unfold a. rewrite Qpower2_inject by exact Hln. by rewrite <- Zle_Qle. }
  assert (inject_Z n < a * 2)%Q as Hna'.
  { unfold a. rewrite <- Qpower2_succ.
    rewrite Qpower2_inject by lia. by rewrite <- Zlt_Qlt. }
  assert (b <= inject_Z d)%Q as Hdb.
  { unfold b. rewrite Qpower2_inject by exact Hld. by rewrite <- Zle_Qle. }
  assert (inject_Z d < b * 2)%Q as Hdb'.
  { unfold b. rewrite <- Qpower2_succ.
    rewrite Qpower2_inject by lia. by rewrite <- Zlt_Qlt. }
  assert (a < x * b * 2)%Q as Hlow.
  { apply Qle_lt_trans with (inject_Z n); [done|]. rewrite <- Hxd.
    rewrite <- Qmult_assoc. apply Qmult_lt_l; [done|lra]. }
  assert (x * b < a * 2)%Q as Hup.
  { apply Qle_lt_trans with (inject_Z n); [|done]. rewrite <- Hxd.
    apply Qmult_le_l; done. }
  set (e := Z.log2 n - Z.log2 d - 53).
  assert (2 ^ e == a / b / 2 ^ 53)%Q as He.
  { unfold e, a, b. rewrite !Qpower_minus by discriminate. reflexivity. }
  assert (x / 2 ^ e == x * b / a * 2 ^ 53)%Q as Hscaled.
  { rewrite He. field. repeat split; try lra; try discriminate. }
  assert ((2 ^ 53)%Q == 9007199254740992)%Q as H53 by reflexivity.
  assert ((2 ^ 52)%Q == 4503599627370496)%Q as H52 by reflexivity.
  assert ((1 # 2) < x * b / a)%Q as Ht1.
  { apply Qlt_shift_div_l; [done|]. lra. }
  assert (x * b / a < 2)%Q as Ht2.
  { apply Qlt_shift_div_r; [done|]. lra. }
  unfold binade. fold n d e.
  destruct (Qlt_le_dec (x / 2 ^ e) (2 ^ 53)) as [Hlt|Hge].
  - split; [|done]. rewrite Hscaled, H52, H53. lra.
  - assert (x / 2 ^ (e + 1) == x / 2 ^ e * (1 # 2))%Q as ->.
    { rewrite Qpower2_succ. field. pose proof (Qpower2_pos e). lra. }
    rewrite Hscaled, H53 in Hge. rewrite Hscaled, H52, H53. split; lra.
Qed.

(** Rounding to a double moves a positive rational by at most one part in
    [2^53]. *)
Lemma round_double_error (x : Q) :
  (0 < x)%Q →
  (x * (1 - 1 / 2 ^ 53) <= round_double x)%Q ∧
  (round_double x <= x * (1 + 1 / 2 ^ 53))%Q.
Proof.
  intros Hx. destruct (binade_spec x Hx) as [Hlo _].
  assert (0 < Qnum x) as Hn.
  { destruct x as [xn xd]. unfold Qlt in Hx. simpl in *. lia. }
  unfold round_double. destruct (Qnum x) as [|q|q] eqn:E; [lia| |lia].
  set (w := (2 ^ binade x)%Q) in *.
  assert (0 < w)%Q as Hw by apply Qpower2_pos.
  set (y := (x / w)%Q) in *.
  destruct (round_half_even_bounds y) as [Hm1 Hm2].
  set (m := inject_Z (round_half_even y)) in *.
  assert (x == y * w)%Q as Hxy by (unfold y; field; lra).
  assert ((1 / 2 ^ 53)%Q == 1 # 9007199254740992)%Q as H53 by reflexivity.
  assert ((2 ^ 52)%Q == 4503599627370496)%Q as H52 by reflexivity.
  rewrite H52 in Hlo. rewrite H53.
  assert (4503599627370496 * w <= x)%Q as Hwx.
  { rewrite Hxy. apply Qmult_le_compat_r; lra. }
  assert ((m - (1 # 2)) * w <= x)%Q as H1.
  { rewrite Hxy. apply Qmult_le_compat_r; lra. }
  assert (x <= (m + (1 # 2)) * w)%Q as H2.
  { rewrite Hxy. apply Qmult_le_compat_r; lra. }
  split; lra.
Qed.

Lemma round_double_0 (x : Q) : (x == 0)%Q → round_double x = 0%Q.
Proof.
  intros Hx. unfold round_double.
  assert (Qnum x = 0) as ->; [|done].
  destruct x as [xn xd]. unfold Qeq in Hx. simpl in *. lia.
Qed.

Lemma round_double_nonneg (x : Q) : (0 <= x)%Q → (0 <= round_double x)%Q.
Proof.
  intros Hx. destruct (Qlt_le_dec 0 x) as [Hpos|Hle].
  - destruct (round_double_error x Hpos) as [H _].
    assert ((1 / 2 ^ 53)%Q == 1 # 9007199254740992)%Q as H53 by reflexivity.
    rewrite H53 in H. lra.
  - rewrite round_double_0 by lra. lra.
Qed.

(** The two ends of the range of the factor, as fractions. *)
Lemma uniform_range_bounds (u : Q) :
  uniform_range u →
  (6305039478318694 # 9007199254740992 <= u)%Q ∧
  (u <= 5854679515581645 # 4503599627370496)%Q.
Proof.
  intros [Hlo Hhi].
  assert (round_double (7 # 10) == 6305039478318694 # 9007199254740992)%Q
    as Elo by (vm_compute; reflexivity).
  assert (round_double (13 # 10) == 5854679515581645 # 4503599627370496)%Q
    as Ehi by (vm_compute; reflexivity).
  rewrite Elo in Hlo. rewrite Ehi in Hhi. by split.
Qed.

Lemma float_product_nonneg (b : Z) (u : Q) :
  0 ≤ b → uniform_range u → (0 <= float_mul (float_of_int b) u)%Q.
Proof.
  intros Hb Hu. apply uniform_range_bounds in Hu as [Hlo _].
  apply round_double_nonneg, Qmult_le_0_compat; [|lra].
  apply round_double_nonneg. by apply (inject_Z_le 0).
Qed.

(** The noise of the demand: for a base demand [b] below [2^40] and a factor
    in range, the demand [d] has [0.7 * b <= d + 1] and, unless the floor of
    one unit applies, [d <= 1.3 * b]. *)
Lemma draw_demand_noise (b : Z) (u : Q) :
  0 ≤ b < 2 ^ 40 → uniform_range u →
  7 * b ≤ 10 * (draw_demand b u + 1) ∧
  10 * draw_demand b u ≤ Z.max 10 (13 * b).
Proof.
  intros [Hb0 Hb1] Hu. pose proof (float_product_nonneg b u Hb0 Hu) as Hnn.
  apply uniform_range_bounds in Hu as [Hlo Hhi].
  unfold draw_demand. rewrite (proj1 (int_of_float_trunc _) Hnn).
  destruct (decide (b = 0)) as [->|Hb].
  { unfold float_of_int, float_mul. rewrite (round_double_0 (inject_Z 0)) by reflexivity.
    rewrite (round_double_0 (0 * u)) by (by rewrite Qmult_0_l).
    vm_compute. split; discriminate. }
  set (fb := float_of_int b) in *. set (fl := float_mul fb u) in *.
  assert (1 <= inject_Z b)%Q as HB0 by (apply (inject_Z_le 1); lia).
  assert (inject_Z b < 1099511627776)%Q as HB1
    by (apply (inject_Z_lt b 1099511627776); exact Hb1).
  assert ((1 / 2 ^ 53)%Q == 1 # 9007199254740992)%Q as H53 by reflexivity.
  destruct (round_double_error (inject_Z b)) as [Hfb1 Hfb2]; [lra|].
  fold (float_of_int b) in Hfb1, Hfb2. fold fb in Hfb1, Hfb2.
  rewrite H53 in Hfb1, Hfb2.
  assert (0 < fb)%Q as Hfb by lra.
  assert (fb * (6305039478318694 # 9007199254740992) <= fb * u)%Q as Hx1
    by (apply Qmult_le_l; done).
  assert (fb * u <= fb * (5854679515581645 # 4503599627370496))%Q as Hx2
    by (apply Qmult_le_l; done).
  destruct (round_double_error (fb * u)) as [Hfl1 Hfl2]; [lra|].
  fold (float_mul fb u) in Hfl1, Hfl2. fold fl in Hfl1, Hfl2.
  rewrite H53 in Hfl1, Hfl2.
  pose proof (Qfloor_le fl) as Hd1. pose proof (Qlt_floor fl) as Hd2.
  set (d := Qfloor fl) in *.
  rewrite inject_Z_plus in Hd2. change (inject_Z 1) with 1%Q in Hd2.
  assert (7 * b < 10 * (d + 1) + 1) as Hlow.
  { rewrite Zlt_Qlt. rewrite !inject_Z_plus, !inject_Z_mult, !inject_Z_plus.
    change (inject_Z 7) with 7%Q. change (inject_Z 10) with 10%Q.
    change (inject_Z 1) with 1%Q. lra. }
  assert (10 * d < 13 * b + 1) as Hhigh.
  { rewrite Zlt_Qlt. rewrite !inject_Z_plus, !inject_Z_mult.
    change (inject_Z 13) with 13%Q. change (inject_Z 10) with 10%Q.
    change (inject_Z 1) with 1%Q. lra. }
  lia.
Qed.

(** *** The demand of a day *)

(** C3, as the code has it. On every simulated day, with factors drawn from
    [0.7, 1.3], the demand recorded for each product is
    [max(1, int(base_daily_demand * U))], [U] being the factor drawn for that
    product that day: the product, a double, is truncated (floored, the base
    demand not being negative), not rounded to the nearest integer. The
    demand is at least 1, so it is never zero; for a base demand [b] (below
    [2^40]) it stays within the noise of 30 percent: [0.7 * b - 1 <= d] and
    [d <= max(1, 1.3 * b)]. *)
Theorem actual_demand_is_truncated (draws : string → Q) (st : SessionState) :
  keys_ok st →
  (∀ k, uniform_range (draws k)) →
  ∃ report st',
    process_daily_sales draws st = Some (report, st') ∧
    ∀ k p, products st !! k = Some p →
      ∃ e, report_sales report !! k = Some e ∧
           sale_demand e
             = Z.max 1 (int_of_float
                          (float_mul (float_of_int (daily_demand p)) (draws k))) ∧
           (0 ≤ daily_demand p →
            sale_demand e
              = Z.max 1 (Qfloor
                           (float_mul (float_of_int (daily_demand p)) (draws k)))) ∧
           (0 ≤ daily_demand p < 2 ^ 40 →
            7 * daily_demand p ≤ 10 * (sale_demand e + 1) ∧
            10 * sale_demand e ≤ Z.max 10 (13 * daily_demand p)) ∧
           1 ≤ sale_demand e ∧ sale_demand e ≠ 0.
Proof.
  intros Hok Hdraws.
  destruct (process_daily_sales_spec draws st Hok)
    as (r & st' & Hrun & _ & _ & _ & Hs & _).
  exists r, st'. split; [done|]. intros k p Hp.
  exists (sale_entry draws k p). rewrite Hs, Hp.
  split; [reflexivity|].
  change (sale_demand (sale_entry draws k p))
    with (draw_demand (daily_demand p) (draws k)).
  split; [reflexivity|]. split; [|split; [|split]].
  - intros Hb. unfold draw_demand.
    by rewrite (proj1 (int_of_float_trunc _)
                  (float_product_nonneg _ _ Hb (Hdraws k))).
  - intros Hb. apply draw_demand_noise; [exact Hb|apply Hdraws].
  - unfold draw_demand. lia.
  - unfold draw_demand. lia.
Qed.

(** On the first day of a fresh game, with the factor 0.7333333333333333
    for every product, the demand of WATER (base 30) is 22: the product of
    the doubles is 22.0, where the exact product is a little below 22. *)
Lemma actual_demand_is_truncated_witness :
  ∃ report st',
    process_daily_sales (λ _, 6605279453476727 # 9007199254740992)%Q
      initialize_game = Some (report, st') ∧
    ∃ e, report_sales report !! "WATER" = Some e ∧
         sale_demand e = 22 ∧
         7 * 30 ≤ 10 * (sale_demand e + 1) ∧
         10 * sale_demand e ≤ 13 * 30.
Proof.
  destruct (actual_demand_is_truncated
              (λ _, 6605279453476727 # 9007199254740992)%Q initialize_game
              initialize_game_keys_ok) as (r & st' & Hrun & H).
  - intros _. split; vm_compute; discriminate.
  - exists r, st'. split; [exact Hrun|].
    destruct (H "WATER" water eq_refl) as (e & He & Hd & _ & Hnoise & _).
    exists e. split; [exact He|]. split; [rewrite Hd; vm_compute; reflexivity|].
    assert (0 ≤ daily_demand water < 2 ^ 40) as Hb
      by (vm_compute; split; [discriminate|reflexivity]).
    destruct (Hnoise Hb) as [H1 H2]. split; [exact H1|].
    rewrite Hd in H2 |- *. vm_compute. discriminate.
Defined.

(** The double product decides the demand: 30 times 0.7333333333333333 is
    the double 22.0 and the demand 22, where truncating the exact product
    would give 21. *)
Lemma demand_truncates_the_double_product :
  draw_demand 30 (6605279453476727 # 9007199254740992) = 22 ∧
  Z.max 1 (int_of_float (inject_Z 30 * (6605279453476727 # 9007199254740992))) = 21.
Proof. split; vm_compute; reflexivity. Qed.

(** The lower bound of the noise is met: 90 times the double 0.7 is the
    double 62.99999999999999 and the demand 62, one below the floor of 63. *)
Lemma demand_below_the_exact_floor :
  uniform_range (3152519739159347 # 4503599627370496) ∧
  draw_demand 90 (3152519739159347 # 4503599627370496) = 62 ∧
  Qfloor (inject_Z 90 * (7 # 10)) = 63.
Proof.
  split; [split; vm_compute; discriminate|].
  split; vm_compute; reflexivity.
Qed.

(** C3, as the specification words it, fails: with base demand 30 and the
    factor 17/16 = 1.0625 (a double inside [0.7, 1.3]) the product is
    31.875; the program records 31, rounding would give 32. *)
Lemma actual_demand_is_not_rounded :
  uniform_range (17 # 16) ∧
  ∃ report st',
    process_daily_sales (λ _, 17 # 16)%Q initialize_game = Some (report, st') ∧
    sale_demand <$> report_sales report !! "WATER" = Some 31 ∧
    spec_draw_demand 30 (17 # 16) = 32.
Proof.
  split; [split; vm_compute; discriminate|].
  eexists _, _. split; [vm_compute; reflexivity|].
  split; vm_compute; reflexivity.
Qed.

(** ** Score *)

Lemma daily_score_nonneg profit stockouts : (0 <= daily_score profit stockouts)%Q.
Proof.
  unfold daily_score.
  destruct (Qlt_le_dec 0 profit); destruct stockouts; lra.
Qed.

Lemma quiz_bonus_nonneg clicked answer st :
  (score st <= score (render_step_1_products clicked answer st))%Q.
Proof.
  unfold render_step_1_products.
  destruct clicked; [destruct answer|]; simpl; lra.
Qed.

Lemma quiz_keys_ok clicked answer st :
  keys_ok st → keys_ok (render_step_1_products clicked answer st).
Proof. unfold render_step_1_products. by destruct clicked; [destruct answer|]. Qed.

(** C8. The score never decreases. The score of a day is non-negative: a
    tenth of the profit when that is positive, plus 50 when nothing stocked
    out. The quiz adds 10 or nothing. So over every sequence of simulated
    days and quiz answers the run completes and ends with a score at least
    the one it started with. *)
Theorem score_never_decreases :
  (∀ profit stockouts, (0 <= daily_score profit stockouts)%Q) ∧
  (∀ draws st report st',
     process_daily_sales draws st = Some (report, st') →
     (0 <= score_today report)%Q ∧
     (score st' == score st + score_today report)%Q ∧
     (score_today report ==
        (if Qlt_le_dec 0 (report_profit report)
         then report_profit report * (1 # 10) else 0)
        + (if decide (report_stockouts report = []) then 50 else 0))%Q) ∧
  (∀ clicked answer st,
     (score (render_step_1_products clicked answer st) ==
        score st + (if clicked then
                      match answer with AnswerBread => 10 | _ => 0 end
                    else 0))%Q) ∧
  (∀ events st,
     keys_ok st →
     ∃ st', play events st = Some st' ∧ (score st <= score st')%Q).
Proof.
  split; [apply daily_score_nonneg|]. split; [|split].
  - intros draws st report st' Hrun. unfold process_daily_sales in Hrun.
    destruct (map_fold (sell_product draws) _ _) as [a|]; [|done].
    simpl in Hrun.
    destruct (map_fold receive_order _ _) as [[prods pend]|]; [|done].
    simpl in Hrun. injection Hrun as <- <-. simpl.
    split; [apply daily_score_nonneg|]. split; [reflexivity|].
    unfold daily_score.
    destruct (acc_stockouts a); destruct (Qlt_le_dec _ _); simpl; ring.
  - intros clicked answer st. unfold render_step_1_products.
    destruct clicked; [destruct answer|]; simpl; ring.
  - induction events as [|e events IH]; intros st Hok.
    + exists st. split; [done|]. lra.
    + destruct e as [clicked answer|draws]; simpl.
      * destruct (IH _ (quiz_keys_ok clicked answer st Hok)) as (st' & Hplay & Hle).
        exists st'. split; [done|].
        pose proof (quiz_bonus_nonneg clicked answer st). lra.
      * destruct (process_daily_sales_spec draws st Hok)
          as (r & st1 & Hrun & _ & _ & _ & _ & _ & _ & Hsc & _ & Hscore & _).
        pose proof (process_daily_sales_keys_ok _ _ _ _ Hok Hrun) as Hok1.
        destruct (IH st1 Hok1) as (st' & Hplay & Hle).
        exists st'. rewrite Hrun. simpl. split; [done|].
        pose proof (daily_score_nonneg (report_profit r) (report_stockouts r)).
        rewrite Hscore, Hsc in Hle. lra.
Qed.

(** A correct quiz answer followed by one day with the nominal demand. *)
Lemma score_never_decreases_witness :
  ∃ st',
    play [QuizAnswered true AnswerBread; DaySimulated (λ _, 1%Q)] initialize_game
      = Some st' ∧
    (score initialize_game <= score st')%Q.
Proof.
  exact (proj2 (proj2 (proj2 score_never_decreases))
           [QuizAnswered true AnswerBread; DaySimulated (λ _, 1%Q)]
           initialize_game initialize_game_keys_ok).
Defined.

(** ** Cash over one simulated day *)

Lemma fulfilled_nonneg draws k p : 0 ≤ current_stock p → 0 ≤ fulfilled draws k p.
Proof. unfold fulfilled, draw_demand. lia. Qed.

(** C9. With every unit price at least the unit cost (and stocks that are
    not negative, as the simulation keeps them), one run of the daily
    simulation returns, its profit is the sum over the products of the units
    sold times (price - cost), every such term is non-negative, and the cash
    after the day is the cash before plus that profit: it does not go down. *)
Theorem daily_run_never_decreases_cash (draws : string → Q) (st : SessionState) :
  keys_ok st →
  margins_ok (products st) →
  stock_ok (products st) →
  ∃ report st',
    process_daily_sales draws st = Some (report, st') ∧
    (report_profit report ==
       map_sum (λ k p, inject_Z (report_units k report) * (price p - cost p))
         (products st))%Q ∧
    (∀ k, 0 ≤ report_units k report) ∧
    (0 <= report_profit report)%Q ∧
    (cash st' == cash st + report_profit report)%Q ∧
    (cash st <= cash st')%Q.
Proof.
  intros Hok Hmargin Hstock.
  destruct (process_daily_sales_spec draws st Hok)
    as (r & st' & Hrun & _ & _ & _ & Hs & Hprofit & _ & _ & Hcash & _).
  exists r, st'. split; [exact Hrun|].
  assert (∀ k, 0 ≤ report_units k r) as Hunits.
  { intros k. unfold report_units. rewrite Hs.
    destruct (products st !! k) as [p|] eqn:Hp; simpl; [|lia].
    apply fulfilled_nonneg. by apply (Hstock k). }
  assert (0 <= report_profit r)%Q as Hpos.
  { rewrite Hprofit. apply map_sum_nonneg. intros k p Hp.
    pose proof (fulfilled_nonneg draws k p (Hstock k p Hp)) as Hf.
    pose proof (Hmargin k p Hp) as Hm.
    apply Qmult_le_0_compat; [|lra].
    change 0%Q with (inject_Z 0). by rewrite <- Zle_Qle. }
  split; [|split; [exact Hunits|split; [exact Hpos|]]].
  - rewrite Hprofit. apply map_sum_ext. intros k p Hp.
    unfold report_units. rewrite Hs, Hp. simpl. reflexivity.
  - rewrite Hcash. split; [reflexivity|lra].
Qed.

(** The first day of a fresh game, every factor at its upper bound 1.3. *)
Lemma daily_run_never_decreases_cash_witness :
  ∃ report st',
    process_daily_sales (λ _, 13 # 10)%Q initialize_game = Some (report, st') ∧
    (0 <= report_profit report)%Q ∧
    (cash initialize_game <= cash st')%Q.
Proof.
  destruct (daily_run_never_decreases_cash (λ _, 13 # 10)%Q initialize_game
              initialize_game_keys_ok create_products_margins_ok
              create_products_stock_ok)
    as (r & st' & Hrun & _ & _ & Hpos & _ & Hle).
  exists r, st'. split; [exact Hrun|]. split; [exact Hpos|exact Hle].
Defined.

(** ** Confirmed orders *)

(** A batch with a positive quantity that the cash covers is filed when the
    confirm button is pressed; the new session is described field by field. *)
Lemma confirm_order_spec (st : SessionState) (k : string) (qty : Z) :
  orders_ok st →
  (batch_cost (products st) (player_orders st) <= cash st)%Q →
  player_orders st !! k = Some qty → 0 < qty →
  ∃ st1,
    render_step_6_order true st = Some (OrderSubmitted, st1) ∧
    (cash st1 == cash st - batch_cost (products st) (player_orders st))%Q ∧
    products st1 = products st ∧
    sales_history st1 = sales_history st ∧
    (∀ j, pending_orders st1 !! j =
          match player_orders st !! j with
          | Some q =>
              if decide (0 < q) then new_order q <$> products st !! j
              else pending_orders st !! j
          | None => pending_orders st !! j
          end).
Proof.
  intros Hok Hle Hk Hpos.
  destruct (quote_loop (products st) (player_orders st) Hok)
    as (tc & details & Hquote & Htc & Hnil & Hdet).
  destruct (place_loop (products st) (pending_orders st) (player_orders st) Hok)
    as (pend' & Hplace & Hpend).
  unfold render_step_6_order. rewrite Hquote. simpl.
  destruct details as [|row rows].
  { destruct Hdet as [Hdet _]. specialize (Hdet eq_refl k qty Hk). lia. }
  assert (Qle_bool 0 (cash st - tc) = true) as ->.
  { apply Qle_bool_iff. lra. }
  rewrite Hplace. simpl. eexists. split; [reflexivity|]. simpl.
  split; [by rewrite Htc|]. split; [reflexivity|]. split; [reflexivity|].
  exact Hpend.
Qed.

Lemma confirm_order_keys_ok (st st1 : SessionState) :
  keys_ok st →
  products st1 = products st →
  sales_history st1 = sales_history st →
  (∀ j, pending_orders st1 !! j =
        match player_orders st !! j with
        | Some q =>
            if decide (0 < q) then new_order q <$> products st !! j
            else pending_orders st !! j
        | None => pending_orders st !! j
        end) →
  keys_ok st1.
Proof.
  intros [Hhist Hpend] Hp Hh Hq. split; intros j.
  - rewrite Hp, Hh. apply Hhist.
  - rewrite Hq, Hp. destruct (player_orders st !! j) as [q|]; [|apply Hpend].
    destruct (decide (0 < q)); [|apply Hpend].
    intros [o Ho]. destruct (products st !! j); [by eexists|done].
Qed.

(** C5. A confirmed order of [qty] units for a product of lead time
    [L >= 1] is filed with [days_remaining = L]. However the demand falls,
    after [n < L] simulated days it is still outstanding (with [L - n] days
    to go) and the stock is the initial stock less the units sold; after
    [n >= L] days the order is gone and the stock is the initial stock less
    the units sold plus [qty], added once. So after exactly [L] days the
    quantity has landed and after [L - 1] days it has not. *)
Theorem order_lands_after_lead_time (st : SessionState) (k : string) (qty : Z)
    (p : SimpleProduct) :
  keys_ok st →
  orders_ok st →
  (batch_cost (products st) (player_orders st) <= cash st)%Q →
  player_orders st !! k = Some qty → 0 < qty →
  products st !! k = Some p → 1 ≤ lead_time p →
  ∃ st1,
    render_step_6_order true st = Some (OrderSubmitted, st1) ∧
    pending_orders st1 !! k = Some (new_order qty p) ∧
    ∀ draws : list (string → Q),
      ∃ reports st2 p2,
        run_days draws st1 = Some (reports, st2) ∧
        products st2 !! k = Some p2 ∧
        (Z.of_nat (length draws) < lead_time p →
           current_stock p2 = current_stock p - units_sold k reports ∧
           pending_orders st2 !! k =
             Some (mkOrder qty (lead_time p - Z.of_nat (length draws))
                     (inject_Z qty * cost p)%Q)) ∧
        (lead_time p ≤ Z.of_nat (length draws) →
           current_stock p2 = current_stock p - units_sold k reports + qty ∧
           pending_orders st2 !! k = None).
Proof.
  intros Hkeys Hok Hle Hk Hpos Hp Hlead.
  destruct (confirm_order_spec st k qty Hok Hle Hk Hpos)
    as (st1 & Hsub & _ & Hprods & Hhist & Hpend).
  pose proof (confirm_order_keys_ok st st1 Hkeys Hprods Hhist Hpend) as Hkeys1.
  assert (pending_orders st1 !! k = Some (new_order qty p)) as Hnew.
  { rewrite Hpend, Hk, Hp. by rewrite decide_True by done. }
  exists st1. split; [exact Hsub|]. split; [exact Hnew|]. intros draws.
  assert (products st1 !! k = Some p) as Hp1 by (by rewrite Hprods).
  destruct (run_days_order draws st1 k p (new_order qty p) Hkeys1 Hp1 Hnew Hlead)
    as (rs & st2 & p2 & Hrun & Hp2 & Hstock & Hq).
  exists rs, st2, p2. simpl in Hstock, Hq.
  split; [exact Hrun|]. split; [exact Hp2|]. split; intros Hn.
  - rewrite decide_False in Hstock by lia. rewrite decide_False in Hq by lia.
    split; [lia|exact Hq].
  - rewrite decide_True in Hstock by lia. rewrite decide_True in Hq by lia.
    split; [lia|exact Hq].
Qed.

(** 50 units of WATER (lead time 3) ordered in a fresh game. *)
Lemma order_lands_after_lead_time_witness :
  ∃ st1,
    render_step_6_order true (session_with 10000 "WATER" 50)
      = Some (OrderSubmitted, st1) ∧
    pending_orders st1 !! "WATER" = Some (new_order 50 water) ∧
    ∀ draws : list (string → Q),
      ∃ reports st2 p2,
        run_days draws st1 = Some (reports, st2) ∧
        products st2 !! "WATER" = Some p2 ∧
        (Z.of_nat (length draws) < 3 →
           current_stock p2 = 120 - units_sold "WATER" reports ∧
           pending_orders st2 !! "WATER" =
             Some (mkOrder 50 (3 - Z.of_nat (length draws)) (inject_Z 50 * 1)%Q)) ∧
        (3 ≤ Z.of_nat (length draws) →
           current_stock p2 = 120 - units_sold "WATER" reports + 50 ∧
           pending_orders st2 !! "WATER" = None).
Proof.
  apply (order_lands_after_lead_time (session_with 10000 "WATER" 50)
           "WATER" 50 water).
  - apply session_with_keys_ok.
  - apply session_with_orders_ok. lia.
  - vm_compute. discriminate.
  - reflexivity.
  - lia.
  - reflexivity.
  - simpl. lia.
Defined.

(** The same order followed day by day, every draw at the nominal demand:
    stock 120, 30 sold a day, 50 arriving at the end of the third day. *)
Example water_order_day_by_day :
  ∀ st1, render_step_6_order true (session_with 10000 "WATER" 50)
           = Some (OrderSubmitted, st1) →
  let stock_and_order n :=
    '(_, st2) ← run_days (replicate n (λ _, 1%Q)) st1;
    p2 ← products st2 !! "WATER";
    Some (current_stock p2, days_remaining <$> pending_orders st2 !! "WATER") in
  stock_and_order 2%nat = Some (60, Some 1) ∧
  stock_and_order 3%nat = Some (80, None) ∧
  stock_and_order 4%nat = Some (50, None).
Proof.
  intros st1 Hsub. vm_compute in Hsub. injection Hsub as <-.
  repeat split; vm_compute; reflexivity.
Qed.

(** ** A second order for the same product *)

(** C10. Confirming an order for a product that already has an order in
    transit succeeds without any complaint and overwrites the entry of the
    pending-orders dictionary: the entry is the new order, the stock is not
    touched, and the cash goes down by the whole batch total with nothing
    given back for the old order. The pending orders and the cash are the
    very ones that result had the old order never existed, so nothing of it
    is left to arrive: over any later run of days the stock of the product
    receives the new quantity, once, when the new countdown ends, and never
    the old quantity. *)
Theorem second_order_replaces_first (st : SessionState) (k : string)
    (old : PendingOrder) (qty : Z) (p : SimpleProduct) :
  keys_ok st →
  orders_ok st →
  (batch_cost (products st) (player_orders st) <= cash st)%Q →
  pending_orders st !! k = Some old →
  player_orders st !! k = Some qty → 0 < qty →
  products st !! k = Some p →
  ∃ st1,
    render_step_6_order true st = Some (OrderSubmitted, st1) ∧
    pending_orders st1 !! k = Some (new_order qty p) ∧
    products st1 = products st ∧
    (cash st1 == cash st - batch_cost (products st) (player_orders st))%Q ∧
    (∃ st1',
       render_step_6_order true (forget_order k st) = Some (OrderSubmitted, st1') ∧
       pending_orders st1' = pending_orders st1 ∧
       products st1' = products st1 ∧
       (cash st1' == cash st1)%Q) ∧
    (1 ≤ lead_time p →
     ∀ draws : list (string → Q),
       ∃ reports st2 p2,
         run_days draws st1 = Some (reports, st2) ∧
         products st2 !! k = Some p2 ∧
         current_stock p2 =
           current_stock p - units_sold k reports
           + (if decide (lead_time p ≤ Z.of_nat (length draws)) then qty else 0)).
Proof.
  intros Hkeys Hok Hle Hold Hk Hpos Hp.
  destruct (confirm_order_spec st k qty Hok Hle Hk Hpos)
    as (st1 & Hsub & Hcash & Hprods & Hhist & Hpend).
  destruct (confirm_order_spec (forget_order k st) k qty Hok Hle Hk Hpos)
    as (st1' & Hsub' & Hcash' & Hprods' & _ & Hpend').
  simpl in Hcash', Hprods', Hpend'.
  pose proof (confirm_order_keys_ok st st1 Hkeys Hprods Hhist Hpend) as Hkeys1.
  assert (pending_orders st1 !! k = Some (new_order qty p)) as Hnew.
  { rewrite Hpend, Hk, Hp. by rewrite decide_True by done. }
  exists st1. split; [exact Hsub|]. split; [exact Hnew|].
  split; [exact Hprods|]. split; [exact Hcash|]. split.
  - exists st1'. split; [exact Hsub'|]. split; [|split].
    + apply map_eq. intros j. rewrite Hpend, Hpend'.
      destruct (decide (k = j)) as [<-|Hne].
      * rewrite Hk. destruct (decide (0 < qty)); [reflexivity|lia].
      * by rewrite lookup_delete_ne by done.
    + by rewrite Hprods, Hprods'.
    + by rewrite Hcash, Hcash'.
  - intros Hlead draws.
    assert (products st1 !! k = Some p) as Hp1 by (by rewrite Hprods).
    destruct (run_days_order draws st1 k p (new_order qty p) Hkeys1 Hp1 Hnew Hlead)
      as (rs & st2 & p2 & Hrun & Hp2 & Hstock & _).
    exists rs, st2, p2. split; [exact Hrun|]. split; [exact Hp2|exact Hstock].
Qed.

Lemma second_order_replaces_first_witness :
  ∃ st1,
    render_step_6_order true session_with_order_in_transit
      = Some (OrderSubmitted, st1) ∧
    pending_orders st1 !! "WATER" = Some (new_order 50 water) ∧
    (cash st1 == 9950)%Q.
Proof.
  destruct (second_order_replaces_first session_with_order_in_transit
              "WATER" (mkOrder 70 2 70) 50 water)
    as (st1 & Hsub & Hnew & _ & Hcash & _).
  - apply session_with_order_in_transit_keys_ok.
  - apply (session_with_orders_ok 10000 50). lia.
  - vm_compute. discriminate.
  - reflexivity.
  - reflexivity.
  - lia.
  - reflexivity.
  - exists st1. split; [exact Hsub|]. split; [exact Hnew|].
    rewrite Hcash. vm_compute. reflexivity.
Defined.

(** The same session followed for three days at the nominal demand: the 70
    units never arrive, the 50 arrive at the end of the third day. *)
Example replaced_order_day_by_day :
  ∀ st1, render_step_6_order true session_with_order_in_transit
           = Some (OrderSubmitted, st1) →
  let stock_and_order n :=
    '(_, st2) ← run_days (replicate n (λ _, 1%Q)) st1;
    p2 ← products st2 !! "WATER";
    Some (current_stock p2, quantity <$> pending_orders st2 !! "WATER") in
  stock_and_order 0%nat = Some (120, Some 50) ∧
  stock_and_order 2%nat = Some (60, Some 50) ∧
  stock_and_order 3%nat = Some (80, None).
Proof.
  intros st1 Hsub. vm_compute in Hsub. injection Hsub as <-.
  repeat split; vm_compute; reflexivity.
Qed.

(** ** The reorder decision *)

(** C7. [should_reorder] is non-strict: it answers true whenever the stock
    is less than or equal to the reorder point, in particular when the two
    are equal, and false whenever the stock is above it, in particular one
    unit above. (Against an infinite reorder point the answer follows the
    same order.) *)
Theorem should_reorder_is_inclusive (st : SessionState) (k : string)
    (p : SimpleProduct) (reorder_point : R) :
  products st !! k = Some p →
  ((IZR (current_stock p) <= reorder_point)%R →
     should_reorder st k (Fin reorder_point) = Some true) ∧
  ((reorder_point < IZR (current_stock p))%R →
     should_reorder st k (Fin reorder_point) = Some false) ∧
  (IZR (current_stock p) = reorder_point →
     should_reorder st k (Fin reorder_point) = Some true) ∧
  (IZR (current_stock p) = (reorder_point + 1)%R →
     should_reorder st k (Fin reorder_point) = Some false) ∧
  should_reorder st k PosInf = Some true ∧
  should_reorder st k NegInf = Some false.
Proof.
  intros Hp. unfold should_reorder, int_le_float. rewrite Hp. simpl.
  repeat split; try intros H;
    try destruct (Rle_dec (IZR (current_stock p)) reorder_point); (done || lra).
Qed.

(** WATER holds 120 units: an order is due at a reorder point of 120, and
    not at 119. *)
Lemma should_reorder_is_inclusive_witness :
  should_reorder initialize_game "WATER" (Fin 120) = Some true ∧
  should_reorder initialize_game "WATER" (Fin 119) = Some false.
Proof.
  split.
  - apply (should_reorder_is_inclusive initialize_game "WATER" water 120);
      [reflexivity|simpl; lra].
  - apply (should_reorder_is_inclusive initialize_game "WATER" water 119);
      [reflexivity|simpl; lra].
Defined.

(** ** The safety stock *)

Lemma norm_ppf_inside q : (0 < q < 1)%R → norm_ppf q = Fin (Normal.normal_quantile q).
Proof.
  intros [H0 H1]. unfold norm_ppf.
  destruct (Rlt_dec 0 q); [|lra]. destruct (Rlt_dec q 1); [done|lra].
Qed.

Lemma safety_stock_formula_inside p sigma L :
  (0 < p < 1)%R → 0 ≤ L →
  safety_stock_formula (norm_ppf p) (Fin sigma) L
    = Some (Fin (safety_stock_value p sigma L)).
Proof.
  intros Hp HL. unfold safety_stock_formula, math_sqrt.
  rewrite decide_True by done. by rewrite norm_ppf_inside.
Qed.

Lemma sqrt_IZR_mono (a b : Z) : 0 ≤ a ≤ b → (0 <= sqrt (IZR a) <= sqrt (IZR b))%R.
Proof.
  intros [Ha Hab]. split; [apply sqrt_pos|].
  apply sqrt_le_1_alt. by apply IZR_le.
Qed.

Lemma normal_quantile_mono p q :
  (0 < p)%R → (p <= q)%R → (q < 1)%R →
  (Normal.normal_quantile p <= Normal.normal_quantile q)%R.
Proof.
  intros Hp [Hlt| ->] Hq; [|lra].
  left. by apply Normal.normal_quantile_strict.
Qed.

Lemma normal_quantile_nonneg p :
  (1 / 2 <= p < 1)%R → (0 <= Normal.normal_quantile p)%R.
Proof.
  intros [Hp H1]. rewrite <- Normal.normal_quantile_half.
  apply normal_quantile_mono; lra.
Qed.

(** C6, as the code has it. For a service level inside (0,1), a finite
    sigma and a lead time that is not negative the program's expression
    evaluates to [z * sigma * sqrt(lead_time)]. That value is non-decreasing
    in the service level, for sigma >= 0. It is non-decreasing in sigma and
    in the lead time when the service level is at least one half, where
    [z >= 0]; below one half [z] is negative and the value is non-increasing
    in sigma and in the lead time instead. *)
Theorem safety_stock_monotone :
  (∀ p sigma L, (0 < p < 1)%R → 0 ≤ L →
     safety_stock_formula (norm_ppf p) (Fin sigma) L
       = Some (Fin (safety_stock_value p sigma L))) ∧
  (∀ p1 p2 sigma L,
     (0 < p1)%R → (p1 <= p2)%R → (p2 < 1)%R → (0 <= sigma)%R → 0 ≤ L →
     (safety_stock_value p1 sigma L <= safety_stock_value p2 sigma L)%R) ∧
  (∀ p sigma1 sigma2 L,
     (1 / 2 <= p < 1)%R → (0 <= sigma1 <= sigma2)%R → 0 ≤ L →
     (safety_stock_value p sigma1 L <= safety_stock_value p sigma2 L)%R) ∧
  (∀ p sigma L1 L2,
     (1 / 2 <= p < 1)%R → (0 <= sigma)%R → 0 ≤ L1 ≤ L2 →
     (safety_stock_value p sigma L1 <= safety_stock_value p sigma L2)%R) ∧
  (∀ p sigma1 sigma2 L,
     (0 < p < 1 / 2)%R → (0 <= sigma1 <= sigma2)%R → 0 ≤ L →
     (safety_stock_value p sigma2 L <= safety_stock_value p sigma1 L)%R) ∧
  (∀ p sigma L1 L2,
     (0 < p < 1 / 2)%R → (0 <= sigma)%R → 0 ≤ L1 ≤ L2 →
     (safety_stock_value p sigma L2 <= safety_stock_value p sigma L1)%R).
Proof.
  unfold safety_stock_value. repeat split.
  - intros p sigma L Hp HL. by apply safety_stock_formula_inside.
  - intros p1 p2 sigma L H0 H12 H1 Hs HL.
    pose proof (normal_quantile_mono p1 p2 H0 H12 H1) as Hz.
    pose proof (sqrt_pos (IZR L)) as Hr.
    rewrite !Rmult_assoc. apply Rmult_le_compat_r; [nra|exact Hz].
  - intros p s1 s2 L Hp Hs HL.
    pose proof (normal_quantile_nonneg p Hp) as Hz.
    pose proof (sqrt_pos (IZR L)) as Hr.
    apply Rmult_le_compat_r; [exact Hr|]. apply Rmult_le_compat_l; lra.
  - intros p sigma L1 L2 Hp Hs HL.
    pose proof (normal_quantile_nonneg p Hp) as Hz.
    pose proof (sqrt_IZR_mono L1 L2 HL) as Hr.
    apply Rmult_le_compat_l; [nra|lra].
  - intros p s1 s2 L Hp Hs HL.
    destruct (Normal.normal_quantile_sign p) as [Hz _]; [lra|].
    specialize (Hz (proj2 Hp)).
    pose proof (sqrt_pos (IZR L)) as Hr.
    apply Rmult_le_compat_r; [exact Hr|]. nra.
  - intros p sigma L1 L2 Hp Hs HL.
    destruct (Normal.normal_quantile_sign p) as [Hz _]; [lra|].
    specialize (Hz (proj2 Hp)).
    pose proof (sqrt_IZR_mono L1 L2 HL) as Hr.
    assert (Normal.normal_quantile p * sigma <= 0)%R by nra. nra.
Qed.

(** Service levels 90% and 95%, sigma 2, lead time 3. *)
Lemma safety_stock_monotone_witness :
  (safety_stock_value (9 / 10) 2 3 <= safety_stock_value (95 / 100) 2 3)%R.
Proof.
  apply (proj1 (proj2 safety_stock_monotone) (9 / 10)%R (95 / 100)%R 2%R 3);
    (lra || lia).
Defined.

(** C6, as stated, fails below one half: at a service level of 30% the
    safety stock for sigma 2 is strictly below the one for sigma 1 (lead
    time 1), and the one for lead time 4 strictly below the one for lead
    time 1 (sigma 1). *)
Lemma safety_stock_decreases_below_half :
  safety_stock_formula (norm_ppf (3 / 10)) (Fin 1) 1
    = Some (Fin (safety_stock_value (3 / 10) 1 1)) ∧
  safety_stock_formula (norm_ppf (3 / 10)) (Fin 2) 1
    = Some (Fin (safety_stock_value (3 / 10) 2 1)) ∧
  safety_stock_formula (norm_ppf (3 / 10)) (Fin 1) 4
    = Some (Fin (safety_stock_value (3 / 10) 1 4)) ∧
  (safety_stock_value (3 / 10) 2 1 < safety_stock_value (3 / 10) 1 1)%R ∧
  (safety_stock_value (3 / 10) 1 4 < safety_stock_value (3 / 10) 1 1)%R.
Proof.
  assert (0 < 3 / 10 < 1)%R as Hp by lra.
  repeat split; try (apply safety_stock_formula_inside; [exact Hp|lia]).
  - unfold safety_stock_value.
    destruct (Normal.normal_quantile_sign (3 / 10) Hp) as [Hz _].
    assert (Normal.normal_quantile (3 / 10) < 0)%R as Hneg by (apply Hz; lra).
    rewrite sqrt_1. lra.
  - unfold safety_stock_value.
    destruct (Normal.normal_quantile_sign (3 / 10) Hp) as [Hz _].
    assert (Normal.normal_quantile (3 / 10) < 0)%R as Hneg by (apply Hz; lra).
    rewrite sqrt_1. replace (IZR 4) with (2 * 2)%R by lra.
    rewrite sqrt_square by lra. lra.
Qed.

(** ** The service level is not validated *)

Lemma fmul_not_finite_l a b : ¬ is_finite a → ¬ is_finite (fmul a b).
Proof.
  intros Ha [x Hx]. apply Ha.
  destruct a as [y| | |]; [by exists y|..]; destruct b as [z| | |]; simpl in Hx;
    repeat (destruct (Rlt_dec _ _) in Hx); discriminate.
Qed.

Lemma norm_ppf_outside q : (q <= 0 ∨ 1 <= q)%R → ¬ is_finite (norm_ppf q).
Proof.
  intros Hq [x Hx]. unfold norm_ppf in Hx.
  destruct (Rlt_dec 0 q).
  - destruct (Rlt_dec q 1); [lra|]. destruct (Req_dec_T q 1); discriminate.
  - destruct (Req_dec_T q 0); discriminate.
Qed.

(** The standard deviation of a history is a number that is not negative. *)
Lemma np_std_nonneg (h : list Z) :
  h ≠ [] → ∃ sigma, np_std h = Fin sigma ∧ (0 <= sigma)%R.
Proof.
  intros Hh. destruct h as [|x h]; [done|].
  unfold np_std. eexists. split; [reflexivity|]. apply sqrt_pos.
Qed.

(** C2, as the code has it. [calculate_safety_stock] does not check the
    service level. For a product that exists, with a sales history and a
    lead time that is not negative, it returns a value for every service
    level; for a service level at or outside the bounds of (0,1) that value
    is never a finite number: NaN outside [0,1]; at the bounds, plus
    infinity (at 1) or minus infinity (at 0) when sigma and the lead time
    are positive, and NaN when sigma or the lead time is zero or the history
    is empty. Sigma, the standard deviation of a history that is not empty,
    is never negative, so these cases are all there are. No error is
    raised. *)
Theorem safety_stock_is_not_guarded (st : SessionState) (k : string)
    (p : SimpleProduct) (h : list Z) (service_level : R) :
  products st !! k = Some p →
  sales_history st !! k = Some h →
  0 ≤ lead_time p →
  ∃ v,
    calculate_safety_stock st k service_level = Some v ∧
    ((service_level <= 0 ∨ 1 <= service_level)%R → ¬ is_finite v) ∧
    ((service_level < 0 ∨ 1 < service_level)%R → v = NaN) ∧
    (∀ sigma, np_std h = Fin sigma → (0 < sigma)%R → 0 < lead_time p →
       (service_level = 1%R → v = PosInf) ∧
       (service_level = 0%R → v = NegInf)) ∧
    (∀ sigma, np_std h = Fin sigma → sigma = 0%R ∨ lead_time p = 0 →
       service_level = 1%R ∨ service_level = 0%R → v = NaN) ∧
    (h = [] → v = NaN) ∧
    (h ≠ [] → ∃ sigma, np_std h = Fin sigma ∧ (0 <= sigma)%R).
Proof.
  intros Hp Hh HL.
  unfold calculate_safety_stock, calculate_demand_stats, safety_stock_formula,
    math_sqrt.
  rewrite Hp, Hh. simpl. rewrite decide_True by done. simpl.
  eexists. split; [reflexivity|]. split; [|split; [|split; [|split; [|split]]]].
  - intros Hout. by apply fmul_not_finite_l, fmul_not_finite_l, norm_ppf_outside.
  - intros Hout. unfold norm_ppf.
    destruct (Rlt_dec 0 service_level).
    + destruct (Rlt_dec service_level 1); [lra|].
      destruct (Req_dec_T service_level 1); [lra|done].
    + destruct (Req_dec_T service_level 0); [lra|done].
  - intros sigma Hsigma Hpos HLpos. rewrite Hsigma.
    assert (0 < sqrt (IZR (lead_time p)))%R as Hroot.
    { apply sqrt_lt_R0. by apply (IZR_lt 0). }
    split; intros ->; unfold norm_ppf.
    + destruct (Rlt_dec 0 1); [|lra]. destruct (Rlt_dec 1 1); [lra|].
      destruct (Req_dec_T 1 1); [|lra]. simpl.
      destruct (Rlt_dec 0 sigma); [|lra]. simpl.
      destruct (Rlt_dec 0 _); [done|lra].
    + destruct (Rlt_dec 0 0); [lra|].
      destruct (Req_dec_T 0 0); [|lra]. simpl.
      destruct (Rlt_dec 0 sigma); [|lra]. simpl.
      destruct (Rlt_dec 0 _); [done|lra].
  - intros sigma Hsigma Hzero Hbound. rewrite Hsigma.
    assert (norm_ppf service_level = PosInf ∨ norm_ppf service_level = NegInf)
      as Hz.
    { destruct Hbound as [-> | ->]; unfold norm_ppf.
      - left. destruct (Rlt_dec 0 1); [|lra]. destruct (Rlt_dec 1 1); [lra|].
        destruct (Req_dec_T 1 1); [done|lra].
      - right. destruct (Rlt_dec 0 0); [lra|].
        destruct (Req_dec_T 0 0); [done|lra]. }
    destruct Hzero as [-> | HL0].
    + destruct Hz as [-> | ->]; simpl; destruct (Rlt_dec 0 0); try lra;
        reflexivity.
    + rewrite HL0, sqrt_0.
      destruct Hz as [-> | ->]; simpl;
        repeat (destruct (Rlt_dec _ _); simpl; try lra); reflexivity.
  - intros ->. simpl. by destruct (norm_ppf service_level).
  - apply np_std_nonneg.
Qed.

(** The standard deviation of the history of WATER is positive. *)
Lemma np_std_water :
  ∃ sigma, np_std [28; 32; 30; 35; 29; 31; 33] = Fin sigma ∧ (0 < sigma)%R.
Proof.
  unfold np_std. cbv zeta.
  replace (sum_int [28; 32; 30; 35; 29; 31; 33]) with 218 by reflexivity.
  eexists. split; [reflexivity|].
  apply sqrt_lt_R0, Rdiv_lt_0_compat; [|simpl; lra].
  simpl. lra.
Qed.

(** The standard deviation of seven equal sales is zero. *)
Lemma np_std_flat : np_std [30; 30; 30; 30; 30; 30; 30] = Fin 0.
Proof.
  unfold np_std. cbv zeta.
  replace (sum_int [30; 30; 30; 30; 30; 30; 30]) with 210 by reflexivity.
  transitivity (Fin (sqrt 0)); [|by rewrite sqrt_0].
  f_equal. f_equal. simpl. lra.
Qed.

(** For WATER in a fresh game a service level of 1.5 gives NaN and a
    service level of 1 plus infinity; with a history of seven equal sales,
    where sigma is zero, a service level of 1 gives NaN. *)
Lemma safety_stock_is_not_guarded_witness :
  calculate_safety_stock initialize_game "WATER" (3 / 2) = Some NaN ∧
  calculate_safety_stock initialize_game "WATER" 1 = Some PosInf ∧
  calculate_safety_stock session_with_flat_history "WATER" 1 = Some NaN.
Proof.
  split; [|split].
  - destruct (safety_stock_is_not_guarded initialize_game "WATER" water
                [28; 32; 30; 35; 29; 31; 33] (3 / 2)%R)
      as (v & Hv & _ & Hnan & _).
    + reflexivity.
    + reflexivity.
    + simpl. lia.
    + rewrite Hv. f_equal. apply Hnan. lra.
  - destruct (safety_stock_is_not_guarded initialize_game "WATER" water
                [28; 32; 30; 35; 29; 31; 33] 1%R)
      as (v & Hv & _ & _ & Hinf & _).
    + reflexivity.
    + reflexivity.
    + simpl. lia.
    + rewrite Hv. f_equal. destruct np_std_water as (sigma & Hsigma & Hpos).
      assert (0 < lead_time water) as HL by (simpl; lia).
      exact (proj1 (Hinf sigma Hsigma Hpos HL) eq_refl).
  - destruct (safety_stock_is_not_guarded session_with_flat_history "WATER"
                water [30; 30; 30; 30; 30; 30; 30] 1%R)
      as (v & Hv & _ & _ & _ & Hnan & _).
    + reflexivity.
    + reflexivity.
    + simpl. lia.
    + rewrite Hv. f_equal.
      apply (Hnan 0%R np_std_flat); [by left|by left].
Defined.

Lemma norm_ppf_1 : norm_ppf 1 = PosInf.
Proof.
  unfold norm_ppf. destruct (Rlt_dec 0 1); [|lra].
  destruct (Rlt_dec 1 1); [lra|]. destruct (Req_dec_T 1 1); [done|lra].
Qed.

Lemma norm_ppf_0 : norm_ppf 0 = NegInf.
Proof.
  unfold norm_ppf. destruct (Rlt_dec 0 0); [lra|].
  destruct (Req_dec_T 0 0); [done|lra].
Qed.

Lemma norm_ppf_2 : norm_ppf 2 = NaN.
Proof.
  unfold norm_ppf. destruct (Rlt_dec 0 2); [|lra].
  destruct (Rlt_dec 2 1); [lra|]. destruct (Req_dec_T 2 1); [lra|done].
Qed.

(** C2, as stated, fails: for WATER in a fresh game a service level of 1 is
    answered with plus infinity, a service level of 0 with minus infinity
    and a service level of 2 with NaN; none is rejected. *)
Lemma safety_stock_accepts_the_bounds :
  calculate_safety_stock initialize_game "WATER" 1 = Some PosInf ∧
  calculate_safety_stock initialize_game "WATER" 0 = Some NegInf ∧
  calculate_safety_stock initialize_game "WATER" 2 = Some NaN.
Proof.
  destruct np_std_water as (sigma & Hsigma & Hpos).
  assert (0 < sqrt (IZR 3))%R as Hroot by (apply sqrt_lt_R0; lra).
  unfold calculate_safety_stock, calculate_demand_stats, safety_stock_formula,
    math_sqrt.
  change (products initialize_game !! "WATER") with (Some water).
  change (sales_history initialize_game !! "WATER")
    with (Some [28; 32; 30; 35; 29; 31; 33]).
  cbn [mbind option_bind stats_std lead_time water].
  rewrite decide_True by lia. cbn [mbind option_bind].
  rewrite Hsigma, norm_ppf_1, norm_ppf_0, norm_ppf_2. simpl.
  destruct (Rlt_dec 0 sigma); [|lra]. simpl.
  destruct (Rlt_dec 0 (sqrt 3)); [done|lra].
Qed.

(** ** The reorder point *)

(** What [calculate_reorder_point] returns: the mean of the rolling history
    times the lead time, plus the safety stock. No forecast enters. *)
Lemma calculate_reorder_point_spec (st : SessionState) (k : string)
    (p : SimpleProduct) (h : list Z) (safety_stock : pyfloat) :
  products st !! k = Some p →
  sales_history st !! k = Some h →
  calculate_reorder_point st k safety_stock
    = Some (fadd (fmul (np_mean h) (Fin (IZR (lead_time p)))) safety_stock).
Proof.
  intros Hp Hh. unfold calculate_reorder_point, calculate_demand_stats.
  by rewrite Hp, Hh.
Qed.

(** C4 at a failing input. The player forecasts 40 units a day for WATER
    (lead time 3; the history averages 218/7). Step 5 of the wizard works
    with the forecast: its reorder point is 40 * 3 plus its safety stock.
    [calculate_reorder_point], given that same safety stock, returns
    218/7 * 3 plus the safety stock: the forecast is not used. *)
Theorem reorder_point_ignores_the_forecast :
  ∃ ss,
    step5_safety_stock <$> render_step_5_calculate (session_with_forecast 40) "WATER"
      = Some (Fin ss) ∧
    step5_reorder_point <$> render_step_5_calculate (session_with_forecast 40) "WATER"
      = Some (Fin (40 * 3 + ss)) ∧
    calculate_reorder_point (session_with_forecast 40) "WATER" (Fin ss)
      = Some (Fin (218 / 7 * 3 + ss)) ∧
    (218 / 7 * 3 + ss ≠ 40 * 3 + ss)%R.
Proof.
  destruct np_std_water as (sigma & Hsigma & Hpos).
  exists (Normal.normal_quantile (95 / 100) * sigma * sqrt 3)%R.
  assert (norm_ppf (95 / 100) = Fin (Normal.normal_quantile (95 / 100))) as Hz
    by (apply norm_ppf_inside; lra).
  unfold render_step_5_calculate, calculate_reorder_point,
    calculate_demand_stats, safety_stock_formula, math_sqrt.
  change (products (session_with_forecast 40) !! "WATER") with (Some water).
  change (sales_history (session_with_forecast 40) !! "WATER")
    with (Some [28; 32; 30; 35; 29; 31; 33]).
  change (player_predictions (session_with_forecast 40) !! "WATER")
    with (Some 40%R).
  change (player_service_levels (session_with_forecast 40) !! "WATER")
    with (@None R).
  cbn [mbind option_bind stats_std stats_mean lead_time water default].
  rewrite decide_True by lia. cbn [mbind option_bind].
  rewrite Hsigma, Hz.
  cbn [fmap option_fmap option_map step5_safety_stock step5_reorder_point fmul fadd].
  repeat split; try lra.
  unfold np_mean.
  replace (sum_int [28; 32; 30; 35; 29; 31; 33]) with 218 by reflexivity.
  cbn [fmul fadd]. do 2 f_equal. simpl. lra.
Qed.

(** * The sessions a game can reach *)

Lemma initialize_game_ok : session_ok initialize_game.
Proof.
  split; [apply initialize_game_keys_ok|]. split; [|split; [|split; [|split]]].
  - intros k qty Hk. simpl in Hk. by rewrite lookup_empty in Hk.
  - apply create_products_margins_ok.
  - apply create_products_stock_ok.
  - intros k o Hk. simpl in Hk. by rewrite lookup_empty in Hk.
  - simpl. lra.
Qed.

Lemma quiz_ok clicked answer st :
  session_ok st → session_ok (render_step_1_products clicked answer st).
Proof. unfold render_step_1_products. by destruct clicked; [destruct answer|]. Qed.

Lemma enter_order_ok k qty st :
  is_Some (products st !! k) → 0 ≤ qty →
  session_ok st → session_ok (enter_order k qty st).
Proof.
  intros Hk Hqty (Hkeys & Hord & Hrest). split; [exact Hkeys|].
  split; [|exact Hrest].
  intros j q Hj. simpl in Hj. destruct (decide (k = j)) as [<-|Hne].
  - rewrite lookup_insert_eq in Hj. injection Hj as <-. by split.
  - rewrite lookup_insert_ne in Hj by done. by apply Hord.
Qed.

Lemma render_step_6_order_ok clicked st outcome st' :
  session_ok st → render_step_6_order clicked st = Some (outcome, st') →
  session_ok st'.
Proof.
  intros (Hkeys & Hord & Hmargin & Hstock & Hqty & Hcash) Hrun.
  destruct (place_loop (products st) (pending_orders st) (player_orders st) Hord)
    as (pend' & Hplace & Hpend).
  unfold render_step_6_order in Hrun.
  destruct (map_fold (quote_order _) _ _) as [[tc details]|]; [|done].
  pose proof (conj Hkeys (conj Hord (conj Hmargin (conj Hstock (conj Hqty Hcash)))))
    as Hsame.
  simpl in Hrun. destruct details as [|row rows].
  { injection Hrun as <- <-. exact Hsame. }
  destruct (Qle_bool 0 (cash st - tc)) eqn:E;
    [|injection Hrun as <- <-; exact Hsame].
  destruct clicked; [|injection Hrun as <- <-; exact Hsame].
  rewrite Hplace in Hrun. simpl in Hrun. injection Hrun as <- <-.
  split; [|split; [exact Hord|split; [exact Hmargin|split; [exact Hstock|split]]]].
  - by apply (confirm_order_keys_ok st).
  - intros k o Hk. simpl in Hk. rewrite Hpend in Hk.
    destruct (player_orders st !! k) as [q|]; [|by apply (Hqty k)].
    destruct (decide (0 < q)); [|by apply (Hqty k)].
    destruct (products st !! k); [|done]. by injection Hk as <-.
  - simpl. by apply Qle_bool_iff.
Qed.

Lemma daily_profit_nonneg draws (prods : gmap string SimpleProduct) :
  margins_ok prods → stock_ok prods →
  (0 <= map_sum (λ k p, inject_Z (fulfilled draws k p) * (price p - cost p)) prods)%Q.
Proof.
  intros Hmargin Hstock. apply map_sum_nonneg. intros k p Hp.
  pose proof (fulfilled_nonneg draws k p (Hstock k p Hp)) as Hf.
  pose proof (Hmargin k p Hp) as Hm.
  apply Qmult_le_0_compat; [|lra].
  change 0%Q with (inject_Z 0). by rewrite <- Zle_Qle.
Qed.

Lemma process_daily_sales_ok draws st report st' :
  session_ok st → process_daily_sales draws st = Some (report, st') →
  session_ok st'.
Proof.
  intros (Hkeys & Hord & Hmargin & Hstock & Hqty & Hcash) Hrun.
  pose proof (process_daily_sales_keys_ok _ _ _ _ Hkeys Hrun) as Hkeys'.
  destruct (process_daily_sales_spec draws st Hkeys)
    as (r & s & Hrun' & Hp & Hq & _ & _ & Hprofit & _ & _ & Hc & _ & Hpo & _).
  rewrite Hrun in Hrun'. injection Hrun' as <- <-.
  assert (∀ k p', products st' !! k = Some p' →
            ∃ p, products st !! k = Some p ∧ price p' = price p ∧
                 cost p' = cost p ∧ 0 ≤ current_stock p') as Hprod.
  { intros k p' Hk. rewrite Hp in Hk.
    destruct (products st !! k) as [p|] eqn:Ep; [|done].
    simpl in Hk. injection Hk as <-. exists p. split; [done|].
    pose proof (fulfilled_nonneg draws k p (Hstock k p Ep)) as Hf.
    assert (fulfilled draws k p ≤ current_stock p) by (unfold fulfilled; lia).
    unfold arrive. destruct (pending_orders st !! k) as [o|] eqn:Eo.
    - pose proof (Hqty k o Eo).
      destruct (decide (days_remaining o - 1 ≤ 0)); simpl; repeat split; lia.
    - simpl. repeat split; lia. }
  split; [exact Hkeys'|]. split; [|split; [|split; [|split]]].
  - intros k qty Hk. rewrite Hpo in Hk. destruct (Hord k qty Hk) as [H0 [p Hpk]].
    split; [done|]. rewrite Hp, Hpk. by eexists.
  - intros k p' Hk. destruct (Hprod k p' Hk) as (p & Hpk & -> & -> & _).
    by apply (Hmargin k).
  - intros k p' Hk. by destruct (Hprod k p' Hk) as (p & _ & _ & _ & H).
  - intros k o Hk. rewrite Hq in Hk.
    destruct (pending_orders st !! k) as [o0|] eqn:Eo; [|done].
    simpl in Hk. unfold countdown in Hk.
    destruct (decide _); [done|]. injection Hk as <-. simpl. by apply (Hqty k).
  - rewrite Hc, Hprofit.
    pose proof (daily_profit_nonneg draws (products st) Hmargin Hstock). lra.
Qed.

(** X1. Every session of a game satisfies the hypotheses used above: the keys
    looked up exist, the batch holds non-negative quantities of existing
    products, prices cover costs, stocks and cash are not negative, and
    orders in transit hold positive quantities. *)
Theorem reachable_ok (st : SessionState) : reachable st → session_ok st.
Proof.
  induction 1 as [|st c a _ IH|st k qty _ IH Hk Hq|st c o st' _ IH Hrun
                  |st d r st' _ IH Hrun].
  - apply initialize_game_ok.
  - by apply quiz_ok.
  - apply enter_order_ok; [done|lia|done].
  - by apply (render_step_6_order_ok c st o).
  - by apply (process_daily_sales_ok d st r).
Qed.

(** A correct quiz answer in a fresh game leaves the session in order. *)
Lemma reachable_ok_witness :
  session_ok (render_step_1_products true AnswerBread initialize_game).
Proof.
  apply (reachable_ok (render_step_1_products true AnswerBread initialize_game)).
  apply reach_quiz, reach_init.
Defined.

(** * Part V. More of the program *)

(** ** More on the daily simulation *)

(** A sum over the image of a dictionary is a sum over the dictionary. *)
Lemma map_sum_image {A B} (f : string → B → Q) (g : string → A → B)
    (m1 : gmap string A) : ∀ m2 : gmap string B,
  (∀ k, m2 !! k = g k <$> m1 !! k) →
  (map_sum f m2 == map_sum (λ k x, f k (g k x)) m1)%Q.
Proof.
  induction m1 as [|i x m Hi IH] using map_ind; intros m2 Hm.
  - assert (m2 = ∅) as ->.
    { apply map_eq. intros k. by rewrite Hm, !lookup_empty. }
    by rewrite !map_sum_empty.
  - assert (m2 = <[i := g i x]> (delete i m2)) as ->.
    { apply map_eq. intros k. destruct (decide (i = k)) as [<-|Hne].
      - by rewrite Hm, !lookup_insert_eq.
      - by rewrite lookup_insert_ne, lookup_delete_ne by done. }
    rewrite !map_sum_insert by (done || apply lookup_delete_eq).
    rewrite (IH (delete i m2)); [reflexivity|].
    intros k. destruct (decide (i = k)) as [<-|Hne].
    + by rewrite lookup_delete_eq, Hi.
    + rewrite lookup_delete_ne, Hm, lookup_insert_ne by done. done.
Qed.

(** The stockouts the first loop has recorded once the products of [m]
    have been visited. *)
Lemma sales_loop_stockouts draws (b : SalesAcc) (m : gmap string SimpleProduct) :
  acc_stockouts b = [] →
  ∀ a, map_fold (sell_product draws) (Some b) m = Some a →
  ∀ e, e ∈ acc_stockouts a ↔
       ∃ k p, m !! k = Some p ∧
              current_stock p < draw_demand (daily_demand p) (draws k) ∧
              e = mkStockout (name p)
                    (draw_demand (daily_demand p) (draws k) - current_stock p)
                    (inject_Z (draw_demand (daily_demand p) (draws k)
                               - current_stock p) * price p)%Q.
Proof.
  intros Hb.
  apply (map_fold_weak_ind (λ r m, ∀ a, r = Some a →
    ∀ e, e ∈ acc_stockouts a ↔
       ∃ k p, m !! k = Some p ∧
              current_stock p < draw_demand (daily_demand p) (draws k) ∧
              e = mkStockout (name p)
                    (draw_demand (daily_demand p) (draws k) - current_stock p)
                    (inject_Z (draw_demand (daily_demand p) (draws k)
                               - current_stock p) * price p)%Q)); clear m.
  - intros a [= <-] e. rewrite Hb. split.
    + by intros ?%elem_of_nil.
    + intros (k & p & Hk & _). by rewrite lookup_empty in Hk.
  - intros i x m r Hi IH a' Hstep e.
    destruct r as [a|]; [|done]. unfold sell_product in Hstep. simpl in Hstep.
    destruct (acc_history a !! i) as [h|]; [|done]. simpl in Hstep.
    injection Hstep as <-. simpl.
    specialize (IH a eq_refl).
    set (d := draw_demand (daily_demand x) (draws i)).
    destruct (decide (Z.min d (current_stock x) < d)) as [Hshort|Hfull].
    + rewrite elem_of_app, IH, list_elem_of_singleton.
      replace (Z.min d (current_stock x)) with (current_stock x) by lia.
      split.
      * intros [(k & p & Hk & Hlt & ->)| ->].
        -- exists k, p. split; [|done]. rewrite lookup_insert_ne; [done|].
           intros ->. congruence.
        -- exists i, x. rewrite lookup_insert_eq. split; [done|]. split; [lia|done].
      * intros (k & p & Hk & Hlt & ->).
        destruct (decide (i = k)) as [<-|Hne].
        -- rewrite lookup_insert_eq in Hk. injection Hk as <-. by right.
        -- rewrite lookup_insert_ne in Hk by done. left. by exists k, p.
    + rewrite IH. split.
      * intros (k & p & Hk & Hlt & ->). exists k, p. split; [|done].
        rewrite lookup_insert_ne; [done|]. intros ->. congruence.
      * intros (k & p & Hk & Hlt & ->).
        destruct (decide (i = k)) as [<-|Hne].
        -- rewrite lookup_insert_eq in Hk. injection Hk as <-. fold d in Hlt. lia.
        -- rewrite lookup_insert_ne in Hk by done. by exists k, p.
Qed.

(** The whole report of a day, field by field. *)
Lemma process_daily_sales_report draws st :
  keys_ok st →
  ∃ report st',
    process_daily_sales draws st = Some (report, st') ∧
    (∀ k, report_sales report !! k = sale_entry draws k <$> products st !! k) ∧
    (report_total_revenue report ==
       map_sum (λ k p, inject_Z (fulfilled draws k p) * price p) (products st))%Q ∧
    (report_total_cost report ==
       map_sum (λ k p, inject_Z (fulfilled draws k p) * cost p) (products st))%Q ∧
    report_profit report
      = (report_total_revenue report - report_total_cost report)%Q ∧
    (∀ e, e ∈ report_stockouts report ↔
       ∃ k p, products st !! k = Some p ∧
              current_stock p < draw_demand (daily_demand p) (draws k) ∧
              e = mkStockout (name p)
                    (draw_demand (daily_demand p) (draws k) - current_stock p)
                    (inject_Z (draw_demand (daily_demand p) (draws k)
                               - current_stock p) * price p)%Q) ∧
    report_day report = day st ∧
    report_cash report = cash st' ∧
    day st' = day st + 1 ∧
    total_revenue st' = (total_revenue st + report_total_revenue report)%Q ∧
    total_profit st' = (total_profit st + report_profit report)%Q ∧
    cash st' = (cash st + report_profit report)%Q ∧
    score st' = (score st + score_today report)%Q ∧
    score_today report = daily_score (report_profit report) (report_stockouts report) ∧
    daily_reports st' = daily_reports st ++ [report] ∧
    player_orders st' = player_orders st ∧
    player_predictions st' = player_predictions st ∧
    player_service_levels st' = player_service_levels st ∧
    order_submitted st' = order_submitted st.
Proof.
  intros [Hhist Hpend].
  destruct (sales_loop draws (products st) (sales_history st) (products st) Hhist)
    as (a & Hfold1 & Hp & Hh & Hs & Hrev & Hcost & Hout).
  destruct (receive_loop (acc_products a) (pending_orders st) (pending_orders st))
    as (prods' & pend' & Hfold2 & Hp' & Hq').
  { intros k Hk. rewrite Hp. destruct (Hpend k Hk) as [p ->]. done. }
  pose proof (sales_loop_stockouts draws
                (mkSalesAcc (products st) (sales_history st) ∅ 0 0 [])
                (products st) eq_refl a Hfold1) as Hso.
  unfold process_daily_sales. rewrite Hfold1. simpl. rewrite Hfold2. simpl.
  eexists _, _. split; [reflexivity|]. simpl.
  split; [exact Hs|]. split; [exact Hrev|]. split; [exact Hcost|].
  split; [reflexivity|]. split; [exact Hso|].
  split; [lia|]. repeat (split; [reflexivity|]). reflexivity.
Qed.

(** X2. Every line of the day's report follows from the stock at the start of
    the day, and the totals of the report are the sums of its lines. *)
Theorem report_totals_are_sums_of_lines (draws : string → Q) (st : SessionState) :
  keys_ok st →
  ∃ report st',
    process_daily_sales draws st = Some (report, st') ∧
    (∀ k, is_Some (report_sales report !! k) ↔ is_Some (products st !! k)) ∧
    (∀ k e, report_sales report !! k = Some e →
       ∃ p, products st !! k = Some p ∧
            sale_sales e = Z.min (sale_demand e) (current_stock p) ∧
            stock_after e = current_stock p - sale_sales e ∧
            sale_revenue e = (inject_Z (sale_sales e) * price p)%Q ∧
            sale_profit e
              = (sale_revenue e - inject_Z (sale_sales e) * cost p)%Q) ∧
    (report_total_revenue report
       == map_sum (λ _ e, sale_revenue e) (report_sales report))%Q ∧
    (report_total_cost report
       == map_sum (λ _ e, sale_revenue e - sale_profit e) (report_sales report))%Q ∧
    (report_profit report
       == map_sum (λ _ e, sale_profit e) (report_sales report))%Q.
Proof.
  intros Hok.
  destruct (process_daily_sales_report draws st Hok)
    as (r & st' & Hrun & Hs & Hrev & Hcost & Hprofit & _).
  exists r, st'. split; [exact Hrun|]. split; [|split; [|split; [|split]]].
  - intros k. rewrite Hs. by rewrite fmap_is_Some.
  - intros k e He. rewrite Hs in He.
    destruct (products st !! k) as [p|]; [|done].
    injection He as <-. exists p. by repeat split.
  - rewrite Hrev. symmetry.
    rewrite (map_sum_image _ (sale_entry draws) (products st) _ Hs). reflexivity.
  - rewrite Hcost. symmetry.
    rewrite (map_sum_image _ (sale_entry draws) (products st) _ Hs).
    apply map_sum_ext. intros k p _. simpl. ring.
  - rewrite Hprofit, Hrev, Hcost. symmetry.
    rewrite (map_sum_image _ (sale_entry draws) (products st) _ Hs). simpl.
    generalize (products st). intros m.
    induction m as [|i x m Hi IH] using map_ind.
    + rewrite !map_sum_empty. reflexivity.
    + rewrite !map_sum_insert by done. rewrite IH. ring.
Qed.

Lemma report_totals_are_sums_of_lines_witness :
  ∃ report st',
    process_daily_sales (λ _, 1%Q) initialize_game = Some (report, st') ∧
    (report_profit report
       == map_sum (λ _ e, sale_profit e) (report_sales report))%Q.
Proof.
  destruct (report_totals_are_sums_of_lines (λ _, 1%Q) initialize_game
              initialize_game_keys_ok) as (r & st' & Hrun & _ & _ & _ & _ & H).
  exists r, st'. split; [exact Hrun|exact H].
Defined.

(** X3. The stockout list holds exactly one entry for each product whose demand
    exceeds its stock, with the missing units and their value at the sale
    price; it is empty exactly when every demand is met. *)
Theorem stockouts_list_the_short_products (draws : string → Q) (st : SessionState) :
  keys_ok st →
  ∃ report st',
    process_daily_sales draws st = Some (report, st') ∧
    (∀ e, e ∈ report_stockouts report ↔
       ∃ k p d, products st !! k = Some p ∧
                sale_demand <$> report_sales report !! k = Some d ∧
                current_stock p < d ∧
                e = mkStockout (name p) (d - current_stock p)
                      (inject_Z (d - current_stock p) * price p)%Q) ∧
    (∀ e, e ∈ report_stockouts report → 0 < shortage e) ∧
    (report_stockouts report = [] ↔
       ∀ k e, report_sales report !! k = Some e → sale_sales e = sale_demand e).
Proof.
  intros Hok.
  destruct (process_daily_sales_report draws st Hok)
    as (r & st' & Hrun & Hs & _ & _ & _ & Hso & _).
  exists r, st'. split; [exact Hrun|].
  assert (∀ e, e ∈ report_stockouts r ↔
       ∃ k p d, products st !! k = Some p ∧
                sale_demand <$> report_sales r !! k = Some d ∧
                current_stock p < d ∧
                e = mkStockout (name p) (d - current_stock p)
                      (inject_Z (d - current_stock p) * price p)%Q) as Hchar.
  { intros e. rewrite Hso. split.
    - intros (k & p & Hk & Hlt & ->). exists k, p, (draw_demand (daily_demand p) (draws k)).
      rewrite Hs, Hk. done.
    - intros (k & p & d & Hk & Hd & Hlt & ->). rewrite Hs, Hk in Hd.
      injection Hd as <-. by exists k, p. }
  split; [exact Hchar|]. split.
  - intros e (k & p & d & _ & _ & Hlt & ->)%Hchar. simpl. lia.
  - split.
    + intros Hnil k e He. rewrite Hs in He.
      destruct (products st !! k) as [p|] eqn:Hk; [|done]. injection He as <-.
      simpl. unfold fulfilled.
      destruct (decide (current_stock p < draw_demand (daily_demand p) (draws k)))
        as [Hlt|Hge]; [|lia].
      exfalso. eapply (elem_of_nil (A:=Stockout)). rewrite <- Hnil.
      apply Hso. by exists k, p.
    + intros Hall. destruct (report_stockouts r) as [|e l] eqn:E; [done|].
      assert (e ∈ e :: l) as He by left.
      apply Hso in He as (k & p & Hk & Hlt & _).
      specialize (Hall k (sale_entry draws k p)). rewrite Hs, Hk in Hall.
      specialize (Hall eq_refl). simpl in Hall. unfold fulfilled in Hall. lia.
Qed.

Lemma session_short_of_water_keys_ok : keys_ok session_short_of_water.
Proof.
  split; intros k [x Hx]; simpl in *.
  - unfold create_products in Hx. unfold create_sales_history.
    repeat (apply lookup_insert_Some in Hx as [[<- _]|[? Hx]];
            [by eexists|]).
    by rewrite lookup_empty in Hx.
  - by rewrite lookup_empty in Hx.
Qed.

Lemma stockouts_list_the_short_products_witness :
  ∃ report st',
    process_daily_sales (λ _, 1%Q) session_short_of_water = Some (report, st') ∧
    ∀ e, e ∈ report_stockouts report → 0 < shortage e.
Proof.
  destruct (stockouts_list_the_short_products (λ _, 1%Q) session_short_of_water
              session_short_of_water_keys_ok) as (r & st' & Hrun & _ & H & _).
  exists r, st'. split; [exact Hrun|exact H].
Defined.

(** The scenario run: 20 sold, 10 short, 30 of revenue lost. *)
Example short_of_water_report :
  ∃ report st',
    process_daily_sales (λ _, 1%Q) session_short_of_water = Some (report, st') ∧
    sale_sales <$> report_sales report !! "WATER" = Some 20 ∧
    report_stockouts report = [mkStockout "矿泉水" 10 (inject_Z 10 * 3)%Q].
Proof.
  eexists _, _. split; [vm_compute; reflexivity|].
  split; vm_compute; reflexivity.
Qed.

(** X4. Arrivals come after the sales of the day. The units sold are taken from
    the stock the day started with, also on the day an order arrives; the
    [stock_after] of the report leaves the arrival out, and the stock at the
    end of the day is [stock_after] plus what arrived. Nothing else of a
    product changes. *)
Theorem arrivals_come_after_sales (draws : string → Q) (st : SessionState)
    (k : string) (p : SimpleProduct) :
  keys_ok st →
  products st !! k = Some p →
  ∃ report st' e p',
    process_daily_sales draws st = Some (report, st') ∧
    report_sales report !! k = Some e ∧
    products st' !! k = Some p' ∧
    sale_sales e = Z.min (sale_demand e) (current_stock p) ∧
    current_stock p' = stock_after e + arriving (pending_orders st !! k) ∧
    p' = set_current_stock p (current_stock p') ∧
    (arriving (pending_orders st !! k) ≠ 0 → pending_orders st' !! k = None).
Proof.
  intros Hok Hp.
  destruct (process_daily_sales_spec draws st Hok)
    as (r & st' & Hrun & Hp1 & Hq1 & _ & Hs & _).
  exists r, st', (sale_entry draws k p),
    (arrive (pending_orders st !! k) (after_sale draws k p)).
  split; [exact Hrun|]. split; [by rewrite Hs, Hp|].
  split; [by rewrite Hp1, Hp|]. split; [done|].
  rewrite Hq1. unfold arrive, arriving, countdown.
  destruct (pending_orders st !! k) as [o|]; simpl.
  - destruct (decide (days_remaining o - 1 ≤ 0)), (decide (days_remaining o ≤ 1));
      try lia; simpl; repeat split; try done; lia.
  - repeat split; try done; lia.
Qed.

Lemma session_with_order_arriving_keys_ok : keys_ok session_with_order_arriving.
Proof.
  split; [apply initialize_game_keys_ok|].
  intros j [o Ho]. simpl in *.
  apply lookup_singleton_Some in Ho as [<- _]. by eexists.
Qed.

(** 70 units of WATER arrive at the end of the day: the sales of the day
    are limited by the 120 units the day started with, the stock ends 70
    units above the [stock_after] of the report, and the order is gone. *)
Lemma arrivals_come_after_sales_witness :
  ∃ report st' e p',
    process_daily_sales (λ _, 1%Q) session_with_order_arriving = Some (report, st') ∧
    report_sales report !! "WATER" = Some e ∧
    products st' !! "WATER" = Some p' ∧
    sale_sales e = Z.min (sale_demand e) 120 ∧
    current_stock p' = stock_after e + 70 ∧
    pending_orders st' !! "WATER" = None.
Proof.
  destruct (arrivals_come_after_sales (λ _, 1%Q) session_with_order_arriving
              "WATER" water session_with_order_arriving_keys_ok eq_refl)
    as (r & st' & e & p' & Hrun & He & Hp' & Hsold & Hstock & _ & Hgone).
  exists r, st', e, p'. split; [exact Hrun|]. split; [exact He|].
  split; [exact Hp'|]. split; [exact Hsold|]. split; [exact Hstock|].
  apply Hgone. vm_compute. discriminate.
Defined.

(** ** The rolling window *)

Lemma push_history_length (h : list Z) (x : Z) :
  length (push_history h x)
    = if decide (7 ≤ length h)%nat then length h else S (length h).
Proof.
  unfold push_history. rewrite length_app. simpl.
  destruct (7 <? Z.of_nat (length h + 1)) eqn:E.
  - apply Z.ltb_lt in E. rewrite decide_True by lia.
    destruct h; simpl in *; [lia|]. rewrite length_app. simpl. lia.
  - apply Z.ltb_ge in E. rewrite decide_False by lia. rewrite length_app. simpl. lia.
Qed.

Lemma push_history_last (h : list Z) (x : Z) : last (push_history h x) = Some x.
Proof.
  unfold push_history. destruct (7 <? _) eqn:E.
  - destruct h as [|a h]; simpl in *; [done|]. by rewrite last_snoc.
  - by rewrite last_snoc.
Qed.

Lemma push_history_Forall (P : Z → Prop) (h : list Z) (x : Z) :
  Forall P h → P x → Forall P (push_history h x).
Proof.
  intros Hh Hx. unfold push_history.
  assert (Forall P (h ++ [x])) as H by (apply Forall_app; auto).
  destruct (7 <? _); [|done].
  destruct (h ++ [x]); simpl; [done|]. by inversion H.
Qed.

Lemma initialize_game_history_ok : history_ok initialize_game.
Proof.
  intros k h Hk. simpl in Hk. unfold create_sales_history in Hk.
  repeat (apply lookup_insert_Some in Hk as [[_ <-]|[_ Hk]];
          [split; [reflexivity|repeat constructor; lia]|]).
  by rewrite lookup_empty in Hk.
Qed.

(** ** The log of reports *)

(** X5. The report log is append-only and the day counter counts the simulated
    days: a run of [n] days returns, appends its [n] reports in order to the
    log, leaves the earlier reports as they were, numbers the new ones with
    consecutive days from the current one, and advances the day by [n]. *)
Theorem report_log_is_append_only (draws : list (string → Q)) : ∀ st,
  keys_ok st →
  ∃ reports st',
    run_days draws st = Some (reports, st') ∧
    length reports = length draws ∧
    daily_reports st' = daily_reports st ++ reports ∧
    day st' = day st + Z.of_nat (length draws) ∧
    ∀ (i : nat) r, reports !! i = Some r → report_day r = day st + Z.of_nat i.
Proof.
  induction draws as [|d draws IH]; intros st Hok.
  - exists [], st. simpl. split; [done|]. split; [done|].
    split; [by rewrite app_nil_r|]. split; [lia|]. intros i r Hi. done.
  - destruct (process_daily_sales_report d st Hok)
      as (r & st1 & Hrun & _ & _ & _ & _ & _ & Hday & _ & Hday1 & _ & _ & _ & _ & _
          & Hlog & _).
    pose proof (process_daily_sales_keys_ok _ _ _ _ Hok Hrun) as Hok1.
    destruct (IH st1 Hok1) as (rs & st2 & Hrun2 & Hlen & Hlog2 & Hday2 & Hnum).
    exists (r :: rs), st2. simpl. rewrite Hrun. simpl. rewrite Hrun2. simpl.
    split; [done|]. split; [by rewrite Hlen|].
    split; [by rewrite Hlog2, Hlog, <- app_assoc|]. split; [lia|].
    intros [|i] r' Hi; simpl in Hi.
    + injection Hi as <-. lia.
    + rewrite (Hnum i r' Hi). lia.
Qed.

Lemma report_log_is_append_only_witness :
  ∃ reports st',
    run_days [λ _, 1%Q; λ _, (13 # 10)%Q] initialize_game = Some (reports, st') ∧
    length reports = 2%nat ∧
    day st' = 1 + 2.
Proof.
  destruct (report_log_is_append_only [λ _, 1%Q; λ _, (13 # 10)%Q]
              initialize_game initialize_game_keys_ok)
    as (rs & st' & Hrun & Hlen & _ & Hday & _).
  exists rs, st'. split; [exact Hrun|]. split; [exact Hlen|exact Hday].
Defined.

(** ** Missing keys *)

Lemma sales_loop_needs_history draws (prods0 : gmap string SimpleProduct)
    (hist0 : gmap string (list Z)) (m : gmap string SimpleProduct) :
  ∀ a, map_fold (sell_product draws)
         (Some (mkSalesAcc prods0 hist0 ∅ 0 0 [])) m = Some a →
  (∀ j, m !! j = None → acc_history a !! j = hist0 !! j) ∧
  (∀ j, is_Some (m !! j) → is_Some (hist0 !! j)).
Proof.
  apply (map_fold_weak_ind (λ r m, ∀ a, r = Some a →
    (∀ j, m !! j = None → acc_history a !! j = hist0 !! j) ∧
    (∀ j, is_Some (m !! j) → is_Some (hist0 !! j)))); clear m.
  - intros a [= <-]. split; [done|]. intros j [x Hx]. by rewrite lookup_empty in Hx.
  - intros i x m r Hi IH a' Hstep.
    destruct r as [a|]; [|done]. destruct (IH a eq_refl) as [Hsame Hsome].
    unfold sell_product in Hstep. simpl in Hstep.
    destruct (acc_history a !! i) as [h|] eqn:Eh; [|done]. simpl in Hstep.
    injection Hstep as <-. simpl. split.
    + intros j Hj. apply lookup_insert_None in Hj as [Hj Hne].
      rewrite lookup_insert_ne by done. by apply Hsame.
    + intros j [y Hj]. destruct (decide (i = j)) as [<-|Hne].
      * rewrite <- (Hsame i Hi), Eh. by eexists.
      * rewrite lookup_insert_ne in Hj by done. apply Hsome. by eexists.
Qed.

(** X6. A product without an entry in [sales_history] makes the simulated day
    fail with a [KeyError]: no report is produced. *)
Theorem day_fails_without_history (draws : string → Q) (st : SessionState)
    (k : string) (p : SimpleProduct) :
  products st !! k = Some p →
  sales_history st !! k = None →
  process_daily_sales draws st = None.
Proof.
  intros Hp Hh. unfold process_daily_sales.
  destruct (map_fold (sell_product draws) _ _) as [a|] eqn:E; [|done].
  destruct (sales_loop_needs_history draws _ _ _ a E) as [_ Hsome].
  destruct (Hsome k) as [h Hk]; [by eexists|]. congruence.
Qed.

Lemma day_fails_without_history_witness :
  process_daily_sales (λ _, 1%Q) session_without_milk_history = None.
Proof.
  apply (day_fails_without_history (λ _, 1%Q) session_without_milk_history "MILK"
           (mkProduct "MILK" "牛奶" "🥛" 12 7 50 15 2 5)); reflexivity.
Defined.

(** ** More on step 6 *)

Lemma quote_loop_any (prods : gmap string SimpleProduct) (orders : gmap string Z) :
  (∀ k qty, orders !! k = Some qty → is_Some (prods !! k)) →
  ∃ total details,
    map_fold (quote_order prods) (Some (0%Q, [])) orders = Some (total, details) ∧
    (total == positive_cost prods orders)%Q ∧
    (details = [] → total = 0%Q) ∧
    (details = [] ↔ ∀ k qty, orders !! k = Some qty → qty ≤ 0).
Proof.
  unfold positive_cost.
  apply (map_fold_weak_ind (λ r m,
    (∀ k qty, m !! k = Some qty → is_Some (prods !! k)) →
    ∃ total details, r = Some (total, details) ∧
      (total == map_sum (λ k qty,
                  match prods !! k with
                  | Some p => if decide (0 < qty)%Z then inject_Z qty * cost p else 0
                  | None => 0
                  end) m)%Q ∧
      (details = [] → total = 0%Q) ∧
      (details = [] ↔ ∀ k qty, m !! k = Some qty → qty ≤ 0))); clear orders.
  - intros _. exists 0%Q, []. split; [done|]. split; [|split; [done|]].
    + by rewrite map_sum_empty.
    + split; [|done]. intros _ k qty. by rewrite lookup_empty.
  - intros i qty m r Hi IH Hok.
    destruct IH as (total & details & -> & Htot & Hzero' & Hdet).
    { intros k q Hk. apply (Hok k q). rewrite lookup_insert_ne; [done|].
      intros ->. congruence. }
    destruct (Hok i qty) as [p Hp]; [by rewrite lookup_insert_eq|].
    unfold quote_order. simpl. rewrite Hp. simpl.
    destruct (decide (0 < qty)) as [Hpos|Hzero].
    + eexists _, _. split; [done|]. split; [|split].
      * rewrite map_sum_insert by done. rewrite Hp, Htot.
        rewrite decide_True by done. reflexivity.
      * intros Hnil. by destruct details.
      * split.
        -- intros Hnil. by destruct details.
        -- intros Hall. specialize (Hall i qty (lookup_insert_eq _ _ _)). lia.
    + eexists _, _. split; [done|]. split; [|split; [done|]].
      * rewrite map_sum_insert by done. rewrite Hp, Htot.
        rewrite decide_False by done. ring.
      * rewrite Hdet. split; intros Hall k q Hk.
        -- destruct (decide (i = k)) as [->|Hne].
           ++ rewrite lookup_insert_eq in Hk. injection Hk as <-. lia.
           ++ rewrite lookup_insert_ne in Hk by done. by apply (Hall k).
        -- apply (Hall k). rewrite lookup_insert_ne; [done|]. intros ->. congruence.
Qed.

Lemma place_loop_any (prods : gmap string SimpleProduct)
    (pend0 : gmap string PendingOrder) (orders : gmap string Z) :
  (∀ k qty, orders !! k = Some qty → is_Some (prods !! k)) →
  ∃ pend',
    map_fold (place_order prods) (Some pend0) orders = Some pend' ∧
    ∀ k, pend' !! k =
         match orders !! k with
         | Some qty =>
             if decide (0 < qty) then new_order qty <$> prods !! k
             else pend0 !! k
         | None => pend0 !! k
         end.
Proof.
  apply (map_fold_weak_ind (λ r m,
    (∀ k qty, m !! k = Some qty → is_Some (prods !! k)) →
    ∃ pend', r = Some pend' ∧
      ∀ k, pend' !! k =
           match m !! k with
           | Some qty =>
               if decide (0 < qty) then new_order qty <$> prods !! k
               else pend0 !! k
           | None => pend0 !! k
           end)); clear orders.
  - intros _. exists pend0. split; [done|]. intros k. by rewrite lookup_empty.
  - intros i qty m r Hi IH Hok.
    destruct IH as (pend' & -> & Hpend).
    { intros k q Hk. apply (Hok k q). rewrite lookup_insert_ne; [done|].
      intros ->. congruence. }
    destruct (Hok i qty) as [p Hp]; [by rewrite lookup_insert_eq|].
    unfold place_order. simpl.
    destruct (decide (0 < qty)) as [Hpos|Hzero].
    + rewrite Hp. simpl. eexists. split; [done|]. intros k.
      destruct (decide (i = k)) as [->|Hne].
      * rewrite !lookup_insert_eq, Hp. by rewrite decide_True by done.
      * rewrite !lookup_insert_ne by done. apply Hpend.
    + eexists. split; [done|]. intros k.
      destruct (decide (i = k)) as [->|Hne].
      * rewrite lookup_insert_eq. rewrite decide_False by done.
        by rewrite Hpend, Hi.
      * rewrite lookup_insert_ne by done. apply Hpend.
Qed.

(** Step 6 on any batch of existing products, case by case. *)
Lemma render_step_6_order_cases (clicked : bool) (st : SessionState) :
  (∀ k qty, player_orders st !! k = Some qty → is_Some (products st !! k)) →
  ∃ total pend',
    (total == positive_cost (products st) (player_orders st))%Q ∧
    (∀ k, pend' !! k =
          match player_orders st !! k with
          | Some qty =>
              if decide (0 < qty) then new_order qty <$> products st !! k
              else pending_orders st !! k
          | None => pending_orders st !! k
          end) ∧
    (((∀ k qty, player_orders st !! k = Some qty → qty ≤ 0) ∧
      render_step_6_order clicked st = Some (NothingToOrder, mark_submitted st)) ∨
     ((∃ k qty, player_orders st !! k = Some qty ∧ 0 < qty) ∧
      render_step_6_order clicked st =
        Some (if Qle_bool 0 (cash st - total)
              then if clicked
                   then (OrderSubmitted, with_orders pend' (cash st - total)%Q st)
                   else (AwaitingConfirmation, st)
              else (InsufficientFunds, st)))).
Proof.
  intros Hok.
  destruct (quote_loop_any (products st) (player_orders st) Hok)
    as (tc & details & Hquote & Htc & Hnil & Hdet).
  destruct (place_loop_any (products st) (pending_orders st) (player_orders st) Hok)
    as (pend' & Hplace & Hpend).
  exists tc, pend'. split; [exact Htc|]. split; [exact Hpend|].
  unfold render_step_6_order. rewrite Hquote. simpl.
  destruct details as [|row rows].
  - left. split; [by apply Hdet|done].
  - right. split.
    + apply Classical_Prop.NNPP. intros Hno.
      assert (row :: rows = []) as Habs; [|done].
      apply Hdet. intros k qty Hk.
      destruct (decide (0 < qty)); [|lia]. exfalso. apply Hno. by exists k, qty.
    + destruct (Qle_bool 0 (cash st - tc)); [|done].
      destruct clicked; [|done]. by rewrite Hplace.
Qed.

Lemma quote_loop_needs_products (prods : gmap string SimpleProduct)
    (orders : gmap string Z) :
  ∀ acc, map_fold (quote_order prods) (Some (0%Q, [])) orders = Some acc →
  ∀ k, is_Some (orders !! k) → is_Some (prods !! k).
Proof.
  apply (map_fold_weak_ind (λ r m, ∀ acc, r = Some acc →
    ∀ k, is_Some (m !! k) → is_Some (prods !! k))); clear orders.
  - intros acc _ k [x Hx]. by rewrite lookup_empty in Hx.
  - intros i qty m r Hi IH acc Hstep k [x Hk].
    destruct r as [[tc details]|]; [|done].
    unfold quote_order in Hstep. simpl in Hstep.
    destruct (prods !! i) as [p|] eqn:Hp; [|done].
    destruct (decide (i = k)) as [<-|Hne]; [by eexists|].
    rewrite lookup_insert_ne in Hk by done. apply (IH _ eq_refl). by eexists.
Qed.

(** X7. A batch with no positive quantity (empty, or all zeros, or a negative
    number) needs no confirmation: step 6 marks the order step as done at
    once, whether or not a button is pressed and whatever the cash, and
    changes nothing else. *)
Theorem batch_without_positive_quantity (clicked : bool) (st : SessionState) :
  (∀ k qty, player_orders st !! k = Some qty →
            qty ≤ 0 ∧ is_Some (products st !! k)) →
  render_step_6_order clicked st = Some (NothingToOrder, mark_submitted st).
Proof.
  intros Hok.
  destruct (render_step_6_order_cases clicked st)
    as (tc & pend' & _ & _ & [[_ H]|[(k & qty & Hk & Hpos) _]]).
  - intros k qty Hk. by apply (Hok k qty).
  - exact H.
  - destruct (Hok k qty Hk). lia.
Qed.

(** A fresh game with nothing entered: the batch is empty. *)
Lemma batch_without_positive_quantity_witness :
  render_step_6_order false initialize_game
    = Some (NothingToOrder, mark_submitted initialize_game).
Proof.
  apply (batch_without_positive_quantity false initialize_game).
  intros k qty Hk. simpl in Hk. by rewrite lookup_empty in Hk.
Defined.

(** X8. An entry of the batch for a product that is not in the catalog makes
    step 6 fail with a [KeyError], also when its quantity is zero: the
    product is looked up before the quantity is tested. *)
Theorem step_6_fails_on_unknown_product (clicked : bool) (st : SessionState)
    (k : string) (qty : Z) :
  player_orders st !! k = Some qty →
  products st !! k = None →
  render_step_6_order clicked st = None.
Proof.
  intros Hk Hp. unfold render_step_6_order.
  destruct (map_fold (quote_order _) _ _) as [acc|] eqn:E; [|done].
  destruct (quote_loop_needs_products _ _ acc E k) as [p Hp']; [by eexists|].
  congruence.
Qed.

Lemma step_6_fails_on_unknown_product_witness :
  render_step_6_order true (session_with 10000 "TEA" 0) = None.
Proof.
  apply (step_6_fails_on_unknown_product true (session_with 10000 "TEA" 0) "TEA" 0);
    reflexivity.
Defined.

(** What step 6 leaves alone, for the proofs below. *)
Lemma render_step_6_order_frame (clicked : bool) (st : SessionState)
    (outcome : OrderOutcome) (st' : SessionState) :
  render_step_6_order clicked st = Some (outcome, st') →
  player_predictions st' = player_predictions st ∧
  player_service_levels st' = player_service_levels st ∧
  products st' = products st ∧
  sales_history st' = sales_history st ∧
  day st' = day st ∧
  score st' = score st ∧
  total_revenue st' = total_revenue st ∧
  total_profit st' = total_profit st ∧
  daily_reports st' = daily_reports st ∧
  player_orders st' = player_orders st ∧
  (∀ k, (∀ qty, player_orders st !! k = Some qty → qty ≤ 0) →
        pending_orders st' !! k = pending_orders st !! k) ∧
  (outcome ≠ OrderSubmitted →
     cash st' = cash st ∧ pending_orders st' = pending_orders st) ∧
  (outcome = InsufficientFunds ∨ outcome = AwaitingConfirmation → st' = st) ∧
  (outcome = OrderSubmitted → clicked = true ∧ order_submitted st' = true).
Proof.
  intros Hrun.
  assert (∀ k qty, player_orders st !! k = Some qty → is_Some (products st !! k))
    as Hok.
  { intros k qty Hk. unfold render_step_6_order in Hrun.
    destruct (map_fold (quote_order _) _ _) as [acc|] eqn:E; [|done].
    apply (quote_loop_needs_products _ _ acc E k). by eexists. }
  destruct (render_step_6_order_cases clicked st Hok)
    as (tc & pend' & _ & Hpend & [[_ H]|[_ H]]); rewrite H in Hrun.
  - injection Hrun as <- <-. simpl. do 11 (split; [done|]).
    split; [done|]. split; [by intros [|]|done].
  - destruct (Qle_bool 0 (cash st - tc)); [destruct clicked|];
      injection Hrun as <- <-; simpl; do 10 (split; [done|]).
    + split; [|split; [done|split; [by intros [|]|done]]].
      intros k Hk. rewrite Hpend.
      destruct (player_orders st !! k) as [q|]; [|done].
      specialize (Hk q eq_refl). by rewrite decide_False by lia.
    + split; [done|]. split; [done|]. split; [done|done].
    + split; [done|]. split; [done|]. split; [done|done].
Qed.

(** X9. What step 6 leaves alone. Whatever the outcome, the products, the
    histories, the day, the score, the totals, the report log and the batch
    itself are unchanged, and so is the pending order of every product for
    which the batch holds no positive quantity. Only a confirmed batch
    changes the cash and the pending orders; a refused or unconfirmed one
    returns the session as it was. *)
Theorem step_6_frame (clicked : bool) (st : SessionState)
    (outcome : OrderOutcome) (st' : SessionState) :
  render_step_6_order clicked st = Some (outcome, st') →
  products st' = products st ∧
  sales_history st' = sales_history st ∧
  day st' = day st ∧
  score st' = score st ∧
  total_revenue st' = total_revenue st ∧
  total_profit st' = total_profit st ∧
  daily_reports st' = daily_reports st ∧
  player_orders st' = player_orders st ∧
  (∀ k, (∀ qty, player_orders st !! k = Some qty → qty ≤ 0) →
        pending_orders st' !! k = pending_orders st !! k) ∧
  (outcome ≠ OrderSubmitted →
     cash st' = cash st ∧ pending_orders st' = pending_orders st) ∧
  (outcome = InsufficientFunds ∨ outcome = AwaitingConfirmation → st' = st) ∧
  (outcome = OrderSubmitted → clicked = true ∧ order_submitted st' = true).
Proof.
  intros Hrun.
  destruct (render_step_6_order_frame clicked st outcome st' Hrun) as (_ & _ & H).
  exact H.
Qed.

Lemma step_6_frame_witness :
  ∃ outcome st',
    render_step_6_order true (session_with 10000 "WATER" 50) = Some (outcome, st') ∧
    products st' = create_products ∧
    pending_orders st' !! "MILK" = None.
Proof.
  destruct (render_step_6_order true (session_with 10000 "WATER" 50))
    as [[outcome st']|] eqn:E; [|vm_compute in E; discriminate].
  exists outcome, st'. split; [reflexivity|].
  destruct (step_6_frame true (session_with 10000 "WATER" 50) outcome st' E)
    as (Hp & _ & _ & _ & _ & _ & _ & _ & Hpend & _).
  split; [exact Hp|]. rewrite (Hpend "MILK"); [reflexivity|].
  intros qty Hq. simpl in Hq. rewrite lookup_singleton_ne in Hq; done.
Defined.

(** X10. Confirming the same batch twice (the button can be pressed again while
    step 6 is shown) debits the batch twice and files it once: the second
    confirmation overwrites each pending order with an identical one. *)
Theorem confirming_twice_charges_twice (st : SessionState) (k : string) (qty : Z) :
  (∀ j q, player_orders st !! j = Some q → is_Some (products st !! j)) →
  player_orders st !! k = Some qty → 0 < qty →
  (2 * positive_cost (products st) (player_orders st) <= cash st)%Q →
  (0 <= positive_cost (products st) (player_orders st))%Q →
  ∃ st1 st2,
    render_step_6_order true st = Some (OrderSubmitted, st1) ∧
    render_step_6_order true st1 = Some (OrderSubmitted, st2) ∧
    (cash st1 == cash st - positive_cost (products st) (player_orders st))%Q ∧
    (cash st2 == cash st - 2 * positive_cost (products st) (player_orders st))%Q ∧
    pending_orders st2 = pending_orders st1 ∧
    products st2 = products st.
Proof.
  intros Hok Hk Hpos Hcash Hcost.
  destruct (render_step_6_order_cases true st Hok)
    as (tc & pend1 & Htc & Hpend1 & [[Hall _]|[_ H1]]).
  { specialize (Hall k qty Hk). lia. }
  assert (Qle_bool 0 (cash st - tc) = true) as E1 by (apply Qle_bool_iff; lra).
  rewrite E1 in H1.
  set (st1 := with_orders pend1 (cash st - tc)%Q st) in *.
  destruct (render_step_6_order_cases true st1 Hok)
    as (tc2 & pend2 & Htc2 & Hpend2 & [[Hall _]|[_ H2]]).
  { specialize (Hall k qty Hk). lia. }
  simpl in Htc2, Hpend2, H2.
  assert (Qle_bool 0 (cash st - tc - tc2) = true) as E2 by (apply Qle_bool_iff; lra).
  rewrite E2 in H2.
  exists st1, (with_orders pend2 (cash st1 - tc2)%Q st1).
  split; [exact H1|]. split; [exact H2|]. simpl.
  split; [lra|]. split; [lra|]. split; [|done].
  apply map_eq. intros j. rewrite Hpend2, Hpend1.
  destruct (player_orders st !! j) as [q|]; [|done].
  by destruct (decide (0 < q)).
Qed.

Lemma confirming_twice_charges_twice_witness :
  ∃ st1 st2,
    render_step_6_order true (session_with 10000 "WATER" 50)
      = Some (OrderSubmitted, st1) ∧
    render_step_6_order true st1 = Some (OrderSubmitted, st2) ∧
    (cash st2 == 9900)%Q ∧
    pending_orders st2 = pending_orders st1.
Proof.
  destruct (confirming_twice_charges_twice (session_with 10000 "WATER" 50) "WATER" 50)
    as (st1 & st2 & H1 & H2 & _ & Hc & Hp & _).
  - intros j q Hj. simpl in Hj. apply lookup_singleton_Some in Hj as [<- _].
    by eexists.
  - reflexivity.
  - lia.
  - vm_compute. discriminate.
  - vm_compute. discriminate.
  - exists st1, st2. split; [exact H1|]. split; [exact H2|]. split; [|exact Hp].
    rewrite Hc. vm_compute. reflexivity.
Defined.

(** ** Orders at the bounds of the lead time *)

(** X11. An order never reaches the stock on the day it is confirmed. With a lead
    time of one day, of zero or below, the confirmation leaves the stock as
    it is, the next simulated day serves its demand from that stock, and the
    quantity is added at the end of that day, when the order is removed. *)
Theorem order_takes_at_least_a_day (st : SessionState) (k : string) (qty : Z)
    (p : SimpleProduct) :
  keys_ok st →
  orders_ok st →
  (batch_cost (products st) (player_orders st) <= cash st)%Q →
  player_orders st !! k = Some qty → 0 < qty →
  products st !! k = Some p → lead_time p ≤ 1 →
  ∃ st1,
    render_step_6_order true st = Some (OrderSubmitted, st1) ∧
    products st1 !! k = Some p ∧
    ∀ draws : string → Q,
      ∃ report st2 p2,
        process_daily_sales draws st1 = Some (report, st2) ∧
        products st2 !! k = Some p2 ∧
        report_units k report
          = Z.min (draw_demand (daily_demand p) (draws k)) (current_stock p) ∧
        current_stock p2 = current_stock p - report_units k report + qty ∧
        pending_orders st2 !! k = None.
Proof.
  intros Hkeys Hok Hle Hk Hpos Hp Hlead.
  destruct (confirm_order_spec st k qty Hok Hle Hk Hpos)
    as (st1 & Hsub & _ & Hprods & Hhist & Hpend).
  pose proof (confirm_order_keys_ok st st1 Hkeys Hprods Hhist Hpend) as Hkeys1.
  assert (pending_orders st1 !! k = Some (new_order qty p)) as Hnew.
  { rewrite Hpend, Hk, Hp. by rewrite decide_True by done. }
  assert (products st1 !! k = Some p) as Hp1 by (by rewrite Hprods).
  exists st1. split; [exact Hsub|]. split; [exact Hp1|]. intros draws.
  destruct (process_daily_sales_spec draws st1 Hkeys1)
    as (r & st2 & Hrun & Hp2 & Hq2 & _ & Hs & _).
  exists r, st2, (arrive (Some (new_order qty p)) (after_sale draws k p)).
  split; [exact Hrun|]. split; [by rewrite Hp2, Hp1, Hnew|].
  unfold report_units. rewrite Hs, Hp1. simpl.
  split; [reflexivity|]. rewrite Hq2, Hnew. simpl. unfold countdown. simpl.
  rewrite !decide_True by lia. simpl. split; [lia|done].
Qed.

Lemma order_takes_at_least_a_day_witness :
  ∃ st1,
    render_step_6_order true session_with_no_lead_time = Some (OrderSubmitted, st1) ∧
    current_stock <$> products st1 !! "WATER" = Some 120.
Proof.
  destruct (order_takes_at_least_a_day session_with_no_lead_time "WATER" 50
              (mkProduct "WATER" "矿泉水" "💧" 3 1 120 30 0 3))
    as (st1 & Hsub & Hp & _).
  - split; intros j [x Hx]; simpl in *.
    + apply lookup_singleton_Some in Hx as [<- _]. by eexists.
    + by rewrite lookup_empty in Hx.
  - intros j q Hj. simpl in Hj. apply lookup_singleton_Some in Hj as [<- <-].
    split; [lia|by eexists].
  - vm_compute. discriminate.
  - reflexivity.
  - lia.
  - reflexivity.
  - simpl. lia.
  - exists st1. split; [exact Hsub|]. by rewrite Hp.
Defined.

(** ** The statistics of a history *)

Lemma sum_int_nonneg (h : list Z) : Forall (λ x, 0 ≤ x) h → 0 ≤ sum_int h.
Proof. induction 1; simpl; lia. Qed.

Lemma sum_int_zero (h : list Z) :
  Forall (λ x, 0 ≤ x) h → sum_int h = 0 → Forall (λ x, x = 0) h.
Proof.
  induction 1 as [|x h Hx Hh IH]; simpl; intros Hs; [constructor|].
  pose proof (sum_int_nonneg h Hh). constructor; [lia|apply IH; lia].
Qed.

Lemma squares_nonneg (m : R) (h : list Z) :
  (0 <= foldr (λ x s, (IZR x - m) * (IZR x - m) + s) 0 h)%R.
Proof.
  induction h as [|x h IH]; simpl; [lra|].
  pose proof (Rle_0_sqr (IZR x - m)) as Hsq. unfold Rsqr in Hsq. lra.
Qed.

Lemma squares_zero (m : R) (h : list Z) :
  foldr (λ x s, (IZR x - m) * (IZR x - m) + s)%R 0%R h = 0%R
  ↔ Forall (λ x, IZR x = m) h.
Proof.
  induction h as [|x h IH]; simpl; [by split; [constructor|]|].
  pose proof (squares_nonneg m h) as Hrest.
  pose proof (Rle_0_sqr (IZR x - m)) as Hsq. unfold Rsqr in Hsq. split.
  - intros Hs.
    assert ((IZR x - m) * (IZR x - m) = 0)%R as Hx by lra.
    constructor; [apply Rmult_integral in Hx; lra|apply IH; lra].
  - intros Hall. apply Forall_cons in Hall as [Hx Hh].
    apply IH in Hh. rewrite Hh, Hx. lra.
Qed.

Lemma length_pos (h : list Z) : h ≠ [] → (0 < INR (length h))%R.
Proof. destruct h; [done|]. intros _. apply lt_0_INR. simpl. lia. Qed.

Lemma demand_stats_spec st k h :
  sales_history st !! k = Some h → h ≠ [] → Forall (λ x, 0 ≤ x) h →
  ∃ m s c,
    calculate_demand_stats st k = Some (mkStats (Fin m) (Fin s) (Fin c)) ∧
    (0 <= m)%R ∧ (0 <= s)%R ∧ (0 <= c)%R ∧
    (m * INR (length h) = IZR (sum_int h))%R ∧
    (c * m = s)%R ∧
    (s = 0%R ↔ ∀ x, x ∈ h → IZR x = m).
Proof.
  intros Hk Hne Hall. pose proof (length_pos h Hne) as Hn.
  set (m := (IZR (sum_int h) / INR (length h))%R).
  set (v := (foldr (λ x s, (IZR x - m) * (IZR x - m) + s) 0 h / INR (length h))%R).
  assert (np_mean h = Fin m) as Hm by (by destruct h).
  assert (np_std h = Fin (sqrt v)) as Hs by (by destruct h).
  assert (0 <= m)%R as Hm0.
  { unfold m. apply Rmult_le_pos; [apply IZR_le, sum_int_nonneg, Hall|].
    left. by apply Rinv_0_lt_compat. }
  assert (0 <= v)%R as Hv0.
  { unfold v. apply Rmult_le_pos; [apply squares_nonneg|].
    left. by apply Rinv_0_lt_compat. }
  assert (sqrt v = 0%R ↔ ∀ x, x ∈ h → IZR x = m) as Hconst.
  { rewrite <- Forall_forall, <- squares_zero. split.
    - intros H0. apply sqrt_eq_0 in H0; [|done]. unfold v in H0.
      apply (Rmult_eq_compat_r (INR (length h))) in H0.
      unfold Rdiv in H0. rewrite Rmult_assoc, Rinv_l, Rmult_1_r, Rmult_0_l in H0; [done|lra].
    - intros H0. unfold v. fold m in H0. rewrite H0. unfold Rdiv.
      rewrite Rmult_0_l. apply sqrt_0. }
  unfold calculate_demand_stats. rewrite Hk. simpl. rewrite Hm, Hs. simpl.
  destruct (Rlt_dec 0 m) as [Hpos|Hzero].
  - simpl. destruct (Req_dec_T m 0) as [->|_]; [lra|].
    exists m, (sqrt v), (sqrt v / m)%R.
    split; [done|]. split; [done|]. split; [apply sqrt_pos|].
    split; [apply Rmult_le_pos; [apply sqrt_pos|left; by apply Rinv_0_lt_compat]|].
    split; [unfold m; field; lra|]. split; [field; lra|done].
  - assert (m = 0%R) as Hm00 by lra.
    assert (sqrt v = 0%R) as Hs0.
    { apply Hconst. intros x Hx. rewrite Hm00.
      assert (sum_int h = 0) as Hsum.
      { apply eq_IZR. unfold m in Hm00.
        apply (Rmult_eq_compat_r (INR (length h))) in Hm00.
        unfold Rdiv in Hm00.
        rewrite Rmult_assoc, Rinv_l, Rmult_1_r, Rmult_0_l in Hm00; [done|lra]. }
      pose proof (sum_int_zero h Hall Hsum) as Hz.
      rewrite Forall_forall in Hz. by rewrite (Hz x Hx). }
    exists m, (sqrt v), 0%R.
    split; [done|]. split; [done|]. split; [apply sqrt_pos|]. split; [lra|].
    split; [unfold m; field; lra|]. split; [lra|done].
Qed.

(** X12. The statistics of a non-empty history of non-negative sales are
    numbers: the mean and the deviation are finite and not negative, the
    coefficient of variation times the mean is the deviation (it is 0 when
    the mean is 0, where the code avoids the division), and the deviation
    is 0 exactly when every entry equals the mean. *)
Theorem demand_statistics_are_numbers (st : SessionState) (k : string)
    (h : list Z) :
  sales_history st !! k = Some h → h ≠ [] → Forall (λ x, 0 ≤ x) h →
  ∃ m s c,
    calculate_demand_stats st k = Some (mkStats (Fin m) (Fin s) (Fin c)) ∧
    (0 <= m)%R ∧ (0 <= s)%R ∧ (0 <= c)%R ∧
    (m * INR (length h) = IZR (sum_int h))%R ∧
    (c * m = s)%R ∧
    (s = 0%R ↔ ∀ x, x ∈ h → IZR x = m).
Proof. apply demand_stats_spec. Qed.

Lemma demand_statistics_are_numbers_witness :
  ∃ m s c,
    calculate_demand_stats initialize_game "MILK"
      = Some (mkStats (Fin m) (Fin s) (Fin c)) ∧
    (0 <= m)%R ∧ (0 <= s)%R ∧ (0 <= c)%R ∧
    (m * INR 7 = IZR 106)%R ∧
    (c * m = s)%R ∧
    (s = 0%R ↔ ∀ x, x ∈ [14; 16; 15; 13; 17; 15; 16] → IZR x = m).
Proof.
  apply (demand_statistics_are_numbers initialize_game "MILK"
           [14; 16; 15; 13; 17; 15; 16]).
  - reflexivity.
  - discriminate.
  - repeat constructor; lia.
Defined.

(** ** The order quantity *)

Lemma order_quantity_finite st k p (target : R) :
  products st !! k = Some p →
  ∃ q, calculate_order_quantity st k (Fin target) = Some q ∧ 0 ≤ q ∧
       (IZR q <= Rmax 0 (target - IZR (current_stock p)) < IZR q + 1)%R.
Proof.
  intros Hp. unfold calculate_order_quantity. rewrite Hp. simpl.
  replace (target + - IZR (current_stock p))%R
    with (target - IZR (current_stock p))%R by lra.
  set (gap := (target - IZR (current_stock p))%R).
  destruct (Rlt_dec 0 gap) as [Hpos|Hneg]; simpl.
  - destruct (Rle_dec 0 gap) as [_|]; [|lra].
    exists (Zfloor gap). split; [done|].
    rewrite Rmax_right by lra. split; [|apply Zfloor_bound].
    apply Zfloor_lub. simpl. lra.
  - destruct (Rle_dec 0 0) as [_|]; [|lra].
    exists 0. rewrite Rmax_left by lra.
    replace (Zfloor 0) with 0 by (symmetry; apply (ZfloorZ 0)).
    split; [done|]. split; [lia|]. simpl. lra.
Qed.

(** X13. [calculate_order_quantity] on a finite target returns the gap
    between target and stock rounded down, and 0 when the stock reaches the
    target; a target that is NaN or minus infinity gives 0 as well, and an
    infinite target raises (the [OverflowError] of [int]). *)
Theorem order_quantity_rounds_the_gap_down (st : SessionState) (k : string)
    (p : SimpleProduct) :
  products st !! k = Some p →
  (∀ target : R,
     ∃ q, calculate_order_quantity st k (Fin target) = Some q ∧ 0 ≤ q ∧
          (IZR q <= Rmax 0 (target - IZR (current_stock p)) < IZR q + 1)%R) ∧
  calculate_order_quantity st k NaN = Some 0 ∧
  calculate_order_quantity st k NegInf = Some 0 ∧
  calculate_order_quantity st k PosInf = None.
Proof.
  intros Hp. split; [intros target; by apply order_quantity_finite|].
  unfold calculate_order_quantity. rewrite Hp. simpl.
  destruct (Rle_dec 0 0) as [_|]; [|lra].
  replace (Zfloor 0) with 0 by (symmetry; apply (ZfloorZ 0)). done.
Qed.

Lemma order_quantity_rounds_the_gap_down_witness :
  (∀ target : R,
     ∃ q, calculate_order_quantity initialize_game "WATER" (Fin target) = Some q ∧
          0 ≤ q ∧ (IZR q <= Rmax 0 (target - 120) < IZR q + 1)%R) ∧
  calculate_order_quantity initialize_game "WATER" NaN = Some 0 ∧
  calculate_order_quantity initialize_game "WATER" NegInf = Some 0 ∧
  calculate_order_quantity initialize_game "WATER" PosInf = None.
Proof.
  exact (order_quantity_rounds_the_gap_down initialize_game "WATER" water eq_refl).
Defined.

(** X14. Once [should_reorder] fires at the reorder point
    [forecast * lead_time + safety_stock], the quantity computed for the
    target of [calculate_target_stock] covers the forecast demand of the
    order interval (rounded down), and the stock plus that quantity reaches
    the target to within one unit, never exceeding it. *)
Theorem order_quantity_covers_the_interval (st : SessionState) (k : string)
    (p : SimpleProduct) (forecast safety_stock : R) (interval : Z) :
  products st !! k = Some p →
  (0 <= forecast)%R → 0 ≤ interval →
  should_reorder st k (Fin (forecast * IZR (lead_time p) + safety_stock))
    = Some true →
  ∃ target q,
    calculate_target_stock st k (Fin forecast) interval (Fin safety_stock)
      = Some (Fin target) ∧
    calculate_order_quantity st k (Fin target) = Some q ∧
    Zfloor (forecast * IZR interval) ≤ q ∧
    (IZR (current_stock p) + IZR q <= target
       < IZR (current_stock p) + IZR q + 1)%R.
Proof.
  intros Hp Hf HT Hdue. unfold should_reorder in Hdue. rewrite Hp in Hdue.
  simpl in Hdue.
  destruct (Rle_dec _ _) as [Hle|]; [clear Hdue|done].
  set (target := (forecast * IZR (lead_time p + interval) + safety_stock)%R).
  assert (forecast * IZR interval <= target - IZR (current_stock p))%R as Hgap.
  { unfold target. rewrite plus_IZR. lra. }
  assert (0 <= forecast * IZR interval)%R as Hcover.
  { apply Rmult_le_pos; [done|]. by apply IZR_le. }
  destruct (order_quantity_finite st k p target Hp) as (q & Hq & Hq0 & Hqb).
  exists target, q. split; [unfold calculate_target_stock; by rewrite Hp|].
  split; [done|]. rewrite Rmax_right in Hqb by lra. split; [|lra].
  assert (q = Zfloor (target - IZR (current_stock p))) as ->.
  { symmetry. by apply Zfloor_eq. }
  by apply Zfloor_le.
Qed.

Lemma order_quantity_covers_the_interval_witness :
  ∃ target q,
    calculate_target_stock initialize_game "WATER" (Fin 40) 3 (Fin 5)
      = Some (Fin target) ∧
    calculate_order_quantity initialize_game "WATER" (Fin target) = Some q ∧
    Zfloor (40 * 3) ≤ q ∧
    (120 + IZR q <= target < 120 + IZR q + 1)%R.
Proof.
  apply (order_quantity_covers_the_interval initialize_game "WATER"
           water 40 5 3).
  - reflexivity.
  - lra.
  - lia.
  - unfold should_reorder.
    replace (products initialize_game !! "WATER") with (Some water) by reflexivity.
    simpl. destruct (Rle_dec _ _) as [|Hn]; [reflexivity|]. exfalso. apply Hn. lra.
Defined.

(** ** The grading of a forecast *)

(** X15. For a product with a positive base demand [evaluate_prediction]
    grades any forecast with a score between 0 and 100: 100 exactly for a
    forecast equal to the base demand, 0 exactly when the forecast misses
    it by half of it or more. With a non-empty history a tie with the
    error of the historical mean counts as better than the system. *)
Theorem prediction_score_is_a_percentage (st : SessionState) (k : string)
    (p : SimpleProduct) (h : list Z) (pred : R) :
  products st !! k = Some p → sales_history st !! k = Some h → h ≠ [] →
  0 < daily_demand p →
  ∃ e, evaluate_prediction st k pred = Some e ∧
       (0 <= eval_score e <= 100)%R ∧
       (eval_score e = 100%R ↔ pred = IZR (daily_demand p)) ∧
       (eval_score e = 0%R
        ↔ (IZR (daily_demand p) / 2 <= Rabs (pred - IZR (daily_demand p)))%R) ∧
       (eval_better_than_system e = true
        ↔ (Rabs (pred - IZR (daily_demand p))
           <= Rabs (IZR (sum_int h) / INR (length h) - IZR (daily_demand p)))%R).
Proof.
  intros Hp Hh Hne Hd. unfold evaluate_prediction, calculate_demand_stats.
  rewrite Hh, Hp. simpl.
  assert (0 < IZR (daily_demand p))%R as Hd' by (by apply IZR_lt).
  set (d := IZR (daily_demand p)) in *.
  destruct (Req_dec_T (d * (1 / 2)) 0) as [H0|_]; [lra|].
  pose proof (Rabs_pos (pred - d)) as Habs.
  set (err := Rabs (pred - d)) in *.
  assert (err / (d * (1 / 2)) * 100 = err * (200 / d))%R as Hs by (field; lra).
  assert (0 < 200 / d)%R as Hk.
  { apply Rmult_lt_0_compat; [lra|by apply Rinv_0_lt_compat]. }
  assert (200 / d * d = 200)%R as Hkd by (field; lra).
  eexists. split; [reflexivity|]. simpl. rewrite Hs.
  assert (np_mean h = Fin (IZR (sum_int h) / INR (length h))) as -> by (by destruct h).
  simpl.
  replace (IZR (sum_int h) / INR (length h) + - d)%R
    with (IZR (sum_int h) / INR (length h) - d)%R by lra.
  assert (0 <= err * (200 / d))%R as Hnn by (apply Rmult_le_pos; lra).
  split; [|split; [|split]].
  - destruct (Rlt_dec 0 (100 - err * (200 / d))); lra.
  - destruct (Rlt_dec 0 (100 - err * (200 / d))) as [Hlt|Hge]; split.
    + intros He. assert (err * (200 / d) = 0)%R as Hz by lra.
      apply Rmult_integral in Hz as [Hz|Hz]; [|lra].
      unfold err in Hz. destruct (Req_dec (pred - d) 0) as [|Hnz]; [lra|].
      apply Rabs_no_R0 in Hnz. lra.
    + intros ->. unfold err. replace (d - d)%R with 0%R by lra.
      rewrite Rabs_R0. lra.
    + lra.
    + intros ->. exfalso. apply Hge. unfold err.
      replace (d - d)%R with 0%R by lra. rewrite Rabs_R0. lra.
  - destruct (Rlt_dec 0 (100 - err * (200 / d))) as [Hlt|Hge]; split.
    + lra.
    + intros Hhalf. exfalso.
      assert (d / 2 * (200 / d) <= err * (200 / d))%R as Hm
        by (apply Rmult_le_compat_r; lra).
      replace (d / 2 * (200 / d))%R with 100%R in Hm by (field; lra). lra.
    + intros _. apply Rnot_lt_le in Hge.
      assert (100 <= err * (200 / d))%R as Hm by lra.
      apply (Rmult_le_compat_r (d / 200)) in Hm; [|lra].
      replace (err * (200 / d) * (d / 200))%R with err in Hm by (field; lra).
      lra.
    + done.
  - destruct (Rle_dec _ _); split; (done || lra).
Qed.

Lemma prediction_score_is_a_percentage_witness :
  ∃ e, evaluate_prediction initialize_game "WATER" 33 = Some e ∧
       (0 <= eval_score e <= 100)%R ∧
       (eval_score e = 100%R ↔ 33%R = 30%R) ∧
       (eval_score e = 0%R ↔ (30 / 2 <= Rabs (33 - 30))%R) ∧
       (eval_better_than_system e = true
        ↔ (Rabs (33 - 30) <= Rabs (IZR 218 / INR 7 - 30))%R).
Proof.
  apply (prediction_score_is_a_percentage initialize_game "WATER" water
           [28; 32; 30; 35; 29; 31; 33] 33).
  - reflexivity.
  - reflexivity.
  - discriminate.
  - simpl. lia.
Defined.

(** X16. For a product whose base demand is 0 [evaluate_prediction] raises
    (the [ZeroDivisionError] of [player_error / max_error]), whatever the
    forecast. *)
Theorem prediction_of_no_demand_fails (st : SessionState) (k : string)
    (p : SimpleProduct) (pred : R) :
  products st !! k = Some p → daily_demand p = 0 →
  evaluate_prediction st k pred = None.
Proof.
  intros Hp Hd. unfold evaluate_prediction. rewrite Hp.
  destruct (calculate_demand_stats st k); simpl; [|done].
  rewrite Hd. destruct (Req_dec_T (0 * (1 / 2)) 0) as [_|Hn]; [done|].
  exfalso. apply Hn. lra.
Qed.

Lemma prediction_of_no_demand_fails_witness :
  evaluate_prediction session_with_idle_product "TEA" 4 = None.
Proof.
  apply (prediction_of_no_demand_fails session_with_idle_product "TEA"
           (mkProduct "TEA" "茶" "🍵" 5 2 10 0 1 1) 4); reflexivity.
Defined.

(** ** The stock status of step 2 *)

(** X17. A product that step 2 shows as urgent is due for an order: its
    stock is below the reorder point of [calculate_reorder_point] for any
    safety stock that is not negative, so [should_reorder] holds. *)
Theorem urgent_stock_is_due_for_reorder (st : SessionState) (k : string)
    (h : list Z) (days : pyfloat) (safety_stock : R) :
  sales_history st !! k = Some h → h ≠ [] → Forall (λ x, 0 ≤ x) h →
  render_step_2_inventory st k = Some (days, Urgent) →
  (0 <= safety_stock)%R →
  ∃ reorder_point,
    calculate_reorder_point st k (Fin safety_stock) = Some reorder_point ∧
    should_reorder st k reorder_point = Some true.
Proof.
  intros Hh Hne Hall Hrun Hss.
  destruct (demand_stats_spec st k h Hh Hne Hall)
    as (m & s & c & Hstats & Hm & _).
  unfold render_step_2_inventory in Hrun.
  destruct (products st !! k) as [p|] eqn:Hp; [|done]. simpl in Hrun.
  rewrite Hstats in Hrun. simpl in Hrun.
  assert (IZR (current_stock p) <= m * IZR (lead_time p) + safety_stock)%R as Hle.
  { destruct (Req_dec_T m 0) as [->|Hm0].
    - destruct (Rlt_dec 0 (IZR (current_stock p))); [done|].
      destruct (Rlt_dec (IZR (current_stock p)) 0); [lra|done].
    - simpl in Hrun.
      destruct (Rlt_dec (IZR (current_stock p) / m) (IZR (lead_time p)))
        as [Hlt|]; [|by destruct (Rlt_dec _ _)].
      apply (Rmult_lt_compat_r m) in Hlt; [|lra].
      replace (IZR (current_stock p) / m * m)%R with (IZR (current_stock p)) in Hlt
        by (field; lra).
      lra. }
  unfold calculate_reorder_point, should_reorder. rewrite Hp. simpl.
  rewrite Hstats. simpl. eexists. split; [reflexivity|]. simpl.
  by destruct (Rle_dec _ _).
Qed.

Lemma session_low_on_bread_status :
  render_step_2_inventory session_low_on_bread "BREAD"
    = Some (Fin (60 / 20), Urgent).
Proof.
  assert (np_mean [20; 20; 20; 20; 20; 20; 20] = Fin 20) as Hm.
  { unfold np_mean. f_equal.
    replace (sum_int _) with 140 by reflexivity.
    replace (INR _) with 7%R by (simpl; lra). lra. }
  unfold render_step_2_inventory, calculate_demand_stats.
  replace (products session_low_on_bread !! "BREAD")
    with (Some (mkProduct "BREAD" "面包" "🍞" 8 4 60 20 5 5)) by reflexivity.
  replace (sales_history session_low_on_bread !! "BREAD")
    with (Some [20; 20; 20; 20; 20; 20; 20]) by reflexivity.
  cbn [mbind option_bind stats_mean current_stock lead_time]. rewrite Hm.
  unfold fdiv. destruct (Req_dec_T 20 0) as [|_]; [lra|].
  unfold float_lt_int. destruct (Rlt_dec (60 / 20) 5) as [|Hn]; [done|].
  exfalso. apply Hn. lra.
Qed.

Lemma urgent_stock_is_due_for_reorder_witness :
  ∃ reorder_point,
    calculate_reorder_point session_low_on_bread "BREAD" (Fin 0)
      = Some reorder_point ∧
    should_reorder session_low_on_bread "BREAD" reorder_point = Some true.
Proof.
  apply (urgent_stock_is_due_for_reorder session_low_on_bread "BREAD"
           [20; 20; 20; 20; 20; 20; 20] (Fin (60 / 20)) 0).
  - reflexivity.
  - discriminate.
  - repeat constructor; lia.
  - exact session_low_on_bread_status.
  - lra.
Defined.

Lemma sum_int_all_zero (h : list Z) : Forall (λ x, x = 0) h → sum_int h = 0.
Proof.
  induction 1 as [|x l Hx _ IH]; [done|].
  change (sum_int (x :: l)) with (x + sum_int l). lia.
Qed.

(** X18. A product that sold nothing over its whole history is shown as
    sufficient by step 2 whatever it holds, an empty shelf included: the
    days of stock are [stock / 0.0], infinite for a positive stock and NaN
    for none, and neither is below the lead time. *)
Theorem unsold_product_reads_as_sufficient (st : SessionState) (k : string)
    (p : SimpleProduct) (h : list Z) :
  products st !! k = Some p → sales_history st !! k = Some h → h ≠ [] →
  Forall (λ x, x = 0) h → 0 ≤ current_stock p →
  render_step_2_inventory st k
    = Some (if decide (current_stock p = 0) then NaN else PosInf, Sufficient).
Proof.
  intros Hp Hh Hne Hall Hstock.
  pose proof (sum_int_all_zero h Hall) as Hsum.
  unfold render_step_2_inventory, calculate_demand_stats. rewrite Hp, Hh. simpl.
  assert (np_mean h = Fin 0) as ->.
  { destruct h; [done|]. unfold np_mean. rewrite Hsum. f_equal.
    unfold Rdiv. apply Rmult_0_l. }
  simpl. destruct (Req_dec_T 0 0) as [_|]; [|done].
  destruct (decide (current_stock p = 0)) as [->|Hnz].
  - destruct (Rlt_dec 0 0) as [|_]; [lra|]. done.
  - destruct (Rlt_dec 0 (IZR (current_stock p))) as [|Hn]; [done|].
    exfalso. apply Hn. apply IZR_lt. lia.
Qed.

Lemma unsold_product_reads_as_sufficient_witness :
  render_step_2_inventory session_sold_out "BREAD" = Some (NaN, Sufficient).
Proof.
  apply (unsold_product_reads_as_sufficient session_sold_out "BREAD"
           (mkProduct "BREAD" "面包" "🍞" 8 4 0 20 5 5) [0; 0; 0; 0; 0; 0; 0]).
  - reflexivity.
  - reflexivity.
  - discriminate.
  - repeat constructor.
  - simpl. lia.
Defined.

(** ** What holds of every session of a game *)

Lemma reachable_playable st : reachable st → playable st.
Proof.
  induction 1 as [|st c a _ IH|st k qty _ IH Hk Hq|st c o st' _ IH Hrun
                  |st d r st' _ IH Hrun].
  - apply play_init.
  - by apply play_quiz.
  - by apply play_enter.
  - by apply (play_order st c o).
  - by apply (play_day st d r).
Qed.

Lemma catalog_product prods k p :
  catalog_ok prods → prods !! k = Some p →
  (k = "WATER" ∧ p = set_current_stock water (current_stock p)) ∨
  (k = "BREAD" ∧ p = set_current_stock bread (current_stock p)) ∨
  (k = "MILK" ∧ p = set_current_stock milk (current_stock p)).
Proof.
  intros Hcat Hp. specialize (Hcat k). rewrite Hp in Hcat. simpl in Hcat.
  destruct (create_products !! k) as [p0|] eqn:E; [|done].
  injection Hcat as Hcat. unfold create_products in E.
  assert (p = set_current_stock p0 (current_stock p)) as Hp0.
  { destruct p, p0. unfold set_current_stock in *. simpl in *. congruence. }
  apply lookup_insert_Some in E as [[<- <-]|[_ E]]; [by left|].
  apply lookup_insert_Some in E as [[<- <-]|[_ E]]; [by right; left|].
  apply lookup_insert_Some in E as [[<- <-]|[_ E]]; [by right; right|].
  by rewrite lookup_empty in E.
Qed.

Lemma catalog_present prods k :
  catalog_ok prods → is_Some (prods !! k) ↔ is_Some (create_products !! k).
Proof.
  intros Hcat. specialize (Hcat k).
  destruct (prods !! k), (create_products !! k); simpl in Hcat; done.
Qed.

Lemma catalog_facts prods k p :
  catalog_ok prods → prods !! k = Some p →
  (0 < cost p)%Q ∧ (cost p < price p)%Q ∧ 0 < daily_demand p ∧
  2 ≤ lead_time p ≤ 5.
Proof.
  intros Hcat Hp.
  destruct (catalog_product prods k p Hcat Hp) as [[_ ->]|[[_ ->]|[_ ->]]];
    simpl; (split; [reflexivity|split; [reflexivity|lia]]).
Qed.

Lemma catalog_ok_day draws (pend : gmap string PendingOrder)
    (prods prods' : gmap string SimpleProduct) :
  (∀ k, prods' !! k = (λ p, arrive (pend !! k) (after_sale draws k p)) <$> prods !! k) →
  catalog_ok prods → catalog_ok prods'.
Proof.
  intros Hp Hcat k. rewrite <- (Hcat k), Hp.
  destruct (prods !! k) as [p|]; [|done]. simpl. f_equal.
  unfold arrive, after_sale.
  destruct (pend !! k) as [o|]; [destruct (decide _)|]; done.
Qed.

Lemma initialize_game_game_ok : game_ok initialize_game.
Proof.
  split; [apply initialize_game_ok|]. split; [apply initialize_game_history_ok|].
  split; [done|]. split; [split; intros k x Hk; simpl in Hk; by rewrite lookup_empty in Hk|].
  split; [|constructor]. split; [apply Qle_refl|]. split; apply Qle_refl.
Qed.

Lemma quiz_game_ok clicked answer st :
  game_ok st → game_ok (render_step_1_products clicked answer st).
Proof.
  intros (Hs & Hh & Hc & He & (Hp & Hr & Hsc) & Hrep).
  split; [by apply quiz_ok|].
  pose proof (quiz_bonus_nonneg clicked answer st) as Hq.
  assert (0 <= score (render_step_1_products clicked answer st))%Q as Hsc' by lra.
  unfold render_step_1_products in *.
  destruct clicked; [destruct answer|];
    (split; [exact Hh|split; [exact Hc|split; [exact He|
       split; [split; [exact Hp|split; [exact Hr|exact Hsc']]|exact Hrep]]]]).
Qed.

Lemma forecast_game_ok k value st :
  (∀ f, value = Some f → (0 <= f <= 100)%R) →
  game_ok st → game_ok (render_step_4_prediction k value st).
Proof.
  intros Hv Hok. destruct value as [f|]; [|exact Hok].
  destruct Hok as (Hs & Hh & Hc & (He1 & He2) & Ht & Hrep).
  split; [exact Hs|]. split; [exact Hh|]. split; [exact Hc|].
  split; [|split; [exact Ht|exact Hrep]]. split; [|exact He2].
  intros j g Hj. simpl in Hj. destruct (decide (k = j)) as [<-|Hne].
  - rewrite lookup_insert_eq in Hj. injection Hj as <-. by apply Hv.
  - rewrite lookup_insert_ne in Hj by done. by apply (He1 j).
Qed.

Lemma service_game_ok k percent st :
  (∀ pct, percent = Some pct → 80 ≤ pct ≤ 99) →
  game_ok st → game_ok (render_step_4_service_level k percent st).
Proof.
  intros Hv Hok. destruct percent as [pct|]; [|exact Hok].
  destruct Hok as (Hs & Hh & Hc & (He1 & He2) & Ht & Hrep).
  split; [exact Hs|]. split; [exact Hh|]. split; [exact Hc|].
  split; [|split; [exact Ht|exact Hrep]]. split; [exact He1|].
  intros j g Hj. simpl in Hj. destruct (decide (k = j)) as [<-|Hne].
  - rewrite lookup_insert_eq in Hj. injection Hj as <-.
    destruct (Hv pct eq_refl) as [Hlo Hhi].
    apply IZR_le in Hlo, Hhi. lra.
  - rewrite lookup_insert_ne in Hj by done. by apply (He2 j).
Qed.

Lemma enter_order_game_ok k qty st :
  is_Some (products st !! k) → 0 ≤ qty →
  game_ok st → game_ok (enter_order k qty st).
Proof.
  intros Hk Hq (Hs & Hrest). split; [by apply enter_order_ok|exact Hrest].
Qed.

Lemma render_step_6_order_game_ok clicked st outcome st' :
  game_ok st → render_step_6_order clicked st = Some (outcome, st') →
  game_ok st'.
Proof.
  intros (Hs & Hh & Hc & He & Ht & Hrep) Hrun.
  destruct (render_step_6_order_frame clicked st outcome st' Hrun)
    as (Hpp & Hsl & Hp & Hhist & _ & Hsc & Htr & Htp & Hdr & _).
  split; [by apply (render_step_6_order_ok clicked st outcome)|].
  unfold history_ok, entries_ok, totals_ok, reports_ok.
  rewrite Hpp, Hsl, Hp, Hhist, Hsc, Htr, Htp, Hdr. done.
Qed.

Lemma day_revenue_bounds draws (prods : gmap string SimpleProduct) :
  catalog_ok prods → stock_ok prods →
  (0 <= map_sum (λ k p, inject_Z (fulfilled draws k p) * cost p) prods)%Q.
Proof.
  intros Hcat Hstock. apply map_sum_nonneg. intros k p Hp.
  pose proof (fulfilled_nonneg draws k p (Hstock k p Hp)) as Hf.
  destruct (catalog_facts prods k p Hcat Hp) as (Hcost & _).
  apply Qmult_le_0_compat; [|lra].
  change 0%Q with (inject_Z 0). by rewrite <- Zle_Qle.
Qed.

Lemma draw_demand_positive base u : 1 ≤ draw_demand base u.
Proof. unfold draw_demand. lia. Qed.

Lemma process_daily_sales_game_ok draws st report st' :
  game_ok st → process_daily_sales draws st = Some (report, st') →
  game_ok st'.
Proof.
  intros (Hs & Hh & Hc & He & (Htp & Htr & Hsc) & Hrep) Hrun.
  pose proof (process_daily_sales_ok draws st report st' Hs Hrun) as Hs'.
  destruct Hs as (Hkeys & _ & Hmargin & Hstock & _).
  destruct (process_daily_sales_spec draws st Hkeys)
    as (r1 & s1 & Hrun1 & Hp & _ & Hhist & _ & Hprofit & _).
  rewrite Hrun in Hrun1. injection Hrun1 as <- <-.
  destruct (process_daily_sales_report draws st Hkeys)
    as (r2 & s2 & Hrun2 & Hsales & Hrev & Hcost & Hpr & _ & _ & _ & _
        & Htr' & Htp' & _ & Hsc' & Hst & Hdr & _ & Hpp & Hsl & _).
  rewrite Hrun in Hrun2. injection Hrun2 as <- <-.
  split; [exact Hs'|]. split; [|split; [|split; [|split]]].
  - intros k h Hk. rewrite Hhist in Hk.
    destruct (products st !! k) as [p|] eqn:Hpk; [|by apply (Hh k)].
    destruct (sales_history st !! k) as [h0|] eqn:Hh0; [|done].
    injection Hk as <-. destruct (Hh k h0 Hh0) as [Hlen Hall]. split.
    + rewrite push_history_length, Hlen. by rewrite decide_True by lia.
    + apply push_history_Forall; [done|].
      apply fulfilled_nonneg. by apply (Hstock k).
  - by apply (catalog_ok_day draws (pending_orders st) (products st)).
  - unfold entries_ok. by rewrite Hpp, Hsl.
  - pose proof (daily_profit_nonneg draws (products st) Hmargin Hstock) as H0.
    pose proof (day_revenue_bounds draws (products st) Hc Hstock) as H1.
    pose proof (daily_score_nonneg (report_profit report) (report_stockouts report))
      as H2.
    rewrite <- Hprofit in H0. rewrite <- Hcost in H1.
    unfold totals_ok. rewrite Htr', Htp', Hsc', Hst.
    assert (report_profit report <= report_total_revenue report)%Q
      by (rewrite Hpr; lra).
    split; [lra|]. split; lra.
  - unfold reports_ok. rewrite Hdr. apply Forall_app. split; [exact Hrep|].
    constructor; [|constructor]. intros k Hk.
    apply (catalog_present (products st) k Hc) in Hk as [p Hpk].
    rewrite Hsales, Hpk. simpl. eexists. split; [done|]. simpl.
    apply draw_demand_positive.
Qed.

Lemma playable_game_ok st : playable st → game_ok st.
Proof.
  induction 1 as [|st c a _ IH|st k v _ IH Hk Hv|st k v _ IH Hk Hv
                  |st k qty _ IH Hk Hq|st c o st' _ IH Hrun
                  |st d r st' _ IH Hrun|st _ IH].
  - apply initialize_game_game_ok.
  - by apply quiz_game_ok.
  - by apply forecast_game_ok.
  - by apply service_game_ok.
  - apply enter_order_game_ok; [done|lia|done].
  - by apply (render_step_6_order_game_ok c st o).
  - by apply (process_daily_sales_game_ok d st r).
  - exact IH.
Qed.

(** X19. In every session of a game each sales history holds exactly seven
    entries, none negative, and a simulated day completes, appends the
    units sold and drops the oldest entry. *)
Theorem history_is_a_window_of_seven (st : SessionState) :
  playable st →
  (∀ k h, sales_history st !! k = Some h →
          length h = 7%nat ∧ Forall (λ x, 0 ≤ x) h) ∧
  (∀ draws, ∃ report st',
     process_daily_sales draws st = Some (report, st') ∧
     ∀ k a h, sales_history st !! k = Some (a :: h) →
              is_Some (products st !! k) →
              sales_history st' !! k = Some (h ++ [report_units k report])).
Proof.
  intros Hplay. destruct (playable_game_ok st Hplay) as (Hok & Hhist & _).
  split; [exact Hhist|]. intros draws.
  destruct Hok as (Hkeys & _).
  destruct (process_daily_sales_spec draws st Hkeys)
    as (r & st' & Hrun & _ & _ & Hh & Hs & _).
  exists r, st'. split; [exact Hrun|]. intros k a h Hk [p Hp].
  destruct (Hhist k _ Hk) as [Hlen _]. simpl in Hlen.
  rewrite Hh, Hp, Hk. simpl. unfold report_units. rewrite Hs, Hp. simpl.
  unfold push_history. simpl. rewrite length_app. simpl.
  replace (7 <? Z.of_nat (S (length h + 1))) with true; [done|].
  symmetry. apply Z.ltb_lt. lia.
Qed.

(** The first day of a fresh game: the history of WATER loses the 28 units
    of its oldest day and gains the units sold that day, and after the day
    every history is again seven entries long. *)
Lemma history_is_a_window_of_seven_witness :
  ∃ report st',
    process_daily_sales (λ _, 1%Q) initialize_game = Some (report, st') ∧
    sales_history st' !! "WATER"
      = Some ([32; 30; 35; 29; 31; 33] ++ [report_units "WATER" report]) ∧
    ∀ k h, sales_history st' !! k = Some h →
           length h = 7%nat ∧ Forall (λ x, 0 ≤ x) h.
Proof.
  destruct (proj2 (history_is_a_window_of_seven initialize_game play_init)
              (λ _, 1%Q)) as (r & st' & Hrun & Hh).
  exists r, st'. split; [exact Hrun|]. split.
  - apply (Hh "WATER" 28 [32; 30; 35; 29; 31; 33]);
      [reflexivity|exists water; reflexivity].
  - exact (proj1 (history_is_a_window_of_seven st'
                    (play_day initialize_game (λ _, 1%Q) r st' play_init Hrun))).
Defined.

(** X20. The catalog never changes: in every session of a game the products
    are the three of [create_products], each with its name, price, cost,
    base demand, lead time and order interval, and a stock that is not
    negative; no product is added or removed. *)
Theorem only_the_stock_of_a_product_changes (st : SessionState) :
  playable st →
  ∀ k, match create_products !! k with
       | Some p0 => ∃ n, 0 ≤ n ∧ products st !! k = Some (set_current_stock p0 n)
       | None => products st !! k = None
       end.
Proof.
  intros Hplay k.
  destruct (playable_game_ok st Hplay) as ((_ & _ & _ & Hstock & _) & _ & Hcat & _).
  pose proof (Hcat k) as Hk.
  destruct (create_products !! k) as [p0|] eqn:E;
    destruct (products st !! k) as [p|] eqn:Hp; try done.
  exists (current_stock p). split; [by apply (Hstock k)|].
  simpl in Hk. injection Hk as Hk. f_equal.
  destruct p, p0. unfold set_current_stock in *. simpl in *. congruence.
Qed.

Lemma only_the_stock_of_a_product_changes_witness :
  ∃ n, 0 ≤ n ∧
       products (render_step_1_products true AnswerBread initialize_game) !! "MILK"
         = Some (set_current_stock milk n).
Proof.
  exact (only_the_stock_of_a_product_changes
           (render_step_1_products true AnswerBread initialize_game)
           (play_quiz _ true AnswerBread play_init) "MILK").
Defined.

(** ** The margin of a product *)

(** X21. For a product with a positive price and a cost between 0 and the
    price, [get_margin] returns the share of the price that is not cost, in
    percent: a number between 0 and 100. *)
Theorem margin_is_a_percentage (p : SimpleProduct) :
  (0 < price p)%Q → (0 <= cost p)%Q → (cost p <= price p)%Q →
  ∃ m, get_margin p = Some m ∧ (0 <= m)%Q ∧ (m <= 100)%Q ∧
       (m * price p == 100 * (price p - cost p))%Q.
Proof.
  intros Hprice Hcost Hle. unfold get_margin.
  destruct (Qeq_bool (price p) 0) eqn:E.
  { apply Qeq_bool_eq in E. lra. }
  eexists. split; [reflexivity|].
  assert ((price p - cost p) / price p * 100 * price p
          == 100 * (price p - cost p))%Q as Heq by (field; lra).
  split; [|split; [|exact Heq]].
  - apply Qmult_le_0_compat; [|lra].
    apply Qle_shift_div_l; [done|]. lra.
  - assert ((price p - cost p) / price p <= 1)%Q as H1.
    { apply Qle_shift_div_r; [done|]. lra. }
    lra.
Qed.

Lemma margin_is_a_percentage_witness :
  ∃ m, get_margin bread = Some m ∧ (0 <= m)%Q ∧ (m <= 100)%Q ∧
       (m * 8 == 100 * (8 - 4))%Q.
Proof.
  apply (margin_is_a_percentage bread); reflexivity || discriminate.
Defined.

(** ** Step 5 in a game *)

(** The figures of step 5 in a game. *)
Lemma step_5_figures (st : SessionState) (k : string)
    (p : SimpleProduct) :
  playable st → products st !! k = Some p →
  ∃ figures forecast safety_stock,
    render_step_5_calculate st k = Some figures ∧
    step5_forecast figures = Fin forecast ∧ (0 <= forecast)%R ∧
    step5_safety_stock figures = Fin safety_stock ∧ (0 <= safety_stock)%R ∧
    step5_reorder_point figures
      = Fin (forecast * IZR (lead_time p) + safety_stock) ∧
    (step5_should_order figures = true
     ↔ (IZR (current_stock p) <= forecast * IZR (lead_time p) + safety_stock)%R).
Proof.
  intros Hplay Hp.
  destruct (playable_game_ok st Hplay)
    as (((Hkeys & _) & _) & Hhist & Hcat & (He1 & He2) & _).
  destruct (Hkeys k) as [h Hh]; [by eexists|].
  destruct (Hhist k h Hh) as [Hlen Hall].
  assert (h ≠ []) as Hne by (by destruct h).
  destruct (demand_stats_spec st k h Hh Hne Hall)
    as (m & s & c & Hstats & Hm & Hs & _).
  destruct (catalog_facts (products st) k p Hcat Hp) as (_ & _ & _ & HL).
  set (sl := default (95 / 100)%R (player_service_levels st !! k)).
  assert (80 / 100 <= sl <= 99 / 100)%R as Hsl.
  { unfold sl. destruct (player_service_levels st !! k) as [x|] eqn:E; simpl.
    - by apply (He2 k).
    - lra. }
  set (f := match player_predictions st !! k with Some f => f | None => m end).
  assert (0 <= f)%R as Hf.
  { unfold f. destruct (player_predictions st !! k) as [x|] eqn:E; [|done].
    by apply (He1 k). }
  assert (0 <= safety_stock_value sl s (lead_time p))%R as Hss.
  { unfold safety_stock_value. apply Rmult_le_pos; [|apply sqrt_pos].
    apply Rmult_le_pos; [|done]. apply normal_quantile_nonneg. lra. }
  unfold render_step_5_calculate. rewrite Hp. simpl. rewrite Hstats. simpl.
  fold sl. rewrite (safety_stock_formula_inside sl s (lead_time p)) by lra || lia.
  simpl. exists
    (mkStep5 (Fin f) (Fin (safety_stock_value sl s (lead_time p)))
       (Fin (f * IZR (lead_time p) + safety_stock_value sl s (lead_time p)))
       (int_le_float (current_stock p)
          (Fin (f * IZR (lead_time p) + safety_stock_value sl s (lead_time p))))),
    f, (safety_stock_value sl s (lead_time p)).
  split.
  { unfold f. by destruct (player_predictions st !! k). }
  simpl. do 5 (split; [done|]).
  destruct (Rle_dec _ _); split; (done || lra).
Qed.

(** X22. In every session of a game step 5 computes its figures for each
    product without raising: the forecast is a number that is not negative
    (the player's entry, or the mean of the history), the safety stock is a
    number that is not negative (the service level is at least 80 percent,
    or the default 0.95), the reorder point is their combination
    [forecast * lead_time + safety_stock], and an order is due exactly when
    the stock does not exceed it. *)
Theorem step_5_always_computes (st : SessionState) (k : string)
    (p : SimpleProduct) :
  playable st → products st !! k = Some p →
  ∃ figures forecast safety_stock,
    render_step_5_calculate st k = Some figures ∧
    step5_forecast figures = Fin forecast ∧ (0 <= forecast)%R ∧
    step5_safety_stock figures = Fin safety_stock ∧ (0 <= safety_stock)%R ∧
    step5_reorder_point figures
      = Fin (forecast * IZR (lead_time p) + safety_stock) ∧
    (step5_should_order figures = true
     ↔ (IZR (current_stock p) <= forecast * IZR (lead_time p) + safety_stock)%R).
Proof. apply step_5_figures. Qed.

Lemma step_5_always_computes_witness :
  ∃ figures forecast safety_stock,
    render_step_5_calculate initialize_game "WATER" = Some figures ∧
    step5_forecast figures = Fin forecast ∧ (0 <= forecast)%R ∧
    step5_safety_stock figures = Fin safety_stock ∧ (0 <= safety_stock)%R ∧
    step5_reorder_point figures = Fin (forecast * 3 + safety_stock) ∧
    (step5_should_order figures = true
     ↔ (120 <= forecast * 3 + safety_stock)%R).
Proof.
  exact (step_5_always_computes initialize_game "WATER" water play_init eq_refl).
Defined.

(** ** The report page and the grade *)

(** X23. In every session of a game the profit margin step 8 shows is a
    percentage between 0 and 100: the accumulated profit is never negative
    and never exceeds the accumulated revenue. *)
Theorem profit_margin_is_a_percentage (st : SessionState) :
  playable st →
  (0 <= render_step_8_margin st)%Q ∧ (render_step_8_margin st <= 100)%Q.
Proof.
  intros Hplay.
  destruct (playable_game_ok st Hplay) as (_ & _ & _ & _ & (Hp & Hr & _) & _).
  unfold render_step_8_margin.
  destruct (Qlt_le_dec 0 (total_revenue st)) as [Hpos|_]; [|split; lra].
  split.
  - apply Qmult_le_0_compat; [|lra]. apply Qle_shift_div_l; [done|]. lra.
  - assert (total_profit st / total_revenue st <= 1)%Q as H1.
    { apply Qle_shift_div_r; [done|]. lra. }
    lra.
Qed.

(** After the first day of a fresh game the revenue is positive, and the
    margin shown is the profit over the revenue, between 0 and 100. *)
Lemma profit_margin_is_a_percentage_witness :
  ∃ report st',
    process_daily_sales (λ _, 1%Q) initialize_game = Some (report, st') ∧
    (0 < total_revenue st')%Q ∧
    (0 <= render_step_8_margin st')%Q ∧ (render_step_8_margin st' <= 100)%Q.
Proof.
  destruct (process_daily_sales (λ _, 1%Q) initialize_game)
    as [[r st']|] eqn:Hrun; [|vm_compute in Hrun; discriminate].
  exists r, st'. split; [reflexivity|].
  pose proof (play_day initialize_game (λ _, 1%Q) r st' play_init Hrun) as Hplay.
  split; [|exact (profit_margin_is_a_percentage st' Hplay)].
  clear Hplay. vm_compute in Hrun. injection Hrun as _ <-.
  vm_compute. reflexivity.
Defined.

(** X24. The forecast error of step 8 never divides by zero in a game: every
    report of the log has a line for each product with a demand of at least
    one unit, so the error is a number, not negative, and 0 exactly for a
    forecast equal to that demand. *)
Theorem forecast_error_is_always_defined (st : SessionState) (report : Report)
    (k : string) (pred : R) :
  playable st → report ∈ daily_reports st → is_Some (products st !! k) →
  ∃ line error,
    report_sales report !! k = Some line ∧ 1 ≤ sale_demand line ∧
    render_step_8_error report k pred = Some error ∧
    (0 <= error)%R ∧
    (error = 0%R ↔ pred = IZR (sale_demand line)).
Proof.
  intros Hplay Hin Hk.
  destruct (playable_game_ok st Hplay) as (_ & _ & Hcat & _ & _ & Hrep).
  unfold reports_ok in Hrep. rewrite Forall_forall in Hrep.
  apply (catalog_present _ k Hcat) in Hk.
  destruct (Hrep report Hin k Hk) as (line & Hline & Hd).
  unfold render_step_8_error. rewrite Hline. simpl.
  rewrite decide_False by lia.
  assert (1 <= IZR (sale_demand line))%R as Hd' by (by apply IZR_le).
  set (d := IZR (sale_demand line)) in *.
  exists line, (Rabs (pred - d) / d * 100)%R. fold d.
  split; [done|]. split; [done|]. split; [done|].
  pose proof (Rabs_pos (pred - d)) as Habs.
  assert (0 < / d)%R as Hinv by (apply Rinv_0_lt_compat; lra).
  split.
  - apply Rmult_le_pos; [|lra]. apply Rmult_le_pos; lra.
  - split.
    + intros He. destruct (Req_dec (pred - d) 0) as [|Hnz]; [lra|].
      apply Rabs_pos_lt in Hnz. exfalso.
      assert (0 < Rabs (pred - d) / d * 100)%R; [|lra].
      apply Rmult_lt_0_compat; [|lra]. by apply Rmult_lt_0_compat.
    + intros ->. replace (d - d)%R with 0%R by lra. rewrite Rabs_R0.
      unfold Rdiv. lra.
Qed.

Lemma forecast_error_is_always_defined_witness :
  ∃ report st' line error,
    process_daily_sales (λ _, 1%Q) initialize_game = Some (report, st') ∧
    report_sales report !! "WATER" = Some line ∧ 1 ≤ sale_demand line ∧
    render_step_8_error report "WATER" 30 = Some error ∧
    (0 <= error)%R ∧
    (error = 0%R ↔ 30%R = IZR (sale_demand line)).
Proof.
  destruct (process_daily_sales_spec (λ _, 1%Q) initialize_game
              initialize_game_keys_ok)
    as (r & st' & Hrun & Hp & _ & _ & _ & _ & _ & _ & _ & _ & _ & Hdr).
  exists r, st'.
  destruct (forecast_error_is_always_defined st' r "WATER" 30) as (line & e & H).
  - exact (play_day initialize_game (λ _, 1%Q) r st' play_init Hrun).
  - rewrite Hdr. apply elem_of_app. right. apply list_elem_of_singleton.
    reflexivity.
  - rewrite Hp. exists (arrive None (after_sale (λ _, 1%Q) "WATER" water)).
    reflexivity.
  - exists line, e. split; [exact Hrun|exact H].
Defined.

(** ** The grade *)

Lemma grade_cases (s : Q) :
  (render_step_9_grade s = GradeS ∧ (150 <= s)%Q) ∨
  (render_step_9_grade s = GradeA ∧ (100 <= s)%Q ∧ (s < 150)%Q) ∨
  (render_step_9_grade s = GradeB ∧ (50 <= s)%Q ∧ (s < 100)%Q) ∨
  (render_step_9_grade s = GradeC ∧ (s < 50)%Q).
Proof.
  unfold render_step_9_grade.
  destruct (Qle_bool 150 s) eqn:E1.
  { apply Qle_bool_iff in E1. by left. }
  assert (s < 150)%Q as H1.
  { apply Qnot_le_lt. intros H. apply Qle_bool_iff in H. congruence. }
  destruct (Qle_bool 100 s) eqn:E2.
  { apply Qle_bool_iff in E2. right. by left. }
  assert (s < 100)%Q as H2.
  { apply Qnot_le_lt. intros H. apply Qle_bool_iff in H. congruence. }
  destruct (Qle_bool 50 s) eqn:E3.
  { apply Qle_bool_iff in E3. right. right. by left. }
  assert (s < 50)%Q as H3.
  { apply Qnot_le_lt. intros H. apply Qle_bool_iff in H. congruence. }
  right. right. by right.
Qed.

(** X25. A simulated day without a stockout in a game adds at least 50
    points to a score that is never negative, so after it the grade of
    step 9 is B or better. *)
Theorem stockout_free_day_earns_a_grade (draws : string → Q)
    (st : SessionState) (report : Report) (st' : SessionState) :
  playable st → process_daily_sales draws st = Some (report, st') →
  report_stockouts report = [] →
  (0 <= score st)%Q ∧ (score st + 50 <= score st')%Q ∧
  1 ≤ grade_rank (render_step_9_grade (score st')).
Proof.
  intros Hplay Hrun Hout.
  destruct (playable_game_ok st Hplay)
    as ((Hkeys & _) & _ & _ & _ & (_ & _ & Hsc) & _).
  destruct (process_daily_sales_spec draws st Hkeys)
    as (r & s & Hrun' & _ & _ & _ & _ & _ & _ & Htoday & _ & Hscore & _).
  rewrite Hrun in Hrun'. injection Hrun' as <- <-.
  assert (50 <= score_today report)%Q as H50.
  { rewrite Htoday, Hout. unfold daily_score.
    destruct (Qlt_le_dec 0 (report_profit report)); lra. }
  assert (score st + 50 <= score st')%Q as Hup by (rewrite Hscore; lra).
  split; [done|]. split; [done|].
  destruct (grade_cases (score st'))
    as [[-> ?]|[(-> & ? & ?)|[(-> & ? & ?)|[-> ?]]]]; simpl; (lia || (exfalso; lra)).
Qed.

Lemma stockout_free_day_earns_a_grade_witness :
  ∃ report st',
    process_daily_sales (λ _, 1%Q) initialize_game = Some (report, st') ∧
    (0 <= score initialize_game)%Q ∧
    (score initialize_game + 50 <= score st')%Q ∧
    1 ≤ grade_rank (render_step_9_grade (score st')).
Proof.
  destruct (process_daily_sales_spec (λ _, 1%Q) initialize_game
              initialize_game_keys_ok)
    as (r & st' & Hrun & _ & _ & _ & _ & _ & Hout & _).
  exists r, st'. split; [exact Hrun|].
  apply (stockout_free_day_earns_a_grade (λ _, 1%Q) initialize_game r st').
  - exact play_init.
  - exact Hrun.
  - apply Hout. intros k p Hp. simpl in Hp. unfold create_products in Hp.
    apply lookup_insert_Some in Hp as [[_ <-]|[_ Hp]]; [vm_compute; discriminate|].
    apply lookup_insert_Some in Hp as [[_ <-]|[_ Hp]]; [vm_compute; discriminate|].
    apply lookup_insert_Some in Hp as [[_ <-]|[_ Hp]]; [vm_compute; discriminate|].
    rewrite lookup_empty in Hp. discriminate.
Defined.

(** ** The quiz *)

(** X26. The quiz of step 1 can be submitted again and again: each correct
    submission adds 10 points and changes nothing else, so [n] of them add
    [10 * n], and fifteen of them reach the grade S of step 9 from any
    score that is not negative, without a single simulated day. *)
Theorem quiz_bonus_has_no_limit (n : nat) (st : SessionState) :
  (0 <= score st)%Q →
  let st' := Nat.iter n (render_step_1_products true AnswerBread) st in
  (score st' == score st + 10 * inject_Z (Z.of_nat n))%Q ∧
  daily_reports st' = daily_reports st ∧
  products st' = products st ∧
  cash st' = cash st ∧
  (playable st → playable st') ∧
  ((15 ≤ n)%nat → render_step_9_grade (score st') = GradeS).
Proof.
  intros Hsc. simpl.
  assert ((score (Nat.iter n (render_step_1_products true AnswerBread) st)
             == score st + 10 * inject_Z (Z.of_nat n))%Q ∧
          daily_reports (Nat.iter n (render_step_1_products true AnswerBread) st)
             = daily_reports st ∧
          products (Nat.iter n (render_step_1_products true AnswerBread) st)
             = products st ∧
          cash (Nat.iter n (render_step_1_products true AnswerBread) st)
             = cash st ∧
          (playable st →
           playable (Nat.iter n (render_step_1_products true AnswerBread) st)))
    as (H1 & H2 & H3 & H4 & H5).
  { induction n as [|n (IH1 & IH2 & IH3 & IH4 & IH5)].
    - simpl. split; [ring|done].
    - rewrite Nat.iter_succ. simpl score. simpl daily_reports.
      simpl products. simpl cash. rewrite IH1, IH2, IH3, IH4.
      split; [|split; [done|split; [done|split; [done|]]]].
      + rewrite Nat2Z.inj_succ. unfold Z.succ. rewrite inject_Z_plus. ring.
      + intros Hp. apply play_quiz. by apply IH5. }
  do 4 (split; [done|]). split; [done|]. intros Hn.
  assert (150 <= score (Nat.iter n (render_step_1_products true AnswerBread) st))%Q
    as H150.
  { rewrite H1. assert (15 <= inject_Z (Z.of_nat n))%Q as H15.
    { change 15%Q with (inject_Z 15). rewrite <- Zle_Qle. lia. }
    lra. }
  destruct (grade_cases (score (Nat.iter n (render_step_1_products true AnswerBread) st)))
    as [[-> ?]|[(_ & ? & ?)|[(_ & ? & ?)|[_ ?]]]]; [done|exfalso; lra..].
Qed.

Lemma quiz_bonus_has_no_limit_witness :
  (score (Nat.iter 15 (render_step_1_products true AnswerBread) initialize_game)
     == 0 + 10 * inject_Z 15)%Q ∧
  daily_reports (Nat.iter 15 (render_step_1_products true AnswerBread) initialize_game)
    = [] ∧
  products (Nat.iter 15 (render_step_1_products true AnswerBread) initialize_game)
    = create_products ∧
  cash (Nat.iter 15 (render_step_1_products true AnswerBread) initialize_game)
    = 10000%Q ∧
  (playable initialize_game →
   playable (Nat.iter 15 (render_step_1_products true AnswerBread) initialize_game)) ∧
  ((15 ≤ 15)%nat →
   render_step_9_grade
     (score (Nat.iter 15 (render_step_1_products true AnswerBread) initialize_game))
     = GradeS).
Proof.
  apply (quiz_bonus_has_no_limit 15 initialize_game). discriminate.
Defined.

(** ** The keys of the dictionaries in a game *)

Lemma playable_history_keys st :
  playable st →
  ∀ k, is_Some (sales_history st !! k) → is_Some (products st !! k).
Proof.
  induction 1 as [|st c a _ IH|st k v _ IH Hk Hv|st k v _ IH Hk Hv
                  |st k qty _ IH Hk Hq|st c o st' Hplay IH Hrun
                  |st d r st' Hplay IH Hrun|st _ IH].
  - intros k [h Hk]. simpl in *. unfold create_sales_history in Hk.
    unfold create_products.
    apply lookup_insert_Some in Hk as [[<- _]|[_ Hk]]; [by eexists|].
    apply lookup_insert_Some in Hk as [[<- _]|[_ Hk]]; [by eexists|].
    apply lookup_insert_Some in Hk as [[<- _]|[_ Hk]]; [by eexists|].
    by rewrite lookup_empty in Hk.
  - unfold render_step_1_products. by destruct c; [destruct a|].
  - unfold render_step_4_prediction. by destruct v.
  - unfold render_step_4_service_level. by destruct v.
  - exact IH.
  - destruct (render_step_6_order_frame c st o st' Hrun)
      as (_ & _ & Hp & Hh & _). by rewrite Hp, Hh.
  - destruct (playable_game_ok st Hplay) as ((Hkeys & _) & _).
    destruct (process_daily_sales_spec d st Hkeys)
      as (r1 & s1 & Hrun1 & Hp & _ & Hh & _).
    rewrite Hrun in Hrun1. injection Hrun1 as <- <-.
    intros k Hk. rewrite Hh in Hk. rewrite Hp.
    destruct (products st !! k) as [p|] eqn:E; [by eexists|].
    apply IH in Hk. rewrite E in Hk. by destruct Hk.
  - exact IH.
Qed.

Lemma playable_sizes st :
  playable st →
  (size (products st) ≤ 3)%nat ∧ (size (sales_history st) ≤ 3)%nat.
Proof.
  intros Hplay.
  destruct (playable_game_ok st Hplay) as (_ & _ & Hcat & _).
  assert (size (products st) = 3%nat) as Hsize.
  { rewrite <- (map_size_fmap (λ p, set_current_stock p 0) (products st)).
    assert ((λ p, set_current_stock p 0) <$> products st
            = (λ p, set_current_stock p 0) <$> create_products) as ->.
    { apply map_eq. intros k. rewrite !lookup_fmap. apply Hcat. }
    rewrite map_size_fmap. reflexivity. }
  split; [lia|]. rewrite <- Hsize.
  rewrite <- (size_dom (D := gset string) (sales_history st)).
  rewrite <- (size_dom (D := gset string) (products st)).
  apply subseteq_size. intros k Hk.
  apply elem_of_dom in Hk. apply elem_of_dom.
  by apply playable_history_keys.
Qed.

(** ** The wizard *)

Lemma display_each_ok {A} (body : string → A → option unit) (m : gmap string A) :
  (∀ k x, m !! k = Some x → body k x = Some tt) →
  display_each body m = Some tt.
Proof.
  unfold display_each.
  pose (P := λ (r : option unit) (m : gmap string A),
       (∀ k x, m !! k = Some x → body k x = Some tt) → r = Some tt).
  assert (∀ m, P (map_fold (λ k x acc, _ ← acc; body k x) (Some tt) m) m) as H.
  { apply (map_fold_weak_ind P); unfold P; [done|].
    intros i x m' r Hi IH Hall. rewrite IH.
    - simpl. apply Hall. by rewrite lookup_insert_eq.
    - intros k y Hk. apply Hall. rewrite lookup_insert_ne; [done|].
      intros ->. congruence. }
  apply H.
Qed.

Lemma playable_stats st k :
  playable st → is_Some (products st !! k) →
  is_Some (calculate_demand_stats st k).
Proof.
  intros Hplay Hk.
  destruct (playable_game_ok st Hplay) as (((Hkeys & _) & _) & _).
  destruct (Hkeys k Hk) as [h Hh].
  unfold calculate_demand_stats. rewrite Hh. by eexists.
Qed.

Lemma display_step_1_ok st : playable st → display_step_1 st = Some tt.
Proof.
  intros Hplay. unfold display_step_1, three_columns.
  destruct (playable_sizes st Hplay) as [Hsize _].
  rewrite decide_True by done. simpl.
  apply display_each_ok. intros k p Hp.
  destruct (playable_game_ok st Hplay) as (_ & _ & Hcat & _).
  destruct (catalog_facts _ k p Hcat Hp) as (Hcost & Hprice & _).
  unfold get_margin. destruct (Qeq_bool (price p) 0) eqn:E; [|done].
  apply Qeq_bool_eq in E. lra.
Qed.

Lemma display_step_2_ok st : playable st → display_step_2 st = Some tt.
Proof.
  intros Hplay. apply display_each_ok. intros k p Hp.
  destruct (playable_stats st k Hplay) as [s Hs]; [by eexists|].
  unfold render_step_2_inventory. rewrite Hp. simpl. by rewrite Hs.
Qed.

Lemma display_step_3_ok st : playable st → display_step_3 st = Some tt.
Proof.
  intros Hplay. unfold display_step_3.
  rewrite display_each_ok.
  - simpl. unfold three_columns.
    destruct (playable_sizes st Hplay) as [_ Hsize].
    by rewrite decide_True by done.
  - intros k h Hh.
    destruct (playable_history_keys st Hplay k) as [p Hp]; [by eexists|].
    rewrite Hp. simpl.
    destruct (playable_stats st k Hplay) as [s Hs]; [by eexists|].
    by rewrite Hs.
Qed.

Lemma display_step_8_ok st : playable st → display_step_8 st = Some tt.
Proof.
  intros Hplay. unfold display_step_8.
  destruct (last (daily_reports st)) as [report|] eqn:Hlast; [|done].
  apply display_each_ok. intros k p Hp.
  destruct (playable_stats st k Hplay) as [s Hs]; [by eexists|].
  rewrite Hs. simpl.
  destruct (playable_game_ok st Hplay) as (_ & _ & Hcat & _ & _ & Hrep).
  assert (∀ pred, is_Some (render_step_8_error report k pred)) as Herr.
  { intros pred. unfold reports_ok in Hrep. rewrite Forall_forall in Hrep.
    assert (report ∈ daily_reports st) as Hin.
    { apply last_Some in Hlast as [l ->]. apply elem_of_app. right.
      by apply list_elem_of_singleton. }
    destruct (Hrep report Hin k) as (line & Hline & Hd).
    { apply (catalog_present _ k Hcat). by eexists. }
    unfold render_step_8_error. rewrite Hline. simpl.
    rewrite decide_False by lia. by eexists. }
  destruct (player_predictions st !! k) as [pred|].
  - destruct (Herr pred) as [e ->]. simpl.
    destruct (player_orders st !! k) as [q|]; [|done].
    destruct (decide (0 < q)); [|done].
    destruct (catalog_facts _ k p Hcat Hp) as (_ & _ & _ & HL).
    unfold math_sqrt. by rewrite decide_True by lia.
  - simpl. destruct (player_orders st !! k) as [q|]; [|done].
    destruct (decide (0 < q)); [|done].
    destruct (catalog_facts _ k p Hcat Hp) as (_ & _ & _ & HL).
    unfold math_sqrt. by rewrite decide_True by lia.
Qed.

Lemma render_step_4_predict_spec (w : Widgets) (st : SessionState) :
  widgets_ok w → playable st →
  ∃ st', render_step_4_predict w st = Some st' ∧
    playable st' ∧
    products st' = products st ∧
    order_submitted st' = order_submitted st ∧
    daily_reports st' = daily_reports st ∧
    player_orders st' = player_orders st ∧
    (∀ k, player_predictions st' !! k
          = if decide (is_Some (products st !! k))
            then from_option Some (player_predictions st !! k) (forecast_input w k)
            else player_predictions st !! k) ∧
    (∀ k, player_service_levels st' !! k
          = if decide (is_Some (products st !! k))
            then from_option (λ pct, Some (IZR pct / 100)%R)
                   (player_service_levels st !! k) (service_input w k)
            else player_service_levels st !! k).
Proof.
  intros (Hf & Hs & _) Hplay. unfold render_step_4_predict.
  pose (P := λ (r : option SessionState) (m : gmap string SimpleProduct),
       (∀ k, is_Some (m !! k) → is_Some (products st !! k)) →
       ∃ st', r = Some st' ∧ playable st' ∧ products st' = products st ∧
         order_submitted st' = order_submitted st ∧
         daily_reports st' = daily_reports st ∧
         player_orders st' = player_orders st ∧
         (∀ k, player_predictions st' !! k
               = if decide (is_Some (m !! k))
                 then from_option Some (player_predictions st !! k)
                        (forecast_input w k)
                 else player_predictions st !! k) ∧
         (∀ k, player_service_levels st' !! k
               = if decide (is_Some (m !! k))
                 then from_option (λ pct, Some (IZR pct / 100)%R)
                        (player_service_levels st !! k) (service_input w k)
                 else player_service_levels st !! k)).
  assert (∀ m, P (map_fold (render_step_4_product w) (Some st) m) m) as Hfold.
  { apply (map_fold_weak_ind P); unfold P.
    - intros _. exists st. do 6 (split; [done|]).
      split; intros k; rewrite lookup_empty;
        (rewrite decide_False; [done|by intros [? ?]]).
    - intros i x m r Hi IH Hsub.
      destruct IH as (r1 & -> & Hp & Hprods & Hos & Hdr & Hpo & Hpp & Hsl).
      { intros k Hk. apply Hsub. destruct (decide (i = k)) as [->|Hne].
        - by rewrite lookup_insert_eq.
        - by rewrite lookup_insert_ne. }
      assert (is_Some (products r1 !! i)) as Hir.
      { rewrite Hprods. apply Hsub. by rewrite lookup_insert_eq. }
      destruct (playable_stats r1 i Hp Hir) as [s Hstats].
      unfold render_step_4_product. simpl. rewrite Hstats. simpl.
      set (r2 := render_step_4_prediction i (forecast_input w i) r1).
      assert (playable r2) as Hp2.
      { apply play_forecast; [done|done|]. intros f Hfi. by apply (Hf i). }
      assert (products r2 = products r1) as Hprods2.
      { unfold r2, render_step_4_prediction. by destruct (forecast_input w i). }
      eexists. split; [reflexivity|]. split.
      { apply play_service; [done|by rewrite Hprods2|].
        intros pct Hpct. by apply (Hs i). }
      assert (m !! i = None → ¬ is_Some (m !! i)) as Hnot
        by (intros E [? ?]; congruence).
      unfold r2, render_step_4_service_level, render_step_4_prediction.
      destruct (service_input w i) as [pct|] eqn:Hpct,
               (forecast_input w i) as [f|] eqn:Hfi;
        simpl; (split; [done|]); (split; [done|]); (split; [done|]);
        (split; [done|]); split; intros k;
        (destruct (decide (i = k)) as [<-|Hne];
         [rewrite ?lookup_insert_eq; rewrite decide_True by (by eexists);
          rewrite ?Hpp, ?Hsl, ?Hpct, ?Hfi; simpl;
          rewrite ?decide_False by (by apply Hnot); done
         |rewrite ?lookup_insert_ne by done;
          rewrite ?Hpp, ?Hsl; done]). }
  destruct (Hfold (products st)) as (st' & H); [done|]. by exists st'.
Qed.

Lemma render_step_5_calculate_ext (st1 st2 : SessionState) (k : string) :
  products st1 = products st2 → sales_history st1 = sales_history st2 →
  player_predictions st1 = player_predictions st2 →
  player_service_levels st1 = player_service_levels st2 →
  render_step_5_calculate st1 k = render_step_5_calculate st2 k.
Proof.
  intros H1 H2 H3 H4. unfold render_step_5_calculate, calculate_demand_stats.
  by rewrite H1, H2, H3, H4.
Qed.

Lemma render_step_5_page_spec (w : Widgets) (wz : Wizard) :
  widgets_ok w → playable (session wz) →
  ∃ wz', render_step_5_page w wz = Some wz' ∧
    playable (session wz') ∧
    current_step wz' = current_step wz ∧
    simulation_run wz' = simulation_run wz ∧
    order_submitted (session wz') = order_submitted (session wz) ∧
    daily_reports (session wz') = daily_reports (session wz) ∧
    player_predictions (session wz') = player_predictions (session wz) ∧
    player_service_levels (session wz') = player_service_levels (session wz) ∧
    (∀ k qty, player_orders (session wz') !! k = Some qty → 0 < qty →
              products_need_order wz' !! k = Some true) ∧
    (∀ k, is_Some (products (session wz) !! k) →
          ∃ figures,
            render_step_5_calculate (session wz) k = Some figures ∧
            products_need_order wz' !! k = Some (step5_should_order figures) ∧
            player_orders (session wz') !! k
              = entry_after_step_5 (step5_should_order figures)
                  (order_input w k) (player_orders (session wz) !! k)).
Proof.
  intros (_ & _ & Hq) Hplay. unfold render_step_5_page.
  set (st := session wz).
  pose (P := λ (r : option Wizard) (m : gmap string SimpleProduct),
       (∀ k, is_Some (m !! k) → is_Some (products st !! k)) →
       ∃ wz', r = Some wz' ∧ playable (session wz') ∧
         current_step wz' = current_step wz ∧
         simulation_run wz' = simulation_run wz ∧
         products (session wz') = products st ∧
         sales_history (session wz') = sales_history st ∧
         order_submitted (session wz') = order_submitted st ∧
         daily_reports (session wz') = daily_reports st ∧
         player_predictions (session wz') = player_predictions st ∧
         player_service_levels (session wz') = player_service_levels st ∧
         (∀ k, is_Some (m !! k) →
               ∃ figures,
                 render_step_5_calculate st k = Some figures ∧
                 products_need_order wz' !! k = Some (step5_should_order figures) ∧
                 player_orders (session wz') !! k
                   = entry_after_step_5 (step5_should_order figures)
                       (order_input w k) (player_orders st !! k)) ∧
         (∀ k, m !! k = None →
               player_orders (session wz') !! k = player_orders st !! k)).
  assert (∀ m, P (map_fold (render_step_5_product w)
                    (Some (mkWizard st (current_step wz) (simulation_run wz) ∅)) m) m)
    as Hfold.
  { apply (map_fold_weak_ind P); unfold P.
    - intros _. eexists. split; [reflexivity|]. simpl.
      do 9 (split; [done|]). split; [|done].
      intros k Hk. rewrite lookup_empty in Hk. by destruct Hk.
    - intros i x m r Hi IH Hsub.
      destruct IH as (wz1 & -> & Hp & Hstep & Hsim & Hprods & Hhist & Hos & Hdr
                      & Hpp & Hsl & Hin & Hout).
      { intros k Hk. apply Hsub. destruct (decide (i = k)) as [->|Hne].
        - by rewrite lookup_insert_eq.
        - by rewrite lookup_insert_ne. }
      assert (is_Some (products (session wz1) !! i)) as [p Hpi].
      { rewrite Hprods. apply Hsub. by rewrite lookup_insert_eq. }
      destruct (step_5_figures (session wz1) i p Hp Hpi) as (fig & _ & _ & Hfig & _).
      pose proof Hfig as Hfig0.
      rewrite (render_step_5_calculate_ext _ st i Hprods Hhist Hpp Hsl) in Hfig0.
      unfold render_step_5_product. simpl. rewrite Hfig. simpl.
      destruct (step5_should_order fig) eqn:Hdue.
      + eexists. split; [reflexivity|]. simpl.
        assert (playable match order_input w i with
                         | Some qty => enter_order i qty (session wz1)
                         | None => session wz1
                         end) as Hp'.
        { destruct (order_input w i) as [qty|] eqn:E; [|done].
          apply play_enter; [done|by eexists|by apply (Hq i)]. }
        split; [done|]. split; [done|]. split; [done|].
        destruct (order_input w i) as [qty|] eqn:Hinput; simpl;
          (do 6 (split; [done|])); split.
        * intros k Hk. destruct (decide (i = k)) as [<-|Hne].
          -- exists fig. rewrite !lookup_insert_eq, Hdue, Hinput. done.
          -- rewrite lookup_insert_ne in Hk by done.
             rewrite !lookup_insert_ne by done. by apply Hin.
        * intros k Hk. apply lookup_insert_None in Hk as [Hk Hne].
          rewrite lookup_insert_ne by done. by apply Hout.
        * intros k Hk. destruct (decide (i = k)) as [<-|Hne].
          -- exists fig. rewrite lookup_insert_eq, Hdue, Hinput. simpl.
             split; [done|]. split; [done|]. by apply Hout.
          -- rewrite lookup_insert_ne in Hk by done.
             rewrite lookup_insert_ne by done. by apply Hin.
        * intros k Hk. apply lookup_insert_None in Hk as [Hk Hne]. by apply Hout.
      + eexists. split; [reflexivity|]. simpl.
        split; [apply play_enter; [done|by eexists|lia]|].
        do 8 (split; [done|]). split.
        * intros k Hk. destruct (decide (i = k)) as [<-|Hne].
          -- exists fig. rewrite !lookup_insert_eq, Hdue. done.
          -- rewrite lookup_insert_ne in Hk by done.
             rewrite !lookup_insert_ne by done. by apply Hin.
        * intros k Hk. apply lookup_insert_None in Hk as [Hk Hne].
          rewrite lookup_insert_ne by done. by apply Hout. }
  destruct (Hfold (products st))
    as (wz' & Hrun & Hp & Hstep & Hsim & Hprods & Hhist & Hos & Hdr & Hpp & Hsl
        & Hin & Hout); [done|].
  exists wz'. split; [exact Hrun|]. do 7 (split; [done|]). split; [|exact Hin].
  intros k qty Hk Hpos.
  destruct (products st !! k) as [p|] eqn:Hpk.
  - destruct (Hin k) as (fig & _ & Hneed & Hentry); [by rewrite Hpk|].
    rewrite Hentry in Hk. rewrite Hneed. f_equal.
    destruct (step5_should_order fig); [done|]. simpl in Hk.
    injection Hk as <-. lia.
  - rewrite (Hout k Hpk) in Hk.
    destruct (playable_game_ok st Hplay) as ((_ & Hord & _) & _).
    destruct (Hord k qty Hk) as [_ [p Hp']]. congruence.
Qed.

Lemma quiz_frame clicked answer st :
  order_submitted (render_step_1_products clicked answer st) = order_submitted st ∧
  daily_reports (render_step_1_products clicked answer st) = daily_reports st ∧
  player_predictions (render_step_1_products clicked answer st)
    = player_predictions st ∧
  player_service_levels (render_step_1_products clicked answer st)
    = player_service_levels st ∧
  player_orders (render_step_1_products clicked answer st) = player_orders st.
Proof. unfold render_step_1_products. by destruct clicked; [destruct answer|]. Qed.

Lemma render_step_7_run_spec (w : Widgets) (wz : Wizard) :
  playable (session wz) →
  ∃ wz', render_step_7_run w wz = Some wz' ∧ playable (session wz') ∧
    current_step wz' = current_step wz ∧
    products_need_order wz' = products_need_order wz ∧
    order_submitted (session wz') = order_submitted (session wz) ∧
    player_predictions (session wz') = player_predictions (session wz) ∧
    player_service_levels (session wz') = player_service_levels (session wz) ∧
    player_orders (session wz') = player_orders (session wz) ∧
    (simulation_run wz = true → simulation_run wz' = true) ∧
    (simulation_run wz' = true →
       simulation_run wz = true ∨ daily_reports (session wz') ≠ []) ∧
    (daily_reports (session wz) ≠ [] → daily_reports (session wz') ≠ []).
Proof.
  intros Hplay. unfold render_step_7_run.
  rewrite display_each_ok.
  2: { intros k p Hp. destruct (playable_stats _ k Hplay) as [s ->]; [|done].
       by eexists. }
  simpl. destruct (run_clicked w).
  - destruct (playable_game_ok _ Hplay) as ((Hkeys & _) & _).
    destruct (process_daily_sales_report (uniform_draws w) (session wz) Hkeys)
      as (r & st' & Hrun & Hsales & _ & _ & _ & _ & _ & _ & _ & _ & _ & _ & _ & _
          & Hdr & Hpo & Hpp & Hsl & Hos).
    destruct (process_daily_sales_spec (uniform_draws w) (session wz) Hkeys)
      as (r1 & s1 & Hrun1 & Hprods & _).
    rewrite Hrun in Hrun1. injection Hrun1 as <- <-.
    pose proof (play_day _ _ r st' Hplay Hrun) as Hplay'.
    rewrite Hrun. simpl. rewrite display_each_ok.
    2: { intros k e He. rewrite Hsales in He.
         destruct (products (session wz) !! k) as [p|] eqn:Hp; [|done].
         assert (is_Some (products st' !! k)) as [p' Hp'].
         { rewrite Hprods, Hp. by eexists. }
         rewrite Hp'. simpl.
         destruct (playable_stats st' k Hplay') as [s ->]; [by eexists|]. done. }
    simpl. eexists. split; [reflexivity|]. simpl.
    do 7 (split; [done|]). split; [done|].
    split; [|intros _]; rewrite Hdr.
    + intros _. right. by destruct (daily_reports (session wz)).
    + by destruct (daily_reports (session wz)).
  - exists wz. split; [done|]. do 8 (split; [done|]). split; [by left|done].
Qed.

Lemma render_page_spec (w : Widgets) (wz : Wizard) :
  widgets_ok w → playable (session wz) → wizard_ok wz →
  ∃ wz', render_page w wz = Some wz' ∧ playable (session wz') ∧
         current_step wz' = current_step wz ∧ wizard_ok wz'.
Proof.
  intros Hw Hplay (Hrange & Hsub & Hsim & Hrep & Hent & Hdue).
  unfold render_page.
  destruct (decide (current_step wz = 1)) as [E1|_].
  { destruct (quiz_frame (quiz_clicked w) (quiz_answer w) (session wz))
      as (Hos & Hdr & Hpp & Hsl & Hpo).
    rewrite (display_step_1_ok _ Hplay). simpl.
    eexists. split; [reflexivity|]. split; [by apply play_quiz|]. split; [done|].
    unfold wizard_ok. simpl. rewrite Hos, Hdr, Hpp, Hsl, Hpo. done. }
  destruct (decide (current_step wz = 2)) as [E2|_].
  { rewrite (display_step_2_ok _ Hplay). simpl. by exists wz. }
  destruct (decide (current_step wz = 3)) as [E3|_].
  { rewrite (display_step_3_ok _ Hplay). simpl. by exists wz. }
  destruct (decide (current_step wz = 4)) as [E4|_].
  { destruct (render_step_4_predict_spec w (session wz) Hw Hplay)
      as (st' & Hrun & Hp & _ & Hos & Hdr & Hpo & Hpp & Hsl).
    rewrite Hrun. simpl.
    eexists. split; [reflexivity|]. split; [done|]. split; [done|].
    unfold wizard_ok. simpl. rewrite Hos, Hdr, Hpo.
    split; [done|]. split; [done|]. split; [done|]. split; [done|].
    split; [|done]. intros H5. lia. }
  destruct (decide (current_step wz = 5)) as [E5|_].
  { destruct (render_step_5_page_spec w wz Hw Hplay)
      as (wz' & Hrun & Hp & Hstep & Hsim' & Hos & Hdr & Hpp & Hsl & Hdue' & _).
    exists wz'. split; [done|]. split; [done|]. split; [done|].
    unfold wizard_ok. rewrite Hstep, Hsim', Hos, Hdr, Hpp, Hsl. done. }
  destruct (decide (current_step wz = 6)) as [E6|_].
  { destruct (playable_game_ok _ Hplay) as ((_ & Hord & _) & _).
    destruct (render_step_6_order_cases (confirm_clicked w) (session wz))
      as (tc & pend & _ & _ & Hcases).
    { intros k qty Hk. by destruct (Hord k qty Hk). }
    assert (∃ outcome st', render_step_6_order (confirm_clicked w) (session wz)
                             = Some (outcome, st')) as (o & st' & Hrun).
    { destruct Hcases as [[_ ->]|[_ ->]]; [by eexists _, _|].
      destruct (Qle_bool _ _); [destruct (confirm_clicked w)|]; by eexists _, _. }
    destruct (render_step_6_order_frame _ _ _ _ Hrun)
      as (Hpp & Hsl & _ & _ & _ & _ & _ & _ & Hdr & Hpo & _).
    rewrite Hrun. simpl. eexists. split; [reflexivity|].
    split; [exact (play_order _ _ o st' Hplay Hrun)|]. split; [done|].
    unfold wizard_ok. simpl. rewrite Hpp, Hsl, Hdr, Hpo.
    split; [done|]. split; [lia|]. done. }
  destruct (decide (current_step wz = 7)) as [E7|_].
  { destruct (render_step_7_run_spec w wz Hplay)
      as (wz' & Hrun & Hp & Hstep & Hneed & Hos & Hpp & Hsl & Hpo & Hs1 & Hs2 & Hd).
    exists wz'. split; [done|]. split; [done|]. split; [done|].
    unfold wizard_ok. rewrite Hstep, Hneed, Hos, Hpp, Hsl, Hpo.
    split; [done|]. split; [done|]. split; [intros H8; by apply Hs1, Hsim|].
    split; [|done]. intros Hrun'.
    destruct (Hs2 Hrun') as [Hold|Hnew]; [by apply Hd, Hrep|done]. }
  destruct (decide (current_step wz = 8)) as [E8|_].
  { rewrite (display_step_8_ok _ Hplay). simpl. by exists wz. }
  by exists wz.
Qed.

Lemma previous_step_ok (wz : Wizard) :
  playable (session wz) → wizard_ok wz →
  playable (session (previous_step wz)) ∧ wizard_ok (previous_step wz).
Proof.
  intros Hplay (Hrange & Hsub & Hsim & Hrep & Hent & Hdue).
  unfold previous_step.
  destruct (decide (0 < current_step wz)) as [Hpos|_]; [|done].
  destruct (decide (current_step wz - 1 = 5)) as [E5|N5].
  { split; [by apply play_back|]. unfold wizard_ok. simpl.
    split; [lia|]. split; [lia|]. split; [lia|]. split; [done|].
    split; [|done]. intros _. apply Hent. lia. }
  destruct (decide (current_step wz - 1 = 6)) as [E6|N6].
  { split; [done|]. unfold wizard_ok. simpl.
    split; [lia|]. split; [lia|]. split; [lia|]. split; [done|].
    split; [|done]. intros _. apply Hent. lia. }
  split; [done|]. unfold wizard_ok. simpl.
  split; [lia|]. split; [intros H; apply Hsub; lia|].
  split; [intros H; apply Hsim; lia|]. split; [done|].
  split; [|done]. intros H. apply Hent. lia.
Qed.

Lemma can_proceed_entries (wz : Wizard) :
  current_step wz = 4 → can_proceed wz = Some true →
  ∀ k, k ∈ checked_products →
       is_Some (player_predictions (session wz) !! k) ∧
       is_Some (player_service_levels (session wz) !! k).
Proof.
  intros E4 Hcan k Hk. unfold can_proceed in Hcan.
  rewrite decide_True in Hcan by done.
  assert (forallb (λ product_id,
            bool_decide (is_Some (player_predictions (session wz) !! product_id)) &&
            bool_decide (is_Some (player_service_levels (session wz) !! product_id)))
            checked_products = true) as Hall
    by (injection Hcan as Hcan; exact Hcan).
  rewrite forallb_forall in Hall.
  specialize (Hall k). rewrite <- list_elem_of_In in Hall.
  specialize (Hall Hk). apply andb_true_iff in Hall as [H1 H2].
  by apply bool_decide_eq_true in H1, H2.
Qed.

Lemma order_entered_ok (wz : Wizard) (k : string) :
  is_Some (products (session wz) !! k) → is_Some (order_entered wz k).
Proof.
  intros [p Hp]. unfold order_entered.
  destruct (default false _); [|by eexists].
  destruct (bool_decide _); [by eexists|]. rewrite Hp. by eexists.
Qed.

Lemma can_proceed_ok (wz : Wizard) :
  playable (session wz) → is_Some (can_proceed wz).
Proof.
  intros Hplay. unfold can_proceed.
  destruct (decide (current_step wz = 4)); [by eexists|].
  destruct (decide (current_step wz = 5)).
  - destruct (playable_game_ok _ Hplay) as (_ & _ & Hcat & _).
    assert (∀ k, is_Some (create_products !! k) → is_Some (order_entered wz k))
      as Hall.
    { intros k Hk. apply order_entered_ok. by apply (catalog_present _ k Hcat). }
    unfold checked_products. cbn [foldr].
    destruct (Hall "WATER") as [b1 ->]; [exists water; reflexivity|].
    destruct (Hall "BREAD") as [b2 ->]; [exists bread; reflexivity|].
    destruct (Hall "MILK") as [b3 ->]; [exists milk; reflexivity|].
    by eexists.
  - destruct (decide (current_step wz = 6)); [by eexists|].
    destruct (decide (current_step wz = 7)); by eexists.
Qed.

Lemma next_step_ok (wz : Wizard) :
  playable (session wz) → wizard_ok wz →
  ∃ wz', next_step wz = Some wz' ∧ playable (session wz') ∧ wizard_ok wz'.
Proof.
  intros Hplay Hok. pose proof Hok as (Hrange & Hsub & Hsim & Hrep & Hent & Hdue).
  unfold next_step.
  destruct (decide (current_step wz < 9)) as [Hlt|_]; [|by exists wz].
  destruct (can_proceed_ok wz Hplay) as [b Hcan]. rewrite Hcan. simpl.
  destruct b; [|by exists wz].
  eexists. split; [reflexivity|]. split; [done|]. unfold wizard_ok. simpl.
  split; [lia|]. split; [|split; [|split; [done|split; [|done]]]].
  - intros H7. destruct (decide (current_step wz = 6)) as [E6|N6]; [|apply Hsub; lia].
    unfold can_proceed in Hcan.
    rewrite decide_False in Hcan by lia. rewrite decide_False in Hcan by lia.
    rewrite decide_True in Hcan by done. by injection Hcan.
  - intros H8. destruct (decide (current_step wz = 7)) as [E7|N7]; [|apply Hsim; lia].
    unfold can_proceed in Hcan.
    rewrite decide_False in Hcan by lia. rewrite decide_False in Hcan by lia.
    rewrite decide_False in Hcan by lia. rewrite decide_True in Hcan by done.
    by injection Hcan.
  - intros H5. destruct (decide (current_step wz = 4)) as [E4|N4]; [|apply Hent; lia].
    by apply can_proceed_entries.
Qed.

Lemma wizard_init_ok : playable (session wizard_init) ∧ wizard_ok wizard_init.
Proof.
  split; [apply play_init|]. unfold wizard_ok. simpl.
  split; [lia|]. split; [lia|]. split; [lia|]. split; [done|].
  split; [lia|]. intros k qty Hk. by rewrite lookup_empty in Hk.
Qed.

Lemma main_spec (w : Widgets) (nav : Navigation) (wz : Wizard) :
  widgets_ok w → playable (session wz) → wizard_ok wz →
  ∃ wz', main w nav wz = Some wz' ∧ playable (session wz') ∧ wizard_ok wz'.
Proof.
  intros Hw Hplay Hok.
  destruct (render_page_spec w wz Hw Hplay Hok) as (wz1 & Hpage & Hp1 & _ & Hok1).
  destruct (next_step_ok wz1 Hp1 Hok1) as (wz2 & Hnext & Hp2 & Hok2).
  unfold main, step_title.
  rewrite (decide_True (P := -10 ≤ current_step wz < 10))
    by (destruct Hok as [? _]; lia).
  simpl. rewrite Hpage. simpl.
  destruct nav; rewrite ?Hnext; simpl.
  - by exists wz1.
  - eexists. split; [reflexivity|]. by apply previous_step_ok.
  - by exists wz2.
  - eexists. split; [reflexivity|]. apply wizard_init_ok.
Qed.

Lemma wizard_reachable_ok (wz : Wizard) :
  wizard_reachable wz → playable (session wz) ∧ wizard_ok wz.
Proof.
  induction 1 as [|w nav wz wz' _ [IH1 IH2] Hw Hrun]; [apply wizard_init_ok|].
  destruct (main_spec w nav wz Hw IH1 IH2) as (wz1 & Hrun1 & H1 & H2).
  rewrite Hrun in Hrun1. by injection Hrun1 as <-.
Qed.

Lemma idle_widgets_ok : widgets_ok idle_widgets.
Proof. by split; [|split]. Qed.

Lemma filled_widgets_ok : widgets_ok filled_widgets.
Proof.
  split; [|split].
  - intros k f Hf. injection Hf as <-. lra.
  - intros k pct Hp. injection Hp as <-. lia.
  - done.
Qed.

Lemma order_widgets_ok : widgets_ok order_widgets.
Proof.
  split; [|split].
  - intros k f Hf. injection Hf as <-. lra.
  - intros k pct Hp. injection Hp as <-. lia.
  - intros k qty Hq. simpl in Hq. destruct (decide (k = "BREAD")); [|done].
    injection Hq as <-. lia.
Qed.

(** With nothing entered the next button leads from each of the first four
    steps to the following one. *)
Lemma main_idle_next (wz : Wizard) :
  playable (session wz) → 0 ≤ current_step wz ≤ 3 →
  main idle_widgets NextButton wz
    = Some (mkWizard (session wz) (current_step wz + 1) (simulation_run wz)
              (products_need_order wz)).
Proof.
  intros Hplay Hstep. unfold main, step_title, render_page.
  rewrite (decide_True (P := -10 ≤ current_step wz < 10)) by lia.
  cbn [mbind option_bind].
  assert (∀ wz', current_step wz' = current_step wz →
            next_step wz'
            = Some (mkWizard (session wz') (current_step wz' + 1)
                      (simulation_run wz') (products_need_order wz'))) as Hnext.
  { intros wz' E. unfold next_step, can_proceed. rewrite E.
    rewrite decide_True by lia. by do 4 rewrite decide_False by lia. }
  destruct (decide (current_step wz = 1)).
  { rewrite display_step_1_ok by done. simpl. by rewrite Hnext. }
  destruct (decide (current_step wz = 2)).
  { rewrite display_step_2_ok by done. simpl. by rewrite Hnext. }
  destruct (decide (current_step wz = 3)).
  { rewrite display_step_3_ok by done. simpl. by rewrite Hnext. }
  do 5 rewrite decide_False by lia. simpl. by rewrite Hnext.
Qed.

Lemma wizard_at_4_reachable : wizard_reachable (wizard_at 4).
Proof.
  apply (wizard_run idle_widgets NextButton (wizard_at 3));
    [|apply idle_widgets_ok|apply (main_idle_next (wizard_at 3) play_init); simpl; lia].
  apply (wizard_run idle_widgets NextButton (wizard_at 2));
    [|apply idle_widgets_ok|apply (main_idle_next (wizard_at 2) play_init); simpl; lia].
  apply (wizard_run idle_widgets NextButton (wizard_at 1));
    [|apply idle_widgets_ok|apply (main_idle_next (wizard_at 1) play_init); simpl; lia].
  apply (wizard_run idle_widgets NextButton (wizard_at 0));
    [|apply idle_widgets_ok|apply (main_idle_next (wizard_at 0) play_init); simpl; lia].
  apply wizard_start.
Qed.

(** With every forecast and service level entered the next button of
    step 4 leads to step 5. *)
Lemma wizard_at_5 :
  ∃ wz, main filled_widgets NextButton (wizard_at 4) = Some wz ∧
        current_step wz = 5 ∧ products (session wz) = create_products.
Proof.
  destruct (render_step_4_predict_spec filled_widgets initialize_game
              filled_widgets_ok play_init)
    as (st' & Hrun & _ & Hprods & _ & _ & _ & Hpp & Hsl).
  exists (mkWizard st' 5 false ∅). split; [|split; [reflexivity|exact Hprods]].
  unfold main, step_title, render_page.
  change (current_step (wizard_at 4)) with 4.
  change (session (wizard_at 4)) with initialize_game.
  rewrite (decide_True (P := -10 ≤ 4 < 10)) by lia. cbn [mbind option_bind].
  do 3 rewrite decide_False by lia. rewrite decide_True by done.
  rewrite Hrun. cbn [mbind option_bind].
  unfold next_step, can_proceed, set_session.
  cbn [current_step session simulation_run products_need_order].
  change (current_step (wizard_at 4)) with 4.
  change (simulation_run (wizard_at 4)) with false.
  change (products_need_order (wizard_at 4)) with (∅ : gmap string bool).
  rewrite decide_True by lia. rewrite decide_True by reflexivity.
  assert (∀ k, is_Some (create_products !! k) →
               is_Some (player_predictions st' !! k) ∧
               is_Some (player_service_levels st' !! k)) as Hall.
  { intros k Hk. rewrite Hpp, Hsl.
    change (products initialize_game) with create_products.
    rewrite !decide_True by exact Hk.
    split; eexists; reflexivity. }
  unfold checked_products.
  destruct (Hall "WATER") as [H1 H2]; [exists water; reflexivity|].
  destruct (Hall "BREAD") as [H3 H4]; [exists bread; reflexivity|].
  destruct (Hall "MILK") as [H5 H6]; [exists milk; reflexivity|].
  cbn [forallb].
  rewrite (bool_decide_eq_true_2 _ H1), (bool_decide_eq_true_2 _ H2),
          (bool_decide_eq_true_2 _ H3), (bool_decide_eq_true_2 _ H4),
          (bool_decide_eq_true_2 _ H5), (bool_decide_eq_true_2 _ H6).
  reflexivity.
Qed.

Lemma run_widgets_ok : widgets_ok run_widgets.
Proof.
  split; [|split].
  - intros k f Hf. injection Hf as <-. lra.
  - intros k pct Hp. injection Hp as <-. lia.
  - intros k qty Hq. injection Hq as <-. lia.
Qed.

(** The next button on a page whose check passes. *)
Lemma main_next (w : Widgets) (wz wz1 : Wizard) :
  0 ≤ current_step wz ≤ 9 → render_page w wz = Some wz1 →
  current_step wz1 < 9 → can_proceed wz1 = Some true →
  main w NextButton wz
    = Some (mkWizard (session wz1) (current_step wz1 + 1) (simulation_run wz1)
              (products_need_order wz1)).
Proof.
  intros Hrange Hpage Hlt Hcan. unfold main, step_title.
  rewrite (decide_True (P := -10 ≤ current_step wz < 10)) by lia.
  cbn [mbind option_bind]. rewrite Hpage. cbn [mbind option_bind].
  unfold next_step. rewrite (decide_True (P := current_step wz1 < 9)) by exact Hlt.
  rewrite Hcan. reflexivity.
Qed.

(** With a quantity of 0 entered for every product, the next button of
    step 5 leads to step 6 with a batch of zeros. *)
Lemma main_next_5 (w : Widgets) (wz : Wizard) :
  widgets_ok w → playable (session wz) → wizard_ok wz → current_step wz = 5 →
  (∀ k, order_input w k = Some 0) →
  ∃ wz', main w NextButton wz = Some wz' ∧ current_step wz' = 6 ∧
         ∀ k qty, player_orders (session wz') !! k = Some qty → qty = 0.
Proof.
  intros Hw Hplay Hok E5 Hzero.
  destruct (render_step_5_page_spec w wz Hw Hplay)
    as (wz1 & Hrun & Hplay1 & Hstep & _ & _ & _ & _ & _ & _ & Hentries).
  destruct (playable_game_ok _ Hplay) as (_ & _ & Hcat & _).
  destruct (playable_game_ok _ Hplay1) as ((_ & Hord & _) & _ & Hcat1 & _).
  assert (∀ k, is_Some (create_products !! k) →
               player_orders (session wz1) !! k = Some 0) as Hall.
  { intros k Hk. apply (catalog_present _ k Hcat) in Hk.
    destruct (Hentries k Hk) as (fig & _ & _ & ->). rewrite Hzero.
    by destruct (step5_should_order fig). }
  assert (render_page w wz = Some wz1) as Hpage.
  { unfold render_page. do 4 rewrite decide_False by lia.
    by rewrite decide_True by done. }
  assert (∀ k, is_Some (create_products !! k) → order_entered wz1 k = Some true)
    as Hent.
  { intros k Hk. unfold order_entered. destruct (default false _); [|done].
    rewrite bool_decide_eq_true_2; [done|]. rewrite (Hall k Hk). by eexists. }
  assert (can_proceed wz1 = Some true) as Hcan.
  { unfold can_proceed. rewrite decide_False by lia. rewrite decide_True by lia.
    unfold checked_products. cbn [foldr].
    rewrite (Hent "WATER") by (exists water; reflexivity).
    rewrite (Hent "BREAD") by (exists bread; reflexivity).
    rewrite (Hent "MILK") by (exists milk; reflexivity).
    reflexivity. }
  eexists. split; [apply (main_next w wz wz1)|].
  - lia.
  - exact Hpage.
  - lia.
  - exact Hcan.
  - cbn [current_step session]. split; [lia|]. intros k qty Hk.
    destruct (Hord k qty Hk) as [_ Hp]. apply (catalog_present _ k Hcat1) in Hp.
    rewrite (Hall k Hp) in Hk. congruence.
Qed.

(** A batch of zeros needs no confirmation: the next button of step 6
    leads to step 7. *)
Lemma main_next_6 (w : Widgets) (wz : Wizard) :
  playable (session wz) → wizard_ok wz → current_step wz = 6 →
  (∀ k qty, player_orders (session wz) !! k = Some qty → qty = 0) →
  ∃ wz', main w NextButton wz = Some wz' ∧ current_step wz' = 7.
Proof.
  intros Hplay Hok E6 Hzero.
  destruct (playable_game_ok _ Hplay) as ((_ & Hord & _) & _).
  destruct (render_step_6_order_cases (confirm_clicked w) (session wz))
    as (tc & pend' & _ & _ & [[_ H]|[(k & qty & Hk & Hpos) _]]).
  - intros k qty Hk. by apply (Hord k qty).
  - eexists.
    split; [apply (main_next w wz (set_session (mark_submitted (session wz)) wz))|].
    + lia.
    + unfold render_page. do 5 rewrite decide_False by lia.
      rewrite decide_True by done. rewrite H. reflexivity.
    + cbn [set_session current_step]. lia.
    + unfold can_proceed. cbn [set_session current_step session].
      do 2 rewrite decide_False by lia. rewrite decide_True by done.
      reflexivity.
    + cbn [set_session current_step]. lia.
  - rewrite (Hzero k qty Hk) in Hpos. lia.
Qed.

(** Once the run button is pressed, the next button of step 7 leads to
    step 8. *)
Lemma main_next_7 (w : Widgets) (wz : Wizard) :
  playable (session wz) → wizard_ok wz → current_step wz = 7 →
  run_clicked w = true →
  ∃ wz', main w NextButton wz = Some wz' ∧ current_step wz' = 8.
Proof.
  intros Hplay Hok E7 Hc.
  destruct (render_step_7_run_spec w wz Hplay) as (wz1 & Hrun & _ & Hstep & _).
  assert (simulation_run wz1 = true) as Hsim.
  { unfold render_step_7_run in Hrun. rewrite Hc in Hrun.
    destruct (display_each _ _) in Hrun; [|discriminate].
    cbn [mbind option_bind] in Hrun.
    destruct (process_daily_sales _ _) as [[r st']|]; [|discriminate].
    cbn [mbind option_bind] in Hrun.
    destruct (display_each _ _) in Hrun; [|discriminate].
    cbn [mbind option_bind] in Hrun. injection Hrun as <-. reflexivity. }
  eexists. split; [apply (main_next w wz wz1)|].
  - lia.
  - unfold render_page. do 6 rewrite decide_False by lia.
    by rewrite decide_True by done.
  - lia.
  - unfold can_proceed. do 3 rewrite decide_False by lia.
    rewrite decide_True by lia. by rewrite Hsim.
  - cbn [current_step]. lia.
Qed.

(** A game played to the report: steps 1 to 4 with the forecasts entered,
    then no quantity ordered at step 5, nothing to confirm at step 6 and a
    day simulated at step 7. *)
Lemma wizard_at_8 :
  ∃ wz5 wz6 wz7 wz8,
    main filled_widgets NextButton (wizard_at 4) = Some wz5 ∧
    main run_widgets NextButton wz5 = Some wz6 ∧
    main run_widgets NextButton wz6 = Some wz7 ∧
    main run_widgets NextButton wz7 = Some wz8 ∧
    current_step wz8 = 8.
Proof.
  destruct wizard_at_5 as (wz5 & H5 & E5 & _).
  pose proof (wizard_run filled_widgets NextButton (wizard_at 4) wz5
                wizard_at_4_reachable filled_widgets_ok H5) as R5.
  destruct (wizard_reachable_ok wz5 R5) as [P5 O5].
  destruct (main_next_5 run_widgets wz5 run_widgets_ok P5 O5 E5)
    as (wz6 & H6 & E6 & Hzero); [reflexivity|].
  pose proof (wizard_run run_widgets NextButton wz5 wz6 R5 run_widgets_ok H6)
    as R6.
  destruct (wizard_reachable_ok wz6 R6) as [P6 O6].
  destruct (main_next_6 run_widgets wz6 P6 O6 E6 Hzero) as (wz7 & H7 & E7).
  pose proof (wizard_run run_widgets NextButton wz6 wz7 R6 run_widgets_ok H7)
    as R7.
  destruct (wizard_reachable_ok wz7 R7) as [P7 O7].
  destruct (main_next_7 run_widgets wz7 P7 O7 E7 eq_refl) as (wz8 & H8 & E8).
  exists wz5, wz6, wz7, wz8.
  split; [exact H5|]. split; [exact H6|]. split; [exact H7|].
  split; [exact H8|exact E8].
Qed.

(** X27. The wizard never crashes and never leaves the game: in every state
    runs of [main] lead to, the session is one of a game, and whatever the
    widgets return within their bounds and whichever button is pressed the
    next run of [main] completes: nothing raises, neither what a page
    computes for display, nor what it does to the state, nor the checks of
    the navigation. *)
Theorem main_never_raises (wz : Wizard) :
  wizard_reachable wz →
  playable (session wz) ∧
  ∀ w nav, widgets_ok w →
           ∃ wz', main w nav wz = Some wz' ∧ wizard_reachable wz'.
Proof.
  intros Hreach. destruct (wizard_reachable_ok wz Hreach) as [Hplay Hok].
  split; [exact Hplay|]. intros w nav Hw.
  destruct (main_spec w nav wz Hw Hplay Hok) as (wz' & Hrun & _).
  exists wz'. split; [exact Hrun|]. by apply (wizard_run w nav wz).
Qed.

Lemma main_never_raises_witness :
  playable (session (wizard_at 4)) ∧
  ∀ w nav, widgets_ok w →
           ∃ wz', main w nav (wizard_at 4) = Some wz' ∧ wizard_reachable wz'.
Proof. exact (main_never_raises (wizard_at 4) wizard_at_4_reachable). Defined.

(** X28. The pages come in order: the step stays between 0 and 9, the
    simulation page (step 7) and the pages after it are only shown once
    step 6 has set [order_submitted], and the report and the final page
    (steps 8 and 9) only once a day has been simulated, so the report log
    they read is not empty. *)
Theorem pages_come_in_order (wz : Wizard) :
  wizard_reachable wz →
  0 ≤ current_step wz ≤ 9 ∧
  (7 ≤ current_step wz → order_submitted (session wz) = true) ∧
  (8 ≤ current_step wz →
     simulation_run wz = true ∧ daily_reports (session wz) ≠ []).
Proof.
  intros Hreach.
  destruct (wizard_reachable_ok wz Hreach) as (_ & Hrange & Hsub & Hsim & Hrep & _).
  split; [exact Hrange|]. split; [exact Hsub|].
  intros H8. split; [by apply Hsim|]. by apply Hrep, Hsim.
Qed.

(** A game played to the report page: at step 8 the order step is marked
    as done, the simulation has run and the report log is not empty. *)
Lemma pages_come_in_order_witness :
  ∃ wz5 wz6 wz7 wz8,
    main filled_widgets NextButton (wizard_at 4) = Some wz5 ∧
    main run_widgets NextButton wz5 = Some wz6 ∧
    main run_widgets NextButton wz6 = Some wz7 ∧
    main run_widgets NextButton wz7 = Some wz8 ∧
    current_step wz8 = 8 ∧
    order_submitted (session wz8) = true ∧
    simulation_run wz8 = true ∧
    daily_reports (session wz8) ≠ [].
Proof.
  destruct wizard_at_8 as (wz5 & wz6 & wz7 & wz8 & H5 & H6 & H7 & H8 & E8).
  exists wz5, wz6, wz7, wz8.
  split; [exact H5|]. split; [exact H6|]. split; [exact H7|].
  split; [exact H8|]. split; [exact E8|].
  assert (wizard_reachable wz8) as R8.
  { apply (wizard_run run_widgets NextButton wz7 wz8);
      [|apply run_widgets_ok|exact H8].
    apply (wizard_run run_widgets NextButton wz6 wz7);
      [|apply run_widgets_ok|exact H7].
    apply (wizard_run run_widgets NextButton wz5 wz6);
      [|apply run_widgets_ok|exact H6].
    exact (wizard_run filled_widgets NextButton (wizard_at 4) wz5
             wizard_at_4_reachable filled_widgets_ok H5). }
  destruct (pages_come_in_order wz8 R8) as (_ & Hsub & Hsim).
  split; [apply Hsub; lia|]. apply Hsim. lia.
Defined.



(** X30. Only products that step 5 finds due are ordered. A run of step 5
    completes and, for each product, marks it in [products_need_order]
    exactly when its stock does not exceed the reorder point, stores the
    quantity entered if it is due (an empty widget keeps the entry there
    was) and the quantity 0 if it is not. So in every state of the wizard a
    positive quantity in [player_orders] belongs to a marked product, and
    no entry is negative or for an unknown product. *)
Theorem only_due_products_are_ordered (wz : Wizard) (w : Widgets) :
  wizard_reachable wz → widgets_ok w →
  (∀ k qty, player_orders (session wz) !! k = Some qty →
     0 ≤ qty ∧ is_Some (products (session wz) !! k) ∧
     (0 < qty → products_need_order wz !! k = Some true)) ∧
  (current_step wz = 5 →
   ∃ wz', main w NoButton wz = Some wz' ∧
     ∀ k, is_Some (products (session wz) !! k) →
       ∃ figures,
         render_step_5_calculate (session wz) k = Some figures ∧
         products_need_order wz' !! k = Some (step5_should_order figures) ∧
         player_orders (session wz') !! k
           = entry_after_step_5 (step5_should_order figures)
               (order_input w k) (player_orders (session wz) !! k)).
Proof.
  intros Hreach Hw.
  destruct (wizard_reachable_ok wz Hreach) as (Hplay & _ & _ & _ & _ & _ & Hdue).
  split.
  - intros k qty Hk.
    destruct (playable_game_ok _ Hplay) as ((_ & Hord & _) & _).
    destruct (Hord k qty Hk) as [H0 Hp].
    split; [done|]. split; [done|]. by apply Hdue.
  - intros E5.
    destruct (render_step_5_page_spec w wz Hw Hplay)
      as (wz' & Hrun & _ & _ & _ & _ & _ & _ & _ & _ & Hentries).
    exists wz'. split; [|exact Hentries].
    destruct (wizard_reachable_ok wz Hreach) as (_ & Hok).
    destruct (render_page_spec w wz Hw Hplay Hok) as (wz1 & Hpage & Hp1 & _ & Hok1).
    destruct (next_step_ok wz1 Hp1 Hok1) as (wz2 & Hnext & _).
    assert (render_page w wz = Some wz') as Hpage'.
    { unfold render_page. do 4 rewrite decide_False by lia.
      by rewrite decide_True by done. }
    rewrite Hpage' in Hpage. injection Hpage as <-.
    unfold main, step_title.
    rewrite (decide_True (P := -10 ≤ current_step wz < 10)) by lia.
    cbn [mbind option_bind]. rewrite Hpage'. cbn [mbind option_bind].
    by rewrite Hnext.
Qed.

Lemma only_due_products_are_ordered_witness :
  ∃ wz,
    main filled_widgets NextButton (wizard_at 4) = Some wz ∧
    (∀ k qty, player_orders (session wz) !! k = Some qty →
       0 ≤ qty ∧ is_Some (products (session wz) !! k) ∧
       (0 < qty → products_need_order wz !! k = Some true)) ∧
    ∃ wz', main order_widgets NoButton wz = Some wz' ∧
      ∀ k, is_Some (products (session wz) !! k) →
        ∃ figures,
          render_step_5_calculate (session wz) k = Some figures ∧
          products_need_order wz' !! k = Some (step5_should_order figures) ∧
          player_orders (session wz') !! k
            = entry_after_step_5 (step5_should_order figures)
                (order_input order_widgets k) (player_orders (session wz) !! k).
Proof.
  destruct wizard_at_5 as (wz & Hrun & Hstep & _).
  exists wz. split; [exact Hrun|].
  assert (wizard_reachable wz) as Hreach.
  { exact (wizard_run filled_widgets NextButton (wizard_at 4) wz
             wizard_at_4_reachable filled_widgets_ok Hrun). }
  destruct (only_due_products_are_ordered wz order_widgets Hreach
              order_widgets_ok) as [H1 H2].
  split; [exact H1|exact (H2 Hstep)].
Defined.
